(** * Lernenergie-Profil: the scoring and validation engine

    A shallow embedding of [lernprofil/auswertung.py] (version 0.2.1): the
    static item taxonomy, [validate_ratings], [reverse_likert],
    [classify_score], [check_response_quality], [compute_dimension_scores],
    [compute_chronotype_index], [compute_additional_indices] and
    [compute_profile], followed by the properties the specification states
    about them.

    Conventions of the embedding.
    - A Python [dict] is an association list in insertion order whose keys
      are pairwise distinct ([wf_dict]); iteration follows the list.
    - A dynamically typed value is a [pyval]; [bool] is a subclass of [int]
      in Python, so [isinstance(v, int)] holds of [PBool] as well.
    - The result dicts with a fixed set of keys are records, except the
      dict of [check_response_quality], which is kept as a dict so that the
      presence of a key and a [None] value under it stay apart.
    - A raised exception is a [Raise] result carrying the exception class and
      a structured rendering of the message that the source formats.
    - A Python [float] is modelled by the rational number it denotes: the
      arithmetic of the source is carried out exactly in [Q], and
      [round(x, n)] is rounding to [n] decimals, ties to even, returning the
      decimal in lowest terms. *)

From Stdlib Require Import String Ascii List Bool ZArith QArith Qround Qabs.
From Stdlib Require Import Lia Lqa.
From Stdlib Require Import Permutation Sorted.
Import ListNotations.
Local Open Scope string_scope.
Local Open Scope list_scope.
Local Open Scope Z_scope.

(* ------------------------------------------------------------------------- *)
(** ** Python values, exceptions, dictionaries *)

Inductive pyval : Type :=
| PInt (z : Z)
| PBool (b : bool)
| PFloat (q : Q)
| PStr (s : string)
| PNone.

(** [isinstance(v, int)] *)
Definition isinstance_int (v : pyval) : bool :=
  match v with
  | PInt _ | PBool _ => true
  | _ => false
  end.

(** The integer denoted by an instance of [int] ([True] is 1, [False] is 0). *)
Definition int_of (v : pyval) : Z :=
  match v with
  | PInt z => z
  | PBool true => 1
  | _ => 0
  end.

(** The number denoted by an instance of [int] or [float]; [None] exactly
    when [isinstance(v, (int, float))] is false. *)
Definition num_of (v : pyval) : option Q :=
  match v with
  | PInt z => Some (inject_Z z)
  | PBool b => Some (inject_Z (int_of (PBool b)))
  | PFloat q => Some q
  | _ => None
  end.

Inductive exn_class : Type :=
| TypeError | ValueError | RuntimeError | KeyError
| ZeroDivisionError | AssertionError.

(** The messages of the source, with the formatted parts as arguments. *)
Inductive message : Type :=
| Likert_kein_int (v : pyval)
    (* "Likert-Wert muss int sein, erhalten: ..." *)
| Likert_ausserhalb (v : pyval)
    (* "Likert-Wert muss zwischen 1 und 5 liegen, erhalten: ..." *)
| Score_nicht_numerisch (v : pyval)
    (* "Score muss numerisch sein, erhalten: ..." *)
| Score_ausserhalb (v : pyval)
    (* "Score muss zwischen 0 und 100 liegen, erhalten: ..." *)
| Fehlende_Items (codes : list string)
    (* "Fehlende Items: " + ", ".join(codes) *)
| Unbekannte_Items (codes : list string)
    (* "Unbekannte Items: " + ", ".join(codes) *)
| Rating_kein_int (code : string) (v : pyval)
    (* "Rating für {code} ist kein int: ..." *)
| Rating_ausserhalb (code : string) (v : pyval)
    (* "Rating für {code} außerhalb des erlaubten Bereichs 1-5: ..." *)
| Keine_Items_fuer_Dimension (dim_code label : string)
    (* "Keine Items für Dimension '{dim_code}' ({label}) gefunden" *)
| Fehlender_Chronotyp_Wert (code : string)
    (* "Fehlender Chronotyp-Wert für Item {code}" *)
| Interner_Konsistenzfehler (inner : message)
    (* "Interner Konsistenzfehler beim Chronotyp-Index: {e}" *)
| Assertion (text : string)
| Key_fehlt (key : string)
| Division_by_zero
| Unsupported_operand (v : pyval).

Definition exn_class_eqb (a b : exn_class) : bool :=
  match a, b with
  | TypeError, TypeError | ValueError, ValueError
  | RuntimeError, RuntimeError | KeyError, KeyError
  | ZeroDivisionError, ZeroDivisionError
  | AssertionError, AssertionError => true
  | _, _ => false
  end.

Inductive exn : Type := Exn (cls : exn_class) (msg : message).

Inductive result (A : Type) : Type :=
| Ok (a : A)
| Raise (e : exn).
Arguments Ok {A} a.
Arguments Raise {A} e.

Definition bind {A B : Type} (r : result A) (k : A -> result B) : result B :=
  match r with
  | Ok a => k a
  | Raise e => Raise e
  end.

Notation "x <- r ;; k" := (bind r (fun x => k))
  (at level 61, r at next level, right associativity).
Notation "r ;;; k" := (bind r (fun _ => k))
  (at level 61, right associativity).

(** [try: body  except cls: handler] *)
Definition try_except {A : Type} (body : result A) (cls : exn_class)
    (handler : message -> result A) : result A :=
  match body with
  | Raise (Exn c m) => if exn_class_eqb c cls then handler m else body
  | _ => body
  end.

Definition dict (V : Type) : Type := list (string * V).

Definition keys {V : Type} (d : dict V) : list string := map fst d.
Definition values {V : Type} (d : dict V) : list V := map snd d.

(** [d.get(k)] *)
Fixpoint dict_get {V : Type} (d : dict V) (k : string) : option V :=
  match d with
  | [] => None
  | (k', v) :: d' => if String.eqb k k' then Some v else dict_get d' k
  end.

(** [k in d] *)
Definition dict_mem {V : Type} (k : string) (d : dict V) : bool :=
  match dict_get d k with Some _ => true | None => false end.

(** [d[k]], raising [KeyError] *)
Definition dict_item {V : Type} (d : dict V) (k : string) : result V :=
  match dict_get d k with
  | Some v => Ok v
  | None => Raise (Exn KeyError (Key_fehlt k))
  end.

(** Membership in a list of codes, as a boolean. *)
Definition mem (k : string) (l : list string) : bool :=
  existsb (String.eqb k) l.

(** Keys pairwise distinct, as a boolean check. *)
Fixpoint distinct_keys (l : list string) : bool :=
  match l with
  | [] => true
  | k :: l' => negb (mem k l') && distinct_keys l'
  end.

(** The well-formedness of a dictionary: no key occurs twice. *)
Definition wf_dict {V : Type} (d : dict V) : Prop :=
  distinct_keys (keys d) = true.

(** [sorted(l)] on strings: the order of Python is the order of the code
    points, which is the order of the bytes of the UTF-8 encoding. *)
Fixpoint insert_sorted (x : string) (l : list string) : list string :=
  match l with
  | [] => [x]
  | y :: l' => if String.leb x y then x :: l else y :: insert_sorted x l'
  end.

Definition sorted (l : list string) : list string :=
  fold_right insert_sorted [] l.

(** [round(x, ndigits)] on a float: to the nearest multiple of
    [10^-ndigits], ties to the even one. *)
Definition round_half_even (y : Q) : Z :=
  let n := Qfloor y in
  match Qcompare (y - inject_Z n) (1 # 2) with
  | Lt => n
  | Gt => n + 1
  | Eq => if Z.even n then n else n + 1
  end.

Definition py_round (x : Q) (ndigits : nat) : Q :=
  let s := 10 ^ Z.of_nat ndigits in
  Qred (Qmake (round_half_even (x * inject_Z s)) (Z.to_pos s)).

(** [sum(l)] over numbers; adding a non-number to the running total raises
    [TypeError]. *)
Fixpoint py_sum (l : list pyval) : result Q :=
  match l with
  | [] => Ok 0%Q
  | v :: l' =>
      match num_of v with
      | Some q => s <- py_sum l' ;; Ok (q + s)%Q
      | None => Raise (Exn TypeError (Unsupported_operand v))
      end
  end.

(** [a / len(l)] *)
Definition div_len {A : Type} (a : Q) (l : list A) : result Q :=
  match l with
  | [] => Raise (Exn ZeroDivisionError Division_by_zero)
  | _ => Ok (a / inject_Z (Z.of_nat (length l)))%Q
  end.

(** [sum(l) / len(l)] *)
Definition py_mean (l : list pyval) : result Q :=
  s <- py_sum l ;; div_len s l.

Definition Qltb (x y : Q) : bool := negb (Qle_bool y x).

(* ------------------------------------------------------------------------- *)
(** ** The domain model *)

Definition VERSION : string := "0.2.1".

Definition QUALITY_WARN_STRAIGHT : string :=
  "Nur 1-2 verschiedene Antworten verwendet".
Definition QUALITY_WARN_LOW_VAR : string :=
  "Sehr geringe Antwortvariation".

Definition DIMENSION_LABELS : dict string :=
  [ ("attention", "Aufmerksamkeitsarchitektur");
    ("sensory", "Sensorische Verarbeitung");
    ("social", "Soziale Energetik");
    ("executive", "Exekutive Funktionen & Strukturbedürfnis");
    ("motivation", "Motivationsarchitektur");
    ("regulation", "Autonome Regulation / Stress & Vigilanz") ].

Record ItemDefinition : Type := {
  code : string;
  dimension_code : string;
  include_in_main_scale : bool;
  reverse_scored : bool;
  facet : string
}.

Definition _i (code dim facet : string) (include reverse : bool)
    : ItemDefinition :=
  {| code := code;
     dimension_code := dim;
     facet := facet;
     include_in_main_scale := include;
     reverse_scored := reverse |}.

(** Item definitions of version 0.2.x, in the order of the source; the
    defaults [include=True] and [reverse=False] of [_i] are written out. *)
Definition ITEM_DEFINITIONS : dict ItemDefinition :=
  [(* Aufmerksamkeitsarchitektur (10 Hauptskala + 6 Chronotyp) *)
    ("A1", _i "A1" "attention" "Fokusdauer" true false);
    ("A2", _i "A2" "attention" "Distraktibilität" true true);
    ("A3", _i "A3" "attention" "Wiedereinstieg" true false);
    ("A4", _i "A4" "attention" "Arbeitsstil_Sequenziell" true false);
    ("A5", _i "A5" "attention" "Task_Switching_Energie" true true);
    ("A6", _i "A6" "attention" "Pausenplanung" true false);
    ("A7", _i "A7" "attention" "Flow_Neigung" true false);
    ("A8", _i "A8" "attention" "Chronotyp_Morgen" false false);
    ("A9", _i "A9" "attention" "Chronotyp_Abend" false false);
    ("A10", _i "A10" "attention" "Mikropausenbedarf" true true);
    ("A11", _i "A11" "attention" "Selbstmonitoring_Konzentration" true false);
    ("A12", _i "A12" "attention" "Fokus_in_Stresssituationen" true false);
    ("A13", _i "A13" "attention" "Chronotyp_Schlafzeit_Wochentag" false false);
    ("A14", _i "A14" "attention" "Chronotyp_Aufwachzeit_Wochentag" false false);
    ("A15", _i "A15" "attention" "Chronotyp_Leistungshoch_vormittag" false false);
    ("A16", _i "A16" "attention" "Chronotyp_Leistungshoch_abend" false false);

    (* Sensorische Verarbeitung (13 Items) *)
    ("S1", _i "S1" "sensory" "Lärmempfindlichkeit" true false);
    ("S2", _i "S2" "sensory" "Lichtempfindlichkeit" true false);
    ("S3", _i "S3" "sensory" "Detailwahrnehmung" true false);
    ("S4", _i "S4" "sensory" "Ordnung_Umgebung" true false);
    ("S5", _i "S5" "sensory" "Erholung_nach_Reiz" true false);
    ("S6", _i "S6" "sensory" "Sensation_Seeking" true true);
    ("S7", _i "S7" "sensory" "Musik_Positive_Wirkung" true true);
    ("S8", _i "S8" "sensory" "Musik_Ablenkung" true false);
    ("S9", _i "S9" "sensory" "Coping_Strategien_Reize" true false);
    ("S10", _i "S10" "sensory" "Neue_Reize_Positive_Wirkung" true true);
    ("S11", _i "S11" "sensory" "Multisensory_Ermüdung" true false);
    ("S12", _i "S12" "sensory" "Umgebungsgestaltung_aktiv" true false);
    ("S13", _i "S13" "sensory" "Multisensorische_Lernpräferenz" true false);

    (* Soziale Energetik (13 Items) *)
    ("SO1", _i "SO1" "social" "Soziale_Aufladung" true false);
    ("SO2", _i "SO2" "social" "Alleinlernen_Präferenz" true true);
    ("SO3", _i "SO3" "social" "Gruppenarbeit_Energieminus" true true);
    ("SO4", _i "SO4" "social" "Diskussion_Nutzen" true false);
    ("SO5", _i "SO5" "social" "Erholung_Alleinsein" true true);
    ("SO6", _i "SO6" "social" "Kleine_vertraute_Gruppen" true false);
    ("SO7", _i "SO7" "social" "Zurückhaltung_große_Gruppen" true true);
    ("SO8", _i "SO8" "social" "Live_Sitzungen_Motivation" true false);
    ("SO9", _i "SO9" "social" "Asynchron_Präferenz" true true);
    ("SO10", _i "SO10" "social" "Erklären_als_Energiequelle" true false);
    ("SO11", _i "SO11" "social" "Soziale_Planung" true false);
    ("SO12", _i "SO12" "social" "Soziale_Unterstützung_Nutzen" true false);
    ("SO13", _i "SO13" "social" "Isolation_bei_Überforderung" true true);

    (* Exekutive Funktionen & Strukturbedürfnis (16 Items) *)
    ("E1", _i "E1" "executive" "Planung_Teilschritte" true false);
    ("E2", _i "E2" "executive" "Strukturbedarf_Start" true true);
    ("E3", _i "E3" "executive" "Überblick_bei_Vielzahl_Aufgaben" true true);
    ("E4", _i "E4" "executive" "Nutzung_Organisationstools" true false);
    ("E5", _i "E5" "executive" "Vorliebe_vorgegebene_Struktur" true false);
    ("E6", _i "E6" "executive" "Flexible_Nutzung_von_Plänen" true false);
    ("E7", _i "E7" "executive" "Spontane_Improvisation" true true);
    ("E8", _i "E8" "executive" "Durchhaltevermögen" true false);
    ("E9", _i "E9" "executive" "Re-Organisation_bei_Unterbrechungen" true false);
    ("E10", _i "E10" "executive" "Kriterienbedarf_Qualität" true false);
    ("E11", _i "E11" "executive" "Detailverlorenheit" true true);
    ("E12", _i "E12" "executive" "Deadline_Koordination" true false);
    ("E13", _i "E13" "executive" "Arbeitsgedächtnis_Multitasking" true true);
    ("E14", _i "E14" "executive" "Instruktionskomplexität" true true);
    ("E15", _i "E15" "executive" "Lernprozess_Monitoring" true false);
    ("E16", _i "E16" "executive" "Schwierigkeitseinschätzung" true false);

    (* Motivationsarchitektur (16 Hauptskala + 2 Vermeidung) *)
    ("M1", _i "M1" "motivation" "Intrinsische_Motivation" true false);
    ("M2", _i "M2" "motivation" "Vermeidungsorientierung" false false);
    ("M3", _i "M3" "motivation" "Zielorientierung" true false);
    ("M4", _i "M4" "motivation" "Fortschrittsanzeige" true false);
    ("M5", _i "M5" "motivation" "Feedbackbedarf" true false);
    ("M6", _i "M6" "motivation" "Feedbackdetailgrad" true false);
    ("M7", _i "M7" "motivation" "Feedbacktonalität_Positive" true false);
    ("M8", _i "M8" "motivation" "Feedbacktonalität_Kritisch" true false);
    ("M9", _i "M9" "motivation" "Prokrastination" false false);
    ("M10", _i "M10" "motivation" "Interesse_Flow" true false);
    ("M11", _i "M11" "motivation" "Extrinsische_Belohnung" true false);
    ("M12", _i "M12" "motivation" "Persistenz_ohne_Feedback" true false);
    ("M13", _i "M13" "motivation" "Intrinsische_Motivation_reversed" true true);
    ("M14", _i "M14" "motivation" "Feedbackabhängigkeit_reversed" true true);
    ("M15", _i "M15" "motivation" "Zielorientierung_reversed" true true);
    ("M16", _i "M16" "motivation" "Extrinsische_Abhängigkeit" true true);
    ("M17", _i "M17" "motivation" "Wenn_Dann_Planung" true false);
    ("M18", _i "M18" "motivation" "Commitment_Strategien" true false);

    (* Autonome Regulation / Stress & Vigilanz (12 Items) *)
    ("R1", _i "R1" "regulation" "Subjektives_Stressniveau" true true);
    ("R2", _i "R2" "regulation" "Abschalten_Abends" true true);
    ("R3", _i "R3" "regulation" "Erschöpfung_nach_Lernen" true true);
    ("R4", _i "R4" "regulation" "Stress_durch_Unvorhergesehenes" true true);
    ("R5", _i "R5" "regulation" "Wahrnehmung_körperlicher_Stresszeichen" true false);
    ("R6", _i "R6" "regulation" "Kurzpausen_Regulation" true false);
    ("R7", _i "R7" "regulation" "Abendroutinen_Regeneration" true false);
    ("R8", _i "R8" "regulation" "Druck_als_Leistungsfaktor" true false);
    ("R9", _i "R9" "regulation" "Schlaf_in_Stressphasen" true true);
    ("R10", _i "R10" "regulation" "Belastungsausgleich" true false);
    ("R11", _i "R11" "regulation" "Prioritätensetzung_in_Stress" true false);
    ("R12", _i "R12" "regulation" "Belastungsgrenze_Wahrnehmung" true false) ].

Definition LIKERT_MIN : Z := 1.
Definition LIKERT_MAX : Z := 5.

Definition MAIN_ITEMS_DEFINED : list ItemDefinition :=
  filter (fun i => include_in_main_scale i) (values ITEM_DEFINITIONS).
Definition INDEX_ITEMS_DEFINED : list ItemDefinition :=
  filter (fun i => negb (include_in_main_scale i)) (values ITEM_DEFINITIONS).

(** [assert cond, text] *)
Definition py_assert (cond : bool) (text : string) : result unit :=
  if cond then Ok tt else Raise (Exn AssertionError (Assertion text)).

(** The consistency check that runs when the module is imported, as a
    function of the table it inspects. *)
Definition import_asserts (defs : dict ItemDefinition) : result unit :=
  let main_items := filter (fun i => include_in_main_scale i) (values defs) in
  let index_items :=
    filter (fun i => negb (include_in_main_scale i)) (values defs) in
  py_assert (length defs =? 88)%nat "Instrument muss genau 88 Items haben" ;;;
  py_assert (length main_items =? 80)%nat
    "Hauptskalen müssen genau 80 Items haben" ;;;
  py_assert (length index_items =? 8)%nat
    "Zusatzindizes müssen genau 8 Items haben" ;;;
  py_assert
    (length (filter (fun i => reverse_scored i) main_items) =? 27)%nat
    "Hauptskalen müssen genau 27 Reverse-Items haben".

(* ------------------------------------------------------------------------- *)
(** ** Core logic *)

Definition in_likert_range (z : Z) : bool :=
  (LIKERT_MIN <=? z) && (z <=? LIKERT_MAX).

Definition reverse_likert (value : pyval) : result pyval :=
  if negb (isinstance_int value) then
    Raise (Exn TypeError (Likert_kein_int value))
  else if negb (in_likert_range (int_of value)) then
    Raise (Exn ValueError (Likert_ausserhalb value))
  else Ok (PInt (LIKERT_MIN + LIKERT_MAX - int_of value)).

Definition classify_score (score : pyval) : result string :=
  match num_of score with
  | None => Raise (Exn TypeError (Score_nicht_numerisch score))
  | Some s =>
      if negb (Qle_bool 0 s && Qle_bool s 100) then
        Raise (Exn ValueError (Score_ausserhalb score))
      else if Qltb s 40 then Ok "niedrig"
      else if Qltb s 75 then Ok "mittel"
      else Ok "hoch"
  end.

(** [==] of Python on the values of the model: numbers compare by value
    across [int], [bool] and [float]. *)
Definition py_eqb (a b : pyval) : bool :=
  match num_of a, num_of b with
  | Some x, Some y => Qeq_bool x y
  | None, None =>
      match a, b with
      | PStr s, PStr t => String.eqb s t
      | PNone, PNone => true
      | _, _ => false
      end
  | _, _ => false
  end.

(** [set(l)], one representative for each class of equal values. *)
Fixpoint py_set (l : list pyval) : list pyval :=
  match l with
  | [] => []
  | v :: l' => if existsb (py_eqb v) l' then py_set l' else v :: py_set l'
  end.

(** [sum((v - mean_val) ** 2 for v in l)] *)
Fixpoint sum_sq_dev (mean_val : Q) (l : list pyval) : result Q :=
  match l with
  | [] => Ok 0%Q
  | v :: l' =>
      match num_of v with
      | Some q =>
          s <- sum_sq_dev mean_val l' ;;
          Ok ((q - mean_val) * (q - mean_val) + s)%Q
      | None => Raise (Exn TypeError (Unsupported_operand v))
      end
  end.

(** The values of the dict that [check_response_quality] returns: an
    [int], a [float], a [str], a list of strings, or [None]. *)
Inductive quality_value : Type :=
  | QInt (n : nat)
  | QFloat (x : Q)
  | QStr (s : string)
  | QList (l : list string)
  | QNone.

(** The returned dict, with its keys in the order of the dict display. *)
Definition ResponseQuality : Type := dict quality_value.

(** The floats of the source are carried as exact rationals.  On a
    validated rating set (88 integers of [1..5]) the two agree.  On other
    inputs they can differ at a boundary (a variance of exactly [0.5], a tie
    at the third decimal), so the theorems on the returned numbers are
    stated for validated rating sets. *)
Definition check_response_quality (ratings : dict pyval)
    : result ResponseQuality :=
  let vals := values ratings in
  let unique_values := length (py_set vals) in
  mean_val <- py_mean vals ;;
  sq <- sum_sq_dev mean_val vals ;;
  variance <- div_len sq vals ;;
  let quality_warnings :=
    (if (unique_values <=? 2)%nat then [QUALITY_WARN_STRAIGHT] else [])
    ++ (if Qltb variance (1 # 2) then [QUALITY_WARN_LOW_VAR] else []) in
  let quality_flag :=
    match quality_warnings with [] => "ok" | _ => "check" end in
  Ok [("num_unique_responses", QInt unique_values);
      ("response_variance", QFloat (py_round variance 2));
      ("mean_response", QFloat (py_round mean_val 2));
      ("quality_flag", QStr quality_flag);
      ("warnings",
       match quality_warnings with
       | [] => QNone
       | _ => QList quality_warnings
       end)].

(** The loop of [validate_ratings] over [ratings.items()]. *)
Fixpoint check_values (items : dict pyval) : result unit :=
  match items with
  | [] => Ok tt
  | (code, value) :: rest =>
      if negb (isinstance_int value) then
        Raise (Exn TypeError (Rating_kein_int code value))
      else if negb (in_likert_range (int_of value)) then
        Raise (Exn ValueError (Rating_ausserhalb code value))
      else check_values rest
  end.

(** [set(a) - set(b)], given the elements of [a] without repetition. *)
Definition missing_from {V : Type} (a : list string) (b : dict V)
    : list string :=
  filter (fun c => negb (dict_mem c b)) a.

Definition validate_ratings (ratings : dict pyval) : result unit :=
  let missing := missing_from (keys ITEM_DEFINITIONS) ratings in
  let extra := missing_from (keys ratings) ITEM_DEFINITIONS in
  match missing, extra with
  | _ :: _, _ => Raise (Exn ValueError (Fehlende_Items (sorted missing)))
  | [], _ :: _ => Raise (Exn ValueError (Unbekannte_Items (sorted extra)))
  | [], [] => check_values ratings
  end.

(* ------------------------------------------------------------------------- *)
(** ** Dimension scores *)

Record DimensionResult : Type := {
  dim_label : string;
  dim_score : Q;
  dim_level : string;
  dim_num_items : nat;
  dim_num_reversed : nat;
  dim_raw_mean : Q;
  dim_item_codes : list string
}.

(** The three per-dimension lists that the first loop fills. *)
Record collected : Type := {
  dim_values : dict (list pyval);
  dim_items : dict (list string);
  dim_raw_values : dict (list pyval)
}.

(** [{code: [] for code in DIMENSION_LABELS.keys()}] *)
Definition empty_lists (V : Type) : dict (list V) :=
  map (fun code => (code, @nil V)) (keys DIMENSION_LABELS).

(** [d[k].append(x)] *)
Fixpoint dict_append {V : Type} (d : dict (list V)) (k : string) (x : V)
    : result (dict (list V)) :=
  match d with
  | [] => Raise (Exn KeyError (Key_fehlt k))
  | (k', l) :: d' =>
      if String.eqb k k' then Ok ((k', l ++ [x]) :: d')
      else d'' <- dict_append d' k x ;; Ok ((k', l) :: d'')
  end.

(** [(x - LIKERT_MIN) / (LIKERT_MAX - LIKERT_MIN) * 100.0] *)
Definition rescale (x : Q) : Q :=
  ((x - inject_Z LIKERT_MIN) / (inject_Z LIKERT_MAX - inject_Z LIKERT_MIN)
   * 100)%Q.

(** One turn of the loop over [ratings.items()]. *)
Definition collect_step (acc : collected) (entry : string * pyval)
    : result collected :=
  let (code, value) := entry in
  item_def <- dict_item ITEM_DEFINITIONS code ;;
  if negb (include_in_main_scale item_def) then Ok acc
  else
    let dim_code := dimension_code item_def in
    items' <- dict_append (dim_items acc) dim_code code ;;
    raw' <- dict_append (dim_raw_values acc) dim_code value ;;
    final_val <-
      (if reverse_scored item_def then reverse_likert value else Ok value) ;;
    values' <- dict_append (dim_values acc) dim_code final_val ;;
    Ok {| dim_values := values'; dim_items := items';
          dim_raw_values := raw' |}.

Fixpoint collect (acc : collected) (entries : dict pyval)
    : result collected :=
  match entries with
  | [] => Ok acc
  | entry :: rest => acc' <- collect_step acc entry ;; collect acc' rest
  end.

(** [sum(1 for code in codes if ITEM_DEFINITIONS[code].reverse_scored)] *)
Fixpoint count_reversed (codes : list string) : result nat :=
  match codes with
  | [] => Ok 0%nat
  | c :: rest =>
      item_def <- dict_item ITEM_DEFINITIONS c ;;
      n <- count_reversed rest ;;
      Ok (if reverse_scored item_def then S n else n)
  end.

(** The body of the loop over [dim_values.items()]. *)
Definition dimension_result (acc : collected) (dim_code : string)
    (vals : list pyval) : result DimensionResult :=
  label <- dict_item DIMENSION_LABELS dim_code ;;
  match vals with
  | [] => Raise (Exn RuntimeError (Keine_Items_fuer_Dimension dim_code label))
  | _ =>
      mean_val <- py_mean vals ;;
      raws <- dict_item (dim_raw_values acc) dim_code ;;
      raw_mean <- py_mean raws ;;
      let score := rescale mean_val in
      level <- classify_score (PFloat score) ;;
      codes <- dict_item (dim_items acc) dim_code ;;
      num_reversed <- count_reversed codes ;;
      Ok {| dim_label := label;
            dim_score := py_round score 1;
            dim_level := level;
            dim_num_items := length vals;
            dim_num_reversed := num_reversed;
            dim_raw_mean := py_round raw_mean 2;
            dim_item_codes := sorted codes |}
  end.

Fixpoint build_results (acc : collected) (entries : dict (list pyval))
    : result (dict DimensionResult) :=
  match entries with
  | [] => Ok []
  | (dim_code, vals) :: rest =>
      r <- dimension_result acc dim_code vals ;;
      rs <- build_results acc rest ;;
      Ok ((dim_code, r) :: rs)
  end.

Definition compute_dimension_scores (ratings : dict pyval)
    : result (dict DimensionResult) :=
  acc <- collect {| dim_values := empty_lists pyval;
                    dim_items := empty_lists string;
                    dim_raw_values := empty_lists pyval |} ratings ;;
  build_results acc (dim_values acc).

(* ------------------------------------------------------------------------- *)
(** ** Additional indices *)

Record ChronotypeIndex : Type := {
  chr_label : string;
  morning_tendency : Q;
  evening_tendency : Q;
  balance_score : Q;
  interpretation : string;
  chr_num_items : nat;
  chr_item_codes : list string
}.

Record AvoidanceIndex : Type := {
  av_label : string;
  av_score : Q;
  av_level : string;
  av_num_items : nat;
  av_raw_mean : Q;
  av_item_codes : list string
}.

(** The two shapes of entry that [indices] holds. *)
Inductive index_entry : Type :=
| Avoidance (a : AvoidanceIndex)
| Chronotype (c : ChronotypeIndex).

(** [[ratings[code] for code in codes]] *)
Fixpoint lookup_all (ratings : dict pyval) (codes : list string)
    : result (list pyval) :=
  match codes with
  | [] => Ok []
  | c :: rest =>
      v <- dict_item ratings c ;;
      vs <- lookup_all ratings rest ;;
      Ok (v :: vs)
  end.

(** [e.args[0]] of a [KeyError] *)
Definition key_of (m : message) : string :=
  match m with Key_fehlt k => k | _ => "" end.

Definition morning_items : list string := ["A8"; "A13"; "A14"; "A15"].
Definition evening_items : list string := ["A9"; "A16"].

Definition interpret_balance (balance : Q) : string :=
  if Qltb balance (- (8 # 10)) then "Deutlicher Morgentyp"
  else if Qltb balance (- (4 # 10)) then "Leichter Morgentyp"
  else if Qltb balance (4 # 10) then "Neutraler/intermediärer Typ"
  else if Qltb balance (8 # 10) then "Leichter Abendtyp"
  else "Deutlicher Abendtyp".

Definition compute_chronotype_index (ratings : dict pyval)
    : result ChronotypeIndex :=
  vals <-
    try_except
      (morning_vals <- lookup_all ratings morning_items ;;
       evening_vals <- lookup_all ratings evening_items ;;
       Ok (morning_vals, evening_vals))
      KeyError
      (fun e => Raise (Exn ValueError (Fehlender_Chronotyp_Wert (key_of e)))) ;;
  let (morning_vals, evening_vals) := vals in
  morning_score <- py_mean morning_vals ;;
  evening_score <- py_mean evening_vals ;;
  let morning_score_100 := rescale morning_score in
  let evening_score_100 := rescale evening_score in
  let balance := (evening_score - morning_score)%Q in
  Ok {| chr_label := "Chronotyp-Profil";
        morning_tendency := py_round morning_score_100 1;
        evening_tendency := py_round evening_score_100 1;
        balance_score := py_round balance 2;
        interpretation := interpret_balance balance;
        chr_num_items := (length morning_items + length evening_items)%nat;
        chr_item_codes := morning_items ++ evening_items |}.

Definition avoid_items : list string := ["M2"; "M9"].

Definition compute_additional_indices (ratings : dict pyval)
    : result (dict index_entry) :=
  indices <-
    (if forallb (fun c => dict_mem c ratings) avoid_items then
       vals <- lookup_all ratings avoid_items ;;
       mean_val <- py_mean vals ;;
       let score := rescale mean_val in
       level <- classify_score (PFloat score) ;;
       Ok [("motivation_avoidance",
            Avoidance {| av_label := "Vermeidungsorientierung (Motivation)";
                         av_score := py_round score 1;
                         av_level := level;
                         av_num_items := length vals;
                         av_raw_mean := py_round mean_val 2;
                         av_item_codes := avoid_items |})]
     else Ok []) ;;
  chrono <-
    try_except (compute_chronotype_index ratings) ValueError
      (fun e => Raise (Exn RuntimeError (Interner_Konsistenzfehler e))) ;;
  Ok (indices ++ [("chronotype", Chronotype chrono)]).

(* ------------------------------------------------------------------------- *)
(** ** The profile *)

Record Meta : Type := {
  version : string;
  num_items_instrument : nat;
  num_items_answered : nat;
  num_items_main_scales : nat;
  num_items_additional : nat;
  num_reversed_total : nat;
  likert_min : Z;
  likert_max : Z;
  score_min : Z;
  score_max : Z
}.

Record Profile : Type := {
  id : option string;
  dimensions : dict DimensionResult;
  additional_indices : dict index_entry;
  response_quality : ResponseQuality;
  meta : Meta
}.

Definition compute_profile (ratings : dict pyval) (profile_id : option string)
    : result Profile :=
  validate_ratings ratings ;;;
  dimensions <- compute_dimension_scores ratings ;;
  additional <- compute_additional_indices ratings ;;
  quality <- check_response_quality ratings ;;
  Ok {| id := profile_id;
        dimensions := dimensions;
        additional_indices := additional;
        response_quality := quality;
        meta :=
          {| version := VERSION;
             num_items_instrument := length ITEM_DEFINITIONS;
             num_items_answered := length ratings;
             num_items_main_scales :=
               list_sum (map dim_num_items (values dimensions));
             num_items_additional := length INDEX_ITEMS_DEFINED;
             num_reversed_total :=
               list_sum (map dim_num_reversed (values dimensions));
             likert_min := LIKERT_MIN;
             likert_max := LIKERT_MAX;
             score_min := 0;
             score_max := 100 |} |}.

(* ------------------------------------------------------------------------- *)
(** * Definitions used by the statements *)

(** Every [dimension_code] of a table is a key of [DIMENSION_LABELS]. *)
Definition dimensions_known (defs : dict ItemDefinition) : bool :=
  forallb (fun i => dict_mem (dimension_code i) DIMENSION_LABELS)
    (values defs).

(** The four counts that the import-time assertions compare. *)
Definition counts_ok (defs : dict ItemDefinition) : Prop :=
  length defs = 88%nat /\
  length (filter (fun i => include_in_main_scale i) (values defs)) = 80%nat /\
  length (filter (fun i => negb (include_in_main_scale i)) (values defs))
    = 8%nat /\
  length (filter (fun i => reverse_scored i)
            (filter (fun i => include_in_main_scale i) (values defs)))
    = 27%nat.

(** The table of the source with the dimension of its first item replaced
    by a code that has no label. *)
Definition defs_unlabelled_dimension : dict ItemDefinition :=
  ("A1", _i "A1" "focus" "Fokusdauer" true false) :: tl ITEM_DEFINITIONS.


(** The order of [sorted] as a relation. *)
Definition str_le (a b : string) : Prop := String.leb a b = true.

(** [y] is [x] rounded to [n] decimals: [y] is [k / 10^n] for an integer
    [k] nearest to [x * 10^n], the even one when two are equally near. *)
Definition rounded_to (n : nat) (x y : Q) : Prop :=
  exists k : Z,
    (y == inject_Z k / inject_Z (10 ^ Z.of_nat n))%Q /\
    (Qabs (x * inject_Z (10 ^ Z.of_nat n) - inject_Z k) <= 1 # 2)%Q /\
    ((Qabs (x * inject_Z (10 ^ Z.of_nat n) - inject_Z k) == 1 # 2)%Q ->
     Z.even k = true).

(** A rating that passes the two checks of the validation loop. *)
Definition likert_ok (v : pyval) : bool :=
  isinstance_int v && in_likert_range (int_of v).

(** A code of the taxonomy that the mapping lacks, and a code of the
    mapping that the taxonomy lacks. *)
Definition is_missing {V : Type} (ratings : dict V) (c : string) : Prop :=
  In c (keys ITEM_DEFINITIONS) /\ ~ In c (keys ratings).
Definition is_extra {V : Type} (ratings : dict V) (c : string) : Prop :=
  In c (keys ratings) /\ ~ In c (keys ITEM_DEFINITIONS).

(** The error kinds of the specification, as the exceptions that the
    source raises for them. *)
Definition IncompleteInput (codes : list string) : exn :=
  Exn ValueError (Fehlende_Items codes).
Definition UnknownItemsPresent (codes : list string) : exn :=
  Exn ValueError (Unbekannte_Items codes).
Definition TypeMismatch (code : string) (v : pyval) : exn :=
  Exn TypeError (Rating_kein_int code v).
Definition OutOfRange (code : string) (v : pyval) : exn :=
  Exn ValueError (Rating_ausserhalb code v).
Definition EmptyDimension (dim_code label : string) : exn :=
  Exn RuntimeError (Keine_Items_fuer_Dimension dim_code label).

(** The rating that a mapping holds for a code, as an integer. *)
Definition rating (ratings : dict pyval) (c : string) : Z :=
  match dict_get ratings c with
  | Some v => int_of v
  | None => 0
  end.

Definition sumZ (l : list Z) : Z := fold_right Z.add 0 l.

(** The arithmetic mean of a list of integers. *)
Definition mean_of (l : list Z) : Q :=
  (inject_Z (sumZ l) / inject_Z (Z.of_nat (length l)))%Q.

(** A mapping that [validate_ratings] accepts. *)
Definition validated (ratings : dict pyval) : Prop :=
  wf_dict ratings /\ validate_ratings ratings = Ok tt.

(** [{code: v for code in ITEM_DEFINITIONS.keys()}] *)
Definition ratings_all (v : Z) : dict pyval :=
  map (fun c => (c, PInt v)) (keys ITEM_DEFINITIONS).

(** A mapping with the entries of the given codes deleted. *)
Definition without (codes : list string) (ratings : dict pyval) : dict pyval :=
  filter (fun kv => negb (mem (fst kv) codes)) ratings.

(** The number of distinct values in a list of integers. *)
Definition distinct_count (zs : list Z) : nat :=
  length (nodup Z.eq_dec zs).

(** [sum((z - m)^2 for z in zs)] *)
Definition sum_sq (m : Q) (zs : list Z) : Q :=
  fold_right (fun z s => ((inject_Z z - m) * (inject_Z z - m) + s)%Q) 0%Q zs.

(** The population variance: the mean of the squared deviations from the
    mean, with divisor [n]. *)
Definition population_variance (zs : list Z) : Q :=
  (sum_sq (mean_of zs) zs / inject_Z (Z.of_nat (length zs)))%Q.

(** The warnings that apply to a distinct-value count and a variance. *)
Definition applicable_warnings (unique : nat) (variance : Q) : list string :=
  (if (unique <=? 2)%nat then [QUALITY_WARN_STRAIGHT] else [])
  ++ (if Qltb variance (1 # 2) then [QUALITY_WARN_LOW_VAR] else []).

(** The raw ratings of a mapping, in its order. *)
Definition raw_ratings (ratings : dict pyval) : list Z :=
  map int_of (values ratings).

(** 87 ratings of 3 and one of 4, in the order of the taxonomy. *)
Definition ratings_one_four : dict pyval :=
  ("A1", PInt 4) :: tl (ratings_all 3).

(** The ratings 1, 2, 3, 4, 5, 1, 2, ... along the order of the taxonomy. *)
Definition ratings_cycle : dict pyval :=
  map (fun ic => (snd ic, PInt (1 + Z.of_nat (fst ic mod 5))))
      (combine (seq 0 (length ITEM_DEFINITIONS)) (keys ITEM_DEFINITIONS)).

(** The keys of the dict display of [check_response_quality]. *)
Definition quality_keys : list string :=
  ["num_unique_responses"; "response_variance"; "mean_response";
   "quality_flag"; "warnings"].

(** Whether the first loop of [compute_dimension_scores] collects an item
    for dimension [d]: a main-scale item of that dimension. *)
Definition collects (d : string) (c : string) : bool :=
  match dict_get ITEM_DEFINITIONS c with
  | Some i => include_in_main_scale i && String.eqb (dimension_code i) d
  | None => false
  end.

Definition is_reversed (c : string) : bool :=
  match dict_get ITEM_DEFINITIONS c with
  | Some i => reverse_scored i
  | None => false
  end.

(** The entries of a mapping that are collected for a dimension, in the
    order of the mapping. *)
Definition collected_entries (d : string) (ratings : dict pyval) : dict pyval :=
  filter (fun kv => collects d (fst kv)) ratings.

(** The value that enters [dim_values] for an entry. *)
Definition final_value (kv : string * pyval) : pyval :=
  if is_reversed (fst kv) then PInt (LIKERT_MIN + LIKERT_MAX - int_of (snd kv))
  else snd kv.

(** The three dictionaries of lists after the first loop has consumed
    [ratings]. *)
Definition collected_of (ratings : dict pyval) : collected :=
  {| dim_values :=
       map (fun d => (d, map final_value (collected_entries d ratings)))
           (keys DIMENSION_LABELS);
     dim_items :=
       map (fun d => (d, map fst (collected_entries d ratings)))
           (keys DIMENSION_LABELS);
     dim_raw_values :=
       map (fun d => (d, map snd (collected_entries d ratings)))
           (keys DIMENSION_LABELS) |}.

(** The main-scale items of a dimension, in the order of the taxonomy. *)
Definition dimension_items (d : string) : list string :=
  map code
    (filter (fun i => include_in_main_scale i
                      && String.eqb (dimension_code i) d)
            (values ITEM_DEFINITIONS)).

(** The rating of an item after reverse coding where the item asks for it. *)
Definition final_rating (ratings : dict pyval) (c : string) : Z :=
  if is_reversed c then 6 - rating ratings c else rating ratings c.

(** A possibly incomplete rating set: codes of the taxonomy, each with an
    integer rating of [1..5]. *)
Definition rating_set (ratings : dict pyval) : Prop :=
  wf_dict ratings /\
  Forall (fun kv => In (fst kv) (keys ITEM_DEFINITIONS) /\
                    likert_ok (snd kv) = true) ratings.

(** The value that a mapping holds for a code ([None] of Python when it
    holds none). *)
Definition value_of (ratings : dict pyval) (c : string) : pyval :=
  match dict_get ratings c with
  | Some v => v
  | None => PNone
  end.

(** The result that the second loop of [compute_dimension_scores] builds
    from the collected entries of a dimension, its label, the two means and
    the level. *)
Definition dimension_record (label : string) (entries : dict pyval)
    (mean_val raw_mean : Q) (level : string) : DimensionResult :=
  {| dim_label := label;
     dim_score := py_round (rescale mean_val) 1;
     dim_level := level;
     dim_num_items := length entries;
     dim_num_reversed := length (filter is_reversed (map fst entries));
     dim_raw_mean := py_round raw_mean 2;
     dim_item_codes := sorted (map fst entries) |}.

(* ------------------------------------------------------------------------- *)
(** * Definitions used by the further properties *)

(** The level of a score of [0, 100], as [classify_score] assigns it. *)
Definition level_of (score : Q) : string :=
  if Qltb score 40 then "niedrig"
  else if Qltb score 75 then "mittel"
  else "hoch".

(** The label of a dimension ([""] for a code that has none). *)
Definition label_of (d : string) : string :=
  match dict_get DIMENSION_LABELS d with
  | Some label => label
  | None => ""
  end.

(** The result of a dimension as a function of its collected entries. *)
Definition dimension_summary (ratings : dict pyval) (d : string)
    : DimensionResult :=
  let entries := collected_entries d ratings in
  let mean_val := mean_of (map int_of (map final_value entries)) in
  dimension_record (label_of d) entries mean_val
    (mean_of (map int_of (map snd entries)))
    (level_of (rescale mean_val)).

(** The quality dict as a function of the raw ratings. *)
Definition quality_summary (zs : list Z) : ResponseQuality :=
  let unique := distinct_count zs in
  let variance := population_variance zs in
  [("num_unique_responses", QInt unique);
   ("response_variance", QFloat (py_round variance 2));
   ("mean_response", QFloat (py_round (mean_of zs) 2));
   ("quality_flag",
    QStr match applicable_warnings unique variance with
         | [] => "ok"
         | _ => "check"
         end);
   ("warnings",
    match applicable_warnings unique variance with
    | [] => QNone
    | w :: ws => QList (w :: ws)
    end)].

(** Whether, with [n] items, rounding the score to one decimal leaves its
    level unchanged for every possible sum of the ratings. *)
Definition level_stable (n : nat) : bool :=
  forallb
    (fun s =>
       let score := rescale (inject_Z s / inject_Z (Z.of_nat n)) in
       String.eqb (level_of (py_round score 1)) (level_of score))
    (map Z.of_nat (seq n (4 * n + 1))).

(** The constants of the [meta] record. *)
Definition instrument_meta : Meta :=
  {| version := "0.2.1";
     num_items_instrument := 88;
     num_items_answered := 88;
     num_items_main_scales := 80;
     num_items_additional := 8;
     num_reversed_total := 27;
     likert_min := 1;
     likert_max := 5;
     score_min := 0;
     score_max := 100 |}.

(** The first code of a list that a mapping does not hold. *)
Definition first_missing (ratings : dict pyval) (codes : list string)
    : option string :=
  find (fun c => negb (dict_mem c ratings)) codes.

(** The five interpretations of the chronotype index. *)
Definition interpretations : list string :=
  ["Deutlicher Morgentyp"; "Leichter Morgentyp";
   "Neutraler/intermediärer Typ"; "Leichter Abendtyp";
   "Deutlicher Abendtyp"].

(* ------------------------------------------------------------------------- *)
(** ** Reading the ratings of one person ([load_ratings_from_csv])

    The file is seen through [csv.DictReader]: [fieldnames] is the header
    ([None] for an empty file) and every row gives the texts under
    "item_code" and "rating" (a row that lacks a column holds [None] there,
    on which [.strip()] raises [AttributeError]: such rows are outside this
    model). [str.strip] and [int] of Python are taken as they are: [strip]
    is any function on strings and [parse_int s] is [None] exactly when
    [int(s)] raises [ValueError]. Row numbers count from 2, after the
    header. The path of the file, which only the messages mention, is left
    out. *)

(** The failures of the loader: each is a [ValueError] with its own
    message, except the last, which is whatever [validate_ratings] raises. *)
Inductive load_error : Type :=
| Spalten_fehlen (fieldnames : option (list string))
    (* "CSV muss mindestens die Spalten ... besitzen, gefunden: ..." *)
| Doppelter_Eintrag (code : string) (row_num : nat)
    (* "Doppelter Eintrag für Item {code} in Zeile {row_num} von {path}" *)
| Unbekannter_item_code (code : string) (row_num : nat)
    (* "Unbekannter item_code '{code}' in Zeile {row_num} von {path}" *)
| Ungueltiger_Wert (code : string) (row_num : nat) (raw_value_str : string)
    (* "Ungültiger Wert für rating bei Item {code} in Zeile {row_num}: ..." *)
| Rating_nicht_im_Bereich (code : string) (row_num : nat) (raw_value : Z)
    (* "rating bei Item {code} in Zeile {row_num} muss zwischen 1 und 5
       liegen, erhalten: {raw_value}" *)
| Items_fehlen (codes : list string)
    (* "Die folgenden Items fehlen in der Datei {path}: ..." *)
| Validierung (e : exn).

Definition csv_row : Type := (string * string)%type.

(** The loop over [enumerate(reader, start=2)]. *)
Fixpoint load_rows (strip : string -> string) (parse_int : string -> option Z)
    (rows : list csv_row) (row_num : nat) (ratings : dict pyval)
    : load_error + dict pyval :=
  match rows with
  | [] => inr ratings
  | (item_code, rating_text) :: rest =>
      let code := strip item_code in
      if String.eqb code "" then
        load_rows strip parse_int rest (S row_num) ratings
      else if dict_mem code ratings then
        inl (Doppelter_Eintrag code row_num)
      else if negb (dict_mem code ITEM_DEFINITIONS) then
        inl (Unbekannter_item_code code row_num)
      else
        let raw_value_str := strip rating_text in
        match parse_int raw_value_str with
        | None => inl (Ungueltiger_Wert code row_num raw_value_str)
        | Some raw_value =>
            if negb (in_likert_range raw_value) then
              inl (Rating_nicht_im_Bereich code row_num raw_value)
            else
              load_rows strip parse_int rest (S row_num)
                (ratings ++ [(code, PInt raw_value)])
        end
  end.

(** [required_fields.issubset(reader.fieldnames)] on a non-empty header *)
Definition has_required_fields (fieldnames : option (list string)) : bool :=
  match fieldnames with
  | None | Some [] => false
  | Some names => mem "item_code" names && mem "rating" names
  end.

Definition load_ratings_from_csv (strip : string -> string)
    (parse_int : string -> option Z)
    (fieldnames : option (list string)) (rows : list csv_row)
    : load_error + dict pyval :=
  if negb (has_required_fields fieldnames) then
    inl (Spalten_fehlen fieldnames)
  else
    match load_rows strip parse_int rows 2 [] with
    | inl e => inl e
    | inr ratings =>
        match sorted (missing_from (keys ITEM_DEFINITIONS) ratings) with
        | _ :: _ as missing => inl (Items_fehlen missing)
        | [] =>
            match validate_ratings ratings with
            | Raise e => inl (Validierung e)
            | Ok _ => inr ratings
            end
        end
    end.

(** The rows that the loop does not skip: those whose code is not blank. *)
Definition nonblank_rows (strip : string -> string) (rows : list csv_row)
    : list csv_row :=
  filter (fun row => negb (String.eqb (strip (fst row)) "")) rows.

(** Two readings of a text used by the examples: no stripping, and the
    decimal digits 1 to 5. *)
Definition no_strip (s : string) : string := s.
Definition one_digit (s : string) : option Z :=
  if String.eqb s "1" then Some 1
  else if String.eqb s "2" then Some 2
  else if String.eqb s "3" then Some 3
  else if String.eqb s "4" then Some 4
  else if String.eqb s "5" then Some 5
  else if String.eqb s "9" then Some 9
  else None.

(** One row per item of the taxonomy, all rated [text]. *)
Definition rows_all (text : string) : list csv_row :=
  map (fun c => (c, text)) (keys ITEM_DEFINITIONS).

(** The entry that the loop stores for a row. *)
Definition row_entry (strip : string -> string)
    (parse_int : string -> option Z) (row : csv_row)
    (entry : string * pyval) : Prop :=
  fst entry = strip (fst row) /\
  exists z, parse_int (strip (snd row)) = Some z /\ snd entry = PInt z.

(** The code and the row number that a row-level failure names. *)
Definition error_row (e : load_error) : option (string * nat) :=
  match e with
  | Doppelter_Eintrag c n | Unbekannter_item_code c n
  | Ungueltiger_Wert c n _ | Rating_nicht_im_Bereich c n _ => Some (c, n)
  | _ => None
  end.

(** A file with all items rated 3 whose third row repeats the code of the
    second. *)
Definition rows_with_duplicate : list csv_row :=
  ("A1", "3") :: ("A2", "3") :: ("A2", "4") :: tl (tl (rows_all "3")).

(** An item that is kept off the main scales. *)
Definition is_auxiliary (c : string) : bool :=
  match dict_get ITEM_DEFINITIONS c with
  | Some i => negb (include_in_main_scale i)
  | None => false
  end.

(** A mapping without its auxiliary items. *)
Definition main_scale_part (ratings : dict pyval) : dict pyval :=
  filter (fun kv => negb (is_auxiliary (fst kv))) ratings.

(** The mapping with every rating [v] replaced by [6 - v]. *)
Definition mirrored (ratings : dict pyval) : dict pyval :=
  map (fun kv => (fst kv, PInt (6 - int_of (snd kv)))) ratings.

(** Two values that Python treats as the same integer. *)
Definition same_number (v v' : pyval) : Prop :=
  v = v' \/
  (isinstance_int v = true /\ isinstance_int v' = true /\
   int_of v = int_of v').

(** The rating [1] written as [True]; any other value as it is. *)
Definition one_as_true (v : pyval) : pyval :=
  match v with
  | PInt 1 => PBool true
  | _ => v
  end.

(** The mapping with every rating [1] written as [True]. *)
Definition with_true (ratings : dict pyval) : dict pyval :=
  map (fun kv => (fst kv, one_as_true (snd kv))) ratings.
(* ------------------------------------------------------------------------- *)
(** * Properties *)

(** ** Comparisons on [Q] as booleans *)

Lemma Qltb_lt (x y : Q) : Qltb x y = true <-> (x < y)%Q.
Proof.
  unfold Qltb. rewrite negb_true_iff.
  destruct (Qle_bool y x) eqn:E.
  - apply Qle_bool_iff in E. split; [discriminate|].
    intros H. exfalso. exact (Qlt_not_le _ _ H E).
  - split; [intros _|reflexivity].
    apply Qnot_le_lt. intros H. apply Qle_bool_iff in H. congruence.
Qed.

Lemma Qltb_ge (x y : Q) : Qltb x y = false <-> (y <= x)%Q.
Proof.
  unfold Qltb. rewrite negb_false_iff. apply Qle_bool_iff.
Qed.

(** ** Reverse coding *)

Lemma reverse_likert_in_range (v : pyval) :
  isinstance_int v = true -> 1 <= int_of v <= 5 ->
  reverse_likert v = Ok (PInt (6 - int_of v)).
Proof.
  intros Hi Hr. unfold reverse_likert, in_likert_range, LIKERT_MIN, LIKERT_MAX.
  rewrite Hi. simpl.
  replace (1 <=? int_of v) with true by (symmetry; apply Z.leb_le; lia).
  replace (int_of v <=? 5) with true by (symmetry; apply Z.leb_le; lia).
  reflexivity.
Qed.

(** C4. On every integer [v] of [1..5], [reverse_likert] returns [6 - v]
    (so 1 to 5, 2 to 4, 3 to 3, 5 to 1) and applying it twice gives [v]
    back; on an instance of [int] outside [1..5] it raises the [ValueError]
    of the range check (OutOfRange), and on a value that is not an instance
    of [int] it raises [TypeError] (TypeMismatch). *)
Theorem reverse_likert_spec :
  (forall v : pyval, isinstance_int v = true -> 1 <= int_of v <= 5 ->
     reverse_likert v = Ok (PInt (6 - int_of v)) /\
     (r <- reverse_likert v ;; reverse_likert r) = Ok (PInt (int_of v))) /\
  (reverse_likert (PInt 1) = Ok (PInt 5) /\
   reverse_likert (PInt 2) = Ok (PInt 4) /\
   reverse_likert (PInt 3) = Ok (PInt 3) /\
   reverse_likert (PInt 5) = Ok (PInt 1)) /\
  (forall v : pyval, isinstance_int v = true -> ~ 1 <= int_of v <= 5 ->
     reverse_likert v = Raise (Exn ValueError (Likert_ausserhalb v))) /\
  (forall v : pyval, isinstance_int v = false ->
     reverse_likert v = Raise (Exn TypeError (Likert_kein_int v))).
Proof.
  split; [|split; [|split]].
  - intros v Hi Hr. split.
    + now apply reverse_likert_in_range.
    + rewrite (reverse_likert_in_range v Hi Hr). cbn [bind].
      rewrite reverse_likert_in_range; cbn [int_of isinstance_int];
        [|reflexivity|lia].
      f_equal. f_equal. lia.
  - repeat split; reflexivity.
  - intros v Hi Hr. unfold reverse_likert. rewrite Hi. simpl.
    destruct (in_likert_range (int_of v)) eqn:E; [|reflexivity].
    unfold in_likert_range, LIKERT_MIN, LIKERT_MAX in E.
    apply andb_true_iff in E. destruct E as [E1 E2].
    apply Z.leb_le in E1, E2. lia.
  - intros v Hi. unfold reverse_likert. now rewrite Hi.
Qed.

Lemma reverse_likert_spec_witness :
  (reverse_likert (PInt 4) = Ok (PInt (6 - 4)) /\
   (r <- reverse_likert (PInt 4) ;; reverse_likert r) = Ok (PInt 4)) /\
  reverse_likert (PBool false)
    = Raise (Exn ValueError (Likert_ausserhalb (PBool false))) /\
  reverse_likert (PStr "3")
    = Raise (Exn TypeError (Likert_kein_int (PStr "3"))).
Proof.
  destruct reverse_likert_spec as [H1 [_ [H3 H4]]].
  split; [|split].
  - apply (H1 (PInt 4)); simpl; [reflexivity|lia].
  - apply (H3 (PBool false)); simpl; [reflexivity|lia].
  - apply (H4 (PStr "3")). reflexivity.
Defined.

(** ** Classification *)

Lemma classify_score_cases (score : pyval) (q : Q) :
  num_of score = Some q -> (0 <= q)%Q -> (q <= 100)%Q ->
  classify_score score =
    Ok (if Qltb q 40 then "niedrig" else if Qltb q 75 then "mittel"
        else "hoch").
Proof.
  intros Hn H0 H100. unfold classify_score. rewrite Hn.
  apply Qle_bool_iff in H0, H100. rewrite H0, H100. simpl.
  destruct (Qltb q 40); [reflexivity|].
  destruct (Qltb q 75); reflexivity.
Qed.

(** C5. On every numeric score [q] of [0, 100], [classify_score] returns
    "niedrig" (low) exactly when [q < 40], "mittel" (mid) exactly when
    [40 <= q < 75] and "hoch" (high) exactly when [75 <= q]; 0 and 39.9 are
    low, 40 and 74.9 are mid, 75 and 100 are high. *)
Theorem classify_score_buckets :
  (forall (score : pyval) (q : Q),
     num_of score = Some q -> (0 <= q)%Q -> (q <= 100)%Q ->
     (classify_score score = Ok "niedrig" <-> (q < 40)%Q) /\
     (classify_score score = Ok "mittel" <-> (40 <= q)%Q /\ (q < 75)%Q) /\
     (classify_score score = Ok "hoch" <-> (75 <= q)%Q)) /\
  classify_score (PInt 0) = Ok "niedrig" /\
  classify_score (PFloat (399 # 10)) = Ok "niedrig" /\
  classify_score (PInt 40) = Ok "mittel" /\
  classify_score (PFloat (749 # 10)) = Ok "mittel" /\
  classify_score (PInt 75) = Ok "hoch" /\
  classify_score (PInt 100) = Ok "hoch".
Proof.
  split; [|repeat split; reflexivity].
  intros score q Hn H0 H100.
  rewrite (classify_score_cases score q Hn H0 H100).
  destruct (Qltb q 40) eqn:E40; [|destruct (Qltb q 75) eqn:E75].
  - apply Qltb_lt in E40.
    assert (H75 : (q < 75)%Q) by (eapply Qlt_trans; [exact E40|reflexivity]).
    split; [|split].
    + split; [intros _; exact E40|reflexivity].
    + split; [discriminate|].
      intros [Hc _]. exfalso. exact (Qlt_not_le _ _ E40 Hc).
    + split; [discriminate|].
      intros Hc. exfalso. exact (Qlt_not_le _ _ H75 Hc).
  - apply Qltb_ge in E40. apply Qltb_lt in E75.
    split; [|split].
    + split; [discriminate|].
      intros Hc. exfalso. exact (Qlt_not_le _ _ Hc E40).
    + split; [intros _; split; assumption|reflexivity].
    + split; [discriminate|].
      intros Hc. exfalso. exact (Qlt_not_le _ _ E75 Hc).
  - apply Qltb_ge in E40, E75.
    split; [|split].
    + split; [discriminate|].
      intros Hc. exfalso. exact (Qlt_not_le _ _ Hc E40).
    + split; [discriminate|].
      intros [_ Hc]. exfalso. exact (Qlt_not_le _ _ Hc E75).
    + split; [intros _; exact E75|reflexivity].
Qed.

Lemma classify_score_buckets_witness :
  (classify_score (PFloat (399 # 10)) = Ok "niedrig" <-> (399 # 10 < 40)%Q) /\
  (classify_score (PFloat (399 # 10)) = Ok "mittel"
     <-> (40 <= 399 # 10)%Q /\ (399 # 10 < 75)%Q) /\
  (classify_score (PFloat (399 # 10)) = Ok "hoch" <-> (75 <= 399 # 10)%Q).
Proof.
  apply (proj1 classify_score_buckets (PFloat (399 # 10)) (399 # 10)).
  - reflexivity.
  - discriminate.
  - discriminate.
Defined.

(** ** The taxonomy *)

Lemma import_asserts_counts (defs : dict ItemDefinition) :
  import_asserts defs = Ok tt <-> counts_ok defs.
Proof.
  unfold import_asserts, counts_ok, py_assert.
  destruct (Nat.eqb_spec (length defs) 88) as [E1|E1]; cbn [bind];
    [|split; [discriminate|intros [H _]; contradiction]].
  destruct (Nat.eqb_spec
    (length (filter (fun i => include_in_main_scale i) (values defs))) 80)
    as [E2|E2]; cbn [bind];
    [|split; [discriminate|intros [_ [H _]]; contradiction]].
  destruct (Nat.eqb_spec
    (length (filter (fun i => negb (include_in_main_scale i)) (values defs)))
    8) as [E3|E3]; cbn [bind];
    [|split; [discriminate|intros [_ [_ [H _]]]; contradiction]].
  destruct (Nat.eqb_spec
    (length (filter (fun i => reverse_scored i)
       (filter (fun i => include_in_main_scale i) (values defs)))) 27)
    as [E4|E4];
    [|split; [discriminate|intros [_ [_ [_ H]]]; contradiction]].
  split; [intros _; repeat split; assumption|reflexivity].
Qed.

(** C9, as the code has it. The table holds exactly 88 definitions, 80 of
    them on the main scales, 8 off them, and 27 of the main-scale items are
    reverse scored; every [dimension_code] is one of the 6 distinct keys of
    [DIMENSION_LABELS], each of which has a non-empty label and is used by
    some item. The assertions that run at import succeed on this table, and
    on any table they succeed exactly when the four counts are 88, 80, 8
    and 27 (otherwise [AssertionError] aborts the import); the dimension
    codes are not part of that check. *)
Theorem taxonomy_invariants :
  counts_ok ITEM_DEFINITIONS /\
  length MAIN_ITEMS_DEFINED = 80%nat /\
  length INDEX_ITEMS_DEFINED = 8%nat /\
  dimensions_known ITEM_DEFINITIONS = true /\
  length DIMENSION_LABELS = 6%nat /\
  distinct_keys (keys DIMENSION_LABELS) = true /\
  forallb (fun kv => negb (String.eqb (snd kv) "")) DIMENSION_LABELS = true /\
  forallb (fun d => existsb (fun i => String.eqb (dimension_code i) d)
                      (values ITEM_DEFINITIONS))
          (keys DIMENSION_LABELS) = true /\
  distinct_keys (keys ITEM_DEFINITIONS) = true /\
  import_asserts ITEM_DEFINITIONS = Ok tt /\
  (forall defs : dict ItemDefinition,
     import_asserts defs = Ok tt <-> counts_ok defs).
Proof.
  split; [repeat split; reflexivity|].
  repeat (split; [vm_compute; reflexivity|]).
  exact import_asserts_counts.
Qed.

Lemma taxonomy_invariants_witness :
  import_asserts ITEM_DEFINITIONS = Ok tt <-> counts_ok ITEM_DEFINITIONS.
Proof.
  exact (proj2 (proj2 (proj2 (proj2 (proj2 (proj2 (proj2 (proj2 (proj2
    (proj2 taxonomy_invariants))))))))) ITEM_DEFINITIONS).
Defined.

(** C9, as stated, fails: a table with a dimension code outside the six
    labelled ones passes the import-time assertions. *)
Lemma import_asserts_ignore_dimension :
  import_asserts defs_unlabelled_dimension = Ok tt /\
  dimensions_known defs_unlabelled_dimension = false.
Proof. split; vm_compute; reflexivity. Qed.

(** ** Lists of codes and dictionaries *)

Lemma mem_In (k : string) (l : list string) : mem k l = true <-> In k l.
Proof.
  unfold mem. rewrite existsb_exists. split.
  - intros [x [Hx E]]. apply String.eqb_eq in E. now subst.
  - intros H. exists k. split; [assumption|apply String.eqb_refl].
Qed.

Lemma mem_not_In (k : string) (l : list string) :
  mem k l = false <-> ~ In k l.
Proof.
  rewrite <- mem_In. destruct (mem k l); split; congruence.
Qed.

Lemma distinct_keys_NoDup (l : list string) :
  distinct_keys l = true <-> NoDup l.
Proof.
  induction l as [|k l IH]; simpl.
  - split; [constructor|reflexivity].
  - rewrite andb_true_iff, negb_true_iff, mem_not_In, IH.
    split.
    + intros [H1 H2]. now constructor.
    + intros H. inversion H; subst. now split.
Qed.

Lemma dict_get_In {V : Type} (d : dict V) (k : string) (v : V) :
  dict_get d k = Some v -> In (k, v) d.
Proof.
  induction d as [|[k' v'] d IH]; simpl; [discriminate|].
  destruct (String.eqb_spec k k') as [->|Hne].
  - intros [= ->]. now left.
  - intros H. right. now apply IH.
Qed.

Lemma dict_get_None {V : Type} (d : dict V) (k : string) :
  dict_get d k = None <-> ~ In k (keys d).
Proof.
  induction d as [|[k' v'] d IH]; simpl.
  - split; [intros _ []|reflexivity].
  - destruct (String.eqb_spec k k') as [->|Hne].
    + split; [discriminate|]. intros H. exfalso. apply H. now left.
    + rewrite IH. split.
      * intros H [E|H']; [congruence|contradiction].
      * intros H H'. apply H. now right.
Qed.

Lemma dict_mem_In {V : Type} (d : dict V) (k : string) :
  dict_mem k d = true <-> In k (keys d).
Proof.
  unfold dict_mem. destruct (dict_get d k) eqn:E.
  - split; [intros _|reflexivity].
    apply dict_get_In in E. apply (in_map fst) in E. exact E.
  - apply dict_get_None in E. split; [discriminate|contradiction].
Qed.

Lemma dict_mem_not_In {V : Type} (d : dict V) (k : string) :
  dict_mem k d = false <-> ~ In k (keys d).
Proof.
  rewrite <- dict_mem_In. destruct (dict_mem k d); split; congruence.
Qed.

Lemma wf_dict_cons {V : Type} (k : string) (v : V) (d : dict V) :
  wf_dict ((k, v) :: d) <-> ~ In k (keys d) /\ wf_dict d.
Proof.
  unfold wf_dict. simpl.
  now rewrite andb_true_iff, negb_true_iff, mem_not_In.
Qed.

Lemma wf_dict_get {V : Type} (d : dict V) (k : string) (v : V) :
  wf_dict d -> In (k, v) d -> dict_get d k = Some v.
Proof.
  induction d as [|[k' v'] d IH]; simpl; [intros _ []|].
  intros Hwf Hin. apply wf_dict_cons in Hwf. destruct Hwf as [Hk Hwf].
  destruct Hin as [[= -> ->]|Hin].
  - now rewrite String.eqb_refl.
  - destruct (String.eqb_spec k k') as [->|Hne].
    + exfalso. apply Hk. apply (in_map fst) in Hin. exact Hin.
    + now apply IH.
Qed.

Lemma missing_from_In {V : Type} (a : list string) (b : dict V) (c : string) :
  In c (missing_from a b) <-> In c a /\ ~ In c (keys b).
Proof.
  unfold missing_from. rewrite filter_In, negb_true_iff, dict_mem_not_In.
  reflexivity.
Qed.

(** ** Sorting *)

Lemma insert_sorted_perm (x : string) (l : list string) :
  Permutation (x :: l) (insert_sorted x l).
Proof.
  induction l as [|y l IH]; simpl; [reflexivity|].
  destruct (String.leb x y); [reflexivity|].
  rewrite perm_swap. now apply perm_skip.
Qed.

Lemma sorted_perm (l : list string) : Permutation l (sorted l).
Proof.
  induction l as [|x l IH]; simpl; [reflexivity|].
  rewrite <- insert_sorted_perm. now apply perm_skip.
Qed.

Lemma sorted_In (l : list string) (c : string) : In c (sorted l) <-> In c l.
Proof.
  split; apply Permutation_in; [symmetry|]; apply sorted_perm.
Qed.

Lemma insert_sorted_Sorted (x : string) (l : list string) :
  Sorted str_le l -> Sorted str_le (insert_sorted x l).
Proof.
  induction l as [|y l IH]; simpl; intros Hs.
  - repeat constructor.
  - destruct (String.leb x y) eqn:E.
    + constructor; [assumption|]. constructor. exact E.
    + inversion Hs as [|? ? Hs' Hd]; subst.
      constructor; [now apply IH|].
      assert (Hyx : str_le y x).
      { destruct (String.leb_total x y) as [H|H]; [congruence|exact H]. }
      destruct l as [|z l]; simpl; [now constructor|].
      destruct (String.leb x z); constructor; [exact Hyx|].
      now inversion Hd.
Qed.

Lemma sorted_Sorted (l : list string) : Sorted str_le (sorted l).
Proof.
  induction l as [|x l IH]; simpl; [constructor|].
  now apply insert_sorted_Sorted.
Qed.

Lemma string_compare_trans (a b c : string) :
  String.compare a b <> Gt -> String.compare b c <> Gt ->
  String.compare a c <> Gt.
Proof.
  revert b c. induction a as [|x a IH]; intros [|y b] [|z c]; simpl;
    try congruence.
  unfold Ascii.compare.
  destruct (N.compare_spec (N_of_ascii x) (N_of_ascii y)) as [E1|L1|G1];
    destruct (N.compare_spec (N_of_ascii y) (N_of_ascii z)) as [E2|L2|G2];
    try congruence; intros H1 H2.
  - rewrite E1, E2, N.compare_refl. now apply (IH b c).
  - rewrite E1. apply N.compare_lt_iff in L2. now rewrite L2.
  - rewrite <- E2. apply N.compare_lt_iff in L1. now rewrite L1.
  - assert (L : (N_of_ascii x < N_of_ascii z)%N) by lia.
    apply N.compare_lt_iff in L. now rewrite L.
Qed.

Lemma str_le_trans (a b c : string) : str_le a b -> str_le b c -> str_le a c.
Proof.
  unfold str_le, String.leb. intros H1 H2.
  pose proof (string_compare_trans a b c) as H.
  destruct (String.compare a b); destruct (String.compare b c);
    destruct (String.compare a c); try reflexivity; try discriminate;
    exfalso; apply H; congruence.
Qed.

Lemma str_le_false (a b : string) : String.leb a b = false -> str_le b a.
Proof.
  intros H. destruct (String.leb_total a b) as [H'|H']; [congruence|exact H'].
Qed.

Lemma insert_sorted_comm (x y : string) (l : list string) :
  insert_sorted x (insert_sorted y l) = insert_sorted y (insert_sorted x l).
Proof.
  induction l as [|z l IH]; simpl.
  - destruct (String.leb x y) eqn:Exy; destruct (String.leb y x) eqn:Eyx;
      try reflexivity.
    + now rewrite (String.leb_antisym x y Exy Eyx).
    + apply str_le_false in Exy. unfold str_le in Exy. congruence.
  - destruct (String.leb y z) eqn:Eyz; destruct (String.leb x z) eqn:Exz;
      simpl.
    + destruct (String.leb x y) eqn:Exy; destruct (String.leb y x) eqn:Eyx;
        rewrite ?Exz, ?Eyz; try reflexivity.
      * now rewrite (String.leb_antisym x y Exy Eyx).
      * apply str_le_false in Exy. unfold str_le in Exy. congruence.
    + rewrite Eyz.
      destruct (String.leb x y) eqn:Exy.
      * pose proof (str_le_trans x y z Exy Eyz) as H. unfold str_le in H.
        congruence.
      * now rewrite Exz.
    + rewrite Exz.
      destruct (String.leb y x) eqn:Eyx.
      * pose proof (str_le_trans y x z Eyx Exz) as H. unfold str_le in H.
        congruence.
      * now rewrite Eyz.
    + rewrite Exz, Eyz. now rewrite IH.
Qed.

Lemma sorted_Permutation (l l' : list string) :
  Permutation l l' -> sorted l = sorted l'.
Proof.
  induction 1 as [|x l l' _ IH|x y l|l l' l'' _ IH1 _ IH2]; simpl.
  - reflexivity.
  - now rewrite IH.
  - apply insert_sorted_comm.
  - congruence.
Qed.

(** ** Validation *)

Lemma likert_ok_iff (v : pyval) :
  likert_ok v = true <-> isinstance_int v = true /\ 1 <= int_of v <= 5.
Proof.
  unfold likert_ok, in_likert_range, LIKERT_MIN, LIKERT_MAX.
  rewrite !andb_true_iff, !Z.leb_le. tauto.
Qed.

Lemma check_values_ok (items : dict pyval) :
  check_values items = Ok tt <->
  Forall (fun kv => likert_ok (snd kv) = true) items.
Proof.
  induction items as [|[c v] items IH]; simpl.
  - split; [constructor|reflexivity].
  - rewrite Forall_cons_iff. unfold likert_ok at 1. simpl.
    destruct (isinstance_int v); simpl;
      [|split; [discriminate|intros [H _]; discriminate]].
    destruct (in_likert_range (int_of v)); simpl;
      [|split; [discriminate|intros [H _]; discriminate]].
    rewrite IH. tauto.
Qed.

Lemma check_values_first_bad (pre post : dict pyval) (c : string) (v : pyval) :
  Forall (fun kv => likert_ok (snd kv) = true) pre ->
  likert_ok v = false ->
  check_values (pre ++ (c, v) :: post) =
    Raise (if isinstance_int v then OutOfRange c v else TypeMismatch c v).
Proof.
  intros Hpre Hv. induction Hpre as [|[c' v'] pre Hv' _ IH]; simpl.
  - unfold likert_ok in Hv. destruct (isinstance_int v); simpl in *.
    + now rewrite Hv.
    + reflexivity.
  - unfold likert_ok in Hv'. simpl in Hv'.
    apply andb_true_iff in Hv'. destruct Hv' as [-> ->]. exact IH.
Qed.

Lemma missing_from_nil {V : Type} (a : list string) (b : dict V) :
  missing_from a b = [] <-> (forall c, In c a -> In c (keys b)).
Proof.
  split.
  - intros E c Hc.
    destruct (dict_mem c b) eqn:Hm; [now apply dict_mem_In|].
    exfalso. apply dict_mem_not_In in Hm.
    assert (H : In c (missing_from a b)) by now apply missing_from_In.
    rewrite E in H. exact H.
  - intros H. destruct (missing_from a b) as [|c l] eqn:E; [reflexivity|].
    exfalso.
    assert (Hc : In c (missing_from a b)) by (rewrite E; now left).
    apply missing_from_In in Hc. destruct Hc as [Hc Hn]. auto.
Qed.

Lemma missing_from_NoDup {V : Type} (a : list string) (b : dict V) :
  NoDup a -> NoDup (missing_from a b).
Proof. apply NoDup_filter. Qed.

Lemma validate_ratings_missing (ratings : dict pyval) :
  missing_from (keys ITEM_DEFINITIONS) ratings <> [] ->
  validate_ratings ratings =
    Raise (IncompleteInput
             (sorted (missing_from (keys ITEM_DEFINITIONS) ratings))).
Proof.
  unfold validate_ratings.
  destruct (missing_from (keys ITEM_DEFINITIONS) ratings);
    [congruence|reflexivity].
Qed.

Lemma validate_ratings_extra (ratings : dict pyval) :
  missing_from (keys ITEM_DEFINITIONS) ratings = [] ->
  missing_from (keys ratings) ITEM_DEFINITIONS <> [] ->
  validate_ratings ratings =
    Raise (UnknownItemsPresent
             (sorted (missing_from (keys ratings) ITEM_DEFINITIONS))).
Proof.
  unfold validate_ratings. intros ->.
  destruct (missing_from (keys ratings) ITEM_DEFINITIONS);
    [congruence|reflexivity].
Qed.

Lemma validate_ratings_values (ratings : dict pyval) :
  missing_from (keys ITEM_DEFINITIONS) ratings = [] ->
  missing_from (keys ratings) ITEM_DEFINITIONS = [] ->
  validate_ratings ratings = check_values ratings.
Proof. unfold validate_ratings. now intros -> ->. Qed.

Lemma ITEM_DEFINITIONS_NoDup : NoDup (keys ITEM_DEFINITIONS).
Proof. apply distinct_keys_NoDup. vm_compute. reflexivity. Qed.

Lemma validate_ratings_ok (ratings : dict pyval) :
  wf_dict ratings ->
  validate_ratings ratings = Ok tt <->
  Permutation (keys ratings) (keys ITEM_DEFINITIONS) /\
  Forall (fun kv => likert_ok (snd kv) = true) ratings.
Proof.
  intros Hwf. apply distinct_keys_NoDup in Hwf.
  destruct (missing_from (keys ITEM_DEFINITIONS) ratings) as [|m ms] eqn:Em.
  - destruct (missing_from (keys ratings) ITEM_DEFINITIONS) as [|x xs] eqn:Ex.
    + rewrite (validate_ratings_values _ Em Ex), check_values_ok.
      split; [intros H; split; [|exact H]|tauto].
      apply NoDup_Permutation;
        [exact Hwf|exact ITEM_DEFINITIONS_NoDup|].
      intros c. split; [apply missing_from_nil|apply missing_from_nil];
        assumption.
    + rewrite validate_ratings_extra by congruence.
      split; [discriminate|]. intros [Hp _]. exfalso.
      assert (Hx : In x (missing_from (keys ratings) ITEM_DEFINITIONS))
        by (rewrite Ex; now left).
      apply missing_from_In in Hx. destruct Hx as [Hx Hn].
      apply Hn. now apply (Permutation_in _ Hp).
  - rewrite validate_ratings_missing by congruence.
    split; [discriminate|]. intros [Hp _]. exfalso.
    assert (Hx : In m (missing_from (keys ITEM_DEFINITIONS) ratings))
      by (rewrite Em; now left).
    apply missing_from_In in Hx. destruct Hx as [Hx Hn].
    apply Hn. symmetry in Hp. now apply (Permutation_in _ Hp).
Qed.

(** C3. For every mapping [ratings] from codes to arbitrary values:
    when some taxonomy code is absent, [validate_ratings] raises
    IncompleteInput with the missing codes, each once, in sorted order;
    otherwise, when some code outside the taxonomy is present, it raises
    UnknownItemsPresent with exactly those codes (sorted);
    otherwise the entries are checked in order and the first one with a
    bad value raises TypeMismatch when its value is not an instance of
    [int], and OutOfRange when it is an integer outside [1..5];
    it returns normally exactly when the codes of the mapping are the 88
    codes of the taxonomy and every value is an integer of [1..5];
    and a mapping that lacks exactly one taxonomy code [c] raises
    IncompleteInput with the list [[c]]. *)
Theorem validate_ratings_spec (ratings : dict pyval) :
  wf_dict ratings ->
  ((exists c, is_missing ratings c) ->
     exists l, validate_ratings ratings = Raise (IncompleteInput l) /\
               Sorted str_le l /\ NoDup l /\
               forall c, In c l <-> is_missing ratings c) /\
  (~ (exists c, is_missing ratings c) -> (exists c, is_extra ratings c) ->
     exists l, validate_ratings ratings = Raise (UnknownItemsPresent l) /\
               Sorted str_le l /\ NoDup l /\
               forall c, In c l <-> is_extra ratings c) /\
  (~ (exists c, is_missing ratings c) -> ~ (exists c, is_extra ratings c) ->
     forall pre code value post,
       ratings = pre ++ (code, value) :: post ->
       Forall (fun kv => likert_ok (snd kv) = true) pre ->
       (isinstance_int value = false ->
          validate_ratings ratings = Raise (TypeMismatch code value)) /\
       (isinstance_int value = true -> ~ 1 <= int_of value <= 5 ->
          validate_ratings ratings = Raise (OutOfRange code value))) /\
  (validate_ratings ratings = Ok tt <->
     Permutation (keys ratings) (keys ITEM_DEFINITIONS) /\
     length ratings = 88%nat /\
     Forall (fun kv => isinstance_int (snd kv) = true /\
                       1 <= int_of (snd kv) <= 5) ratings) /\
  (forall c, is_missing ratings c ->
     (forall c', is_missing ratings c' -> c' = c) ->
     validate_ratings ratings = Raise (IncompleteInput [c])).
Proof.
  intros Hwf.
  assert (Hmiss : forall c,
    In c (missing_from (keys ITEM_DEFINITIONS) ratings)
    <-> is_missing ratings c) by (intros c; apply missing_from_In).
  assert (Hext : forall c,
    In c (missing_from (keys ratings) ITEM_DEFINITIONS)
    <-> is_extra ratings c) by (intros c; apply missing_from_In).
  assert (Hnomiss : ~ (exists c, is_missing ratings c) ->
    missing_from (keys ITEM_DEFINITIONS) ratings = []).
  { intros Hn. apply missing_from_nil. intros c Hc.
    destruct (dict_mem c ratings) eqn:E; [now apply dict_mem_In|].
    exfalso. apply Hn. exists c. split; [exact Hc|].
    now apply dict_mem_not_In. }
  assert (Hnoext : ~ (exists c, is_extra ratings c) ->
    missing_from (keys ratings) ITEM_DEFINITIONS = []).
  { intros Hn. apply missing_from_nil. intros c Hc.
    destruct (dict_mem c ITEM_DEFINITIONS) eqn:E; [now apply dict_mem_In|].
    exfalso. apply Hn. exists c. split; [exact Hc|].
    now apply dict_mem_not_In. }
  split; [|split; [|split; [|split]]].
  - intros [c Hc].
    exists (sorted (missing_from (keys ITEM_DEFINITIONS) ratings)).
    split; [|split; [|split]].
    + apply validate_ratings_missing. intros E.
      apply Hmiss in Hc. rewrite E in Hc. exact Hc.
    + apply sorted_Sorted.
    + eapply Permutation_NoDup; [apply sorted_perm|].
      apply missing_from_NoDup, ITEM_DEFINITIONS_NoDup.
    + intros c'. now rewrite sorted_In.
  - intros Hn [c Hc].
    exists (sorted (missing_from (keys ratings) ITEM_DEFINITIONS)).
    split; [|split; [|split]].
    + apply validate_ratings_extra; [now apply Hnomiss|]. intros E.
      apply Hext in Hc. rewrite E in Hc. exact Hc.
    + apply sorted_Sorted.
    + eapply Permutation_NoDup; [apply sorted_perm|].
      apply missing_from_NoDup. now apply distinct_keys_NoDup.
    + intros c'. now rewrite sorted_In.
  - intros Hn1 Hn2 pre code value post E Hpre.
    rewrite (validate_ratings_values _ (Hnomiss Hn1) (Hnoext Hn2)), E.
    split.
    + intros Hi. rewrite check_values_first_bad; [now rewrite Hi|exact Hpre|].
      unfold likert_ok. now rewrite Hi.
    + intros Hi Hr. rewrite check_values_first_bad; [now rewrite Hi|exact Hpre|].
      destruct (likert_ok value) eqn:Hv; [|reflexivity].
      apply likert_ok_iff in Hv. tauto.
  - rewrite (validate_ratings_ok _ Hwf). split.
    + intros [Hp Hf]. split; [exact Hp|split].
      * apply Permutation_length in Hp. unfold keys in Hp.
        rewrite !length_map in Hp. exact Hp.
      * eapply Forall_impl; [|exact Hf]. intros kv. apply likert_ok_iff.
    + intros [Hp [_ Hf]]. split; [exact Hp|].
      eapply Forall_impl; [|exact Hf]. intros kv. apply likert_ok_iff.
  - intros c Hc Huniq.
    rewrite validate_ratings_missing.
    + assert (Hnd : NoDup (missing_from (keys ITEM_DEFINITIONS) ratings))
        by apply missing_from_NoDup, ITEM_DEFINITIONS_NoDup.
      destruct (missing_from (keys ITEM_DEFINITIONS) ratings) as [|a l] eqn:E.
      * apply Hmiss in Hc. destruct Hc.
      * assert (Ha : a = c) by (apply Huniq, Hmiss; now left).
        subst a. destruct l as [|b l]; [reflexivity|].
        assert (Hb : b = c) by (apply Huniq, Hmiss; right; now left).
        subst b. inversion Hnd as [|? ? Hnin _]; subst.
        exfalso. apply Hnin. now left.
    + intros E. apply Hmiss in Hc. rewrite E in Hc. exact Hc.
Qed.

Lemma validate_ratings_spec_witness :
  validate_ratings (without ["R12"] (ratings_all 3))
    = Raise (IncompleteInput ["R12"]).
Proof.
  apply (proj2 (proj2 (proj2 (proj2
    (validate_ratings_spec (without ["R12"] (ratings_all 3)) eq_refl))))).
  - split; [apply mem_In|apply mem_not_In]; vm_compute; reflexivity.
  - intros c' Hc'. apply missing_from_In in Hc'. vm_compute in Hc'.
    destruct Hc' as [E|[]]. now symmetry.
Defined.

(** ** Rational arithmetic *)

Lemma Qltb_compat (x x' y y' : Q) :
  (x == x')%Q -> (y == y')%Q -> Qltb x y = Qltb x' y'.
Proof. intros Hx Hy. unfold Qltb. now rewrite Hx, Hy. Qed.

Lemma round_half_even_compat (x y : Q) :
  (x == y)%Q -> round_half_even x = round_half_even y.
Proof.
  intros E. unfold round_half_even. rewrite (Qfloor_comp _ _ E).
  assert (E' : (x - inject_Z (Qfloor y) == y - inject_Z (Qfloor y))%Q)
    by now rewrite E.
  now rewrite (Qcompare_comp _ _ E' _ _ (Qeq_refl (1 # 2))).
Qed.

Lemma py_round_compat (x y : Q) (n : nat) :
  (x == y)%Q -> py_round x n = py_round y n.
Proof.
  intros E. unfold py_round. apply Qred_complete.
  rewrite (round_half_even_compat (x * inject_Z (10 ^ Z.of_nat n))
             (y * inject_Z (10 ^ Z.of_nat n))); [reflexivity|].
  now rewrite E.
Qed.

Lemma round_half_even_Z (y : Q) (z : Z) :
  (y == inject_Z z)%Q -> round_half_even y = z.
Proof.
  intros E. rewrite (round_half_even_compat _ _ E).
  unfold round_half_even. rewrite Qfloor_Z.
  assert (E0 : (inject_Z z - inject_Z z == 0)%Q) by ring.
  now rewrite (Qcompare_comp _ _ E0 _ _ (Qeq_refl (1 # 2))).
Qed.

Lemma py_round_exact (x : Q) (n : nat) (z : Z) :
  (x * inject_Z (10 ^ Z.of_nat n) == inject_Z z)%Q ->
  (py_round x n == x)%Q.
Proof.
  intros E. unfold py_round. rewrite Qred_correct.
  rewrite (round_half_even_Z _ _ E).
  assert (Hpos : 0 < 10 ^ Z.of_nat n) by (apply Z.pow_pos_nonneg; lia).
  rewrite Qmake_Qdiv, Z2Pos.id by exact Hpos.
  rewrite <- E. field.
  intros H. unfold Qeq in H. simpl in H. lia.
Qed.

Lemma round_half_even_nearest (y : Q) :
  (Qabs (y - inject_Z (round_half_even y)) <= 1 # 2)%Q /\
  ((Qabs (y - inject_Z (round_half_even y)) == 1 # 2)%Q ->
   Z.even (round_half_even y) = true).
Proof.
  pose proof (Qfloor_le y) as Hlo. pose proof (Qlt_floor y) as Hhi.
  unfold round_half_even.
  assert (Hs : (inject_Z (Qfloor y + 1) == inject_Z (Qfloor y) + 1)%Q)
    by (rewrite inject_Z_plus; reflexivity).
  rewrite Hs in Hhi.
  destruct (Qcompare_spec (y - inject_Z (Qfloor y)) (1 # 2)) as [E|L|G].
  - destruct (Z.even (Qfloor y)) eqn:Ev.
    + split; [|intros _; exact Ev].
      rewrite Qabs_pos by lra. lra.
    + assert (Ev' : Z.even (Qfloor y + 1) = true).
      { rewrite Z.even_add, Ev. reflexivity. }
      split; [|intros _; exact Ev'].
      rewrite Hs, Qabs_neg by lra. lra.
  - split.
    + rewrite Qabs_pos by lra. lra.
    + intros Ha. rewrite Qabs_pos in Ha by lra. exfalso. lra.
  - split.
    + rewrite Hs, Qabs_neg by lra. lra.
    + intros Ha. rewrite Hs, Qabs_neg in Ha by lra. exfalso. lra.
Qed.

Lemma py_round_rounded (x : Q) (n : nat) : rounded_to n x (py_round x n).
Proof.
  exists (round_half_even (x * inject_Z (10 ^ Z.of_nat n))).
  split; [|apply round_half_even_nearest].
  unfold py_round. rewrite Qred_correct.
  assert (Hpos : 0 < 10 ^ Z.of_nat n) by (apply Z.pow_pos_nonneg; lia).
  rewrite Qmake_Qdiv, Z2Pos.id by exact Hpos. reflexivity.
Qed.

(** The characterisation determines the rounded value. *)
Lemma rounded_to_unique (n : nat) (x y y' : Q) :
  rounded_to n x y -> rounded_to n x y' -> (y == y')%Q.
Proof.
  intros [k [Hy [Hn Ht]]] [k' [Hy' [Hn' Ht']]].
  set (z := (x * inject_Z (10 ^ Z.of_nat n))%Q) in *.
  assert (Hk : k = k'); [|rewrite Hy, Hy', Hk; reflexivity].
  pose proof (proj1 (Qabs_Qle_condition _ _) Hn) as [L U].
  pose proof (proj1 (Qabs_Qle_condition _ _) Hn') as [L' U'].
  assert (H1 : (inject_Z (k - k') <= inject_Z 1)%Q).
  { unfold Z.sub. rewrite inject_Z_plus, inject_Z_opp.
    change (inject_Z 1) with 1%Q. lra. }
  assert (H2 : (inject_Z (k' - k) <= inject_Z 1)%Q).
  { unfold Z.sub. rewrite inject_Z_plus, inject_Z_opp.
    change (inject_Z 1) with 1%Q. lra. }
  rewrite <- Zle_Qle in H1, H2.
  destruct (Z.eq_dec k k') as [E|Hne]; [exact E|exfalso].
  assert (Hc : k = k' + 1 \/ k' = k + 1) by lia.
  assert (Hs : forall a : Z, (inject_Z (a + 1) == inject_Z a + 1)%Q)
    by (intros a; rewrite inject_Z_plus; reflexivity).
  destruct Hc as [E|E]; rewrite E in *.
  - rewrite Hs in L, U, Ht.
    assert (Ev : Z.even (k' + 1) = true).
    { apply Ht. rewrite Qabs_neg by lra. lra. }
    assert (Ev' : Z.even k' = true).
    { apply Ht'. rewrite Qabs_pos by lra. lra. }
    rewrite Z.even_add, Ev' in Ev. discriminate.
  - rewrite Hs in L', U', Ht'.
    assert (Ev : Z.even (k + 1) = true).
    { apply Ht'. rewrite Qabs_neg by lra. lra. }
    assert (Ev' : Z.even k = true).
    { apply Ht. rewrite Qabs_pos by lra. lra. }
    rewrite Z.even_add, Ev' in Ev. discriminate.
Qed.

Lemma rounded_to_compat (n : nat) (x x' y : Q) :
  (x == x')%Q -> rounded_to n x y -> rounded_to n x' y.
Proof.
  intros E [k [Hy [Hn Ht]]]. exists k. split; [exact Hy|].
  split; [now rewrite <- E|]. intros Ha. apply Ht. now rewrite E.
Qed.

Lemma rescale_compat (x y : Q) : (x == y)%Q -> (rescale x == rescale y)%Q.
Proof. intros E. unfold rescale. now rewrite E. Qed.

Lemma rescale_formula (m : Q) :
  (rescale m == (m - 1) / (5 - 1) * 100)%Q.
Proof. reflexivity. Qed.

Lemma classify_score_compat (x y : Q) :
  (x == y)%Q -> (0 <= x)%Q -> (x <= 100)%Q ->
  classify_score (PFloat x) = classify_score (PFloat y).
Proof.
  intros E H0 H100.
  rewrite (classify_score_cases (PFloat x) x), (classify_score_cases (PFloat y) y);
    try reflexivity; try assumption; try (rewrite <- E; assumption).
  now rewrite (Qltb_compat x y 40 40 E (Qeq_refl _)),
              (Qltb_compat x y 75 75 E (Qeq_refl _)).
Qed.

Lemma interpret_balance_compat (x y : Q) :
  (x == y)%Q -> interpret_balance x = interpret_balance y.
Proof.
  intros E. unfold interpret_balance.
  now rewrite !(Qltb_compat x y _ _ E (Qeq_refl _)).
Qed.

(** ** Sums and means of integer ratings *)

Lemma num_of_int (v : pyval) :
  isinstance_int v = true -> num_of v = Some (inject_Z (int_of v)).
Proof. destruct v; simpl; try discriminate; reflexivity. Qed.

Lemma py_sum_ints (l : list pyval) :
  Forall (fun v => isinstance_int v = true) l ->
  exists q, py_sum l = Ok q /\ (q == inject_Z (sumZ (map int_of l)))%Q.
Proof.
  induction 1 as [|v l Hv _ [q [Hq E]]]; simpl.
  - exists 0%Q. split; reflexivity.
  - rewrite (num_of_int v Hv), Hq. simpl.
    eexists. split; [reflexivity|].
    rewrite E, inject_Z_plus. reflexivity.
Qed.

Lemma py_mean_ints (l : list pyval) :
  l <> [] -> Forall (fun v => isinstance_int v = true) l ->
  exists q, py_mean l = Ok q /\ (q == mean_of (map int_of l))%Q.
Proof.
  intros Hne Hl. destruct (py_sum_ints l Hl) as [s [Hs E]].
  unfold py_mean. rewrite Hs. simpl.
  destruct l as [|v l]; [congruence|]. unfold div_len.
  eexists. split; [reflexivity|].
  unfold mean_of. rewrite E, length_map. reflexivity.
Qed.

Lemma lookup_all_present (ratings : dict pyval) (codes : list string) :
  (forall c, In c codes -> exists v, dict_get ratings c = Some v) ->
  exists vs, lookup_all ratings codes = Ok vs /\
             map int_of vs = map (rating ratings) codes /\
             Forall2 (fun c v => dict_get ratings c = Some v) codes vs.
Proof.
  induction codes as [|c codes IH]; intros H; simpl.
  - exists []. repeat split; constructor.
  - destruct (H c (or_introl eq_refl)) as [v Hv].
    destruct IH as [vs [Hvs [Hm Hf]]]; [intros c' Hc'; apply H; now right|].
    unfold dict_item. rewrite Hv, Hvs. simpl.
    exists (v :: vs). repeat split.
    + simpl. unfold rating at 1. now rewrite Hv, Hm.
    + now constructor.
Qed.

(** ** Validated mappings *)

Lemma In_keys_exists {V : Type} (d : dict V) (k : string) :
  In k (keys d) -> exists v, In (k, v) d.
Proof.
  unfold keys. rewrite in_map_iff. intros [[k' v] [E H]].
  simpl in E. subst. now exists v.
Qed.

Lemma validated_get (ratings : dict pyval) (c : string) :
  validated ratings -> In c (keys ITEM_DEFINITIONS) ->
  exists v, dict_get ratings c = Some v /\ likert_ok v = true.
Proof.
  intros [Hwf Hv] Hc. apply (validate_ratings_ok _ Hwf) in Hv.
  destruct Hv as [Hp Hf]. symmetry in Hp.
  apply (Permutation_in _ Hp) in Hc.
  destruct (In_keys_exists _ _ Hc) as [v Hin].
  exists v. split; [now apply wf_dict_get|].
  rewrite Forall_forall in Hf. exact (Hf _ Hin).
Qed.

Lemma validated_values (ratings : dict pyval) :
  validated ratings ->
  Forall (fun kv => likert_ok (snd kv) = true) ratings.
Proof. intros [Hwf Hv]. now apply (validate_ratings_ok _ Hwf) in Hv. Qed.

Lemma validated_keys (ratings : dict pyval) :
  validated ratings -> Permutation (keys ratings) (keys ITEM_DEFINITIONS).
Proof. intros [Hwf Hv]. now apply (validate_ratings_ok _ Hwf) in Hv. Qed.

Lemma likert_ok_int (v : pyval) : likert_ok v = true -> isinstance_int v = true.
Proof. intros H. now apply likert_ok_iff in H. Qed.

(** ** Chronotype index *)

Lemma Forall2_get_Forall (ratings : dict pyval) (P : pyval -> Prop)
    (codes : list string) (vs : list pyval) :
  Forall2 (fun c v => dict_get ratings c = Some v) codes vs ->
  (forall c v, In c codes -> dict_get ratings c = Some v -> P v) ->
  Forall P vs.
Proof.
  induction 1 as [|c v codes vs Hcv _ IH]; intros HP; constructor.
  - apply (HP c v); [now left|exact Hcv].
  - apply IH. intros c' v' Hc'. apply HP. now right.
Qed.

Lemma lookup_mean (ratings : dict pyval) (codes : list string) :
  codes <> [] ->
  (forall c, In c codes ->
     exists v, dict_get ratings c = Some v /\ isinstance_int v = true) ->
  exists vs q, lookup_all ratings codes = Ok vs /\ py_mean vs = Ok q /\
               length vs = length codes /\
               (q == mean_of (map (rating ratings) codes))%Q.
Proof.
  intros Hne H.
  destruct (lookup_all_present ratings codes) as [vs [Hvs [Hm Hf]]].
  { intros c Hc. destruct (H c Hc) as [v [Hv _]]. now exists v. }
  assert (Hlen : length vs = length codes)
    by (symmetry; eapply Forall2_length; exact Hf).
  destruct (py_mean_ints vs) as [q [Hq E]].
  - intros ->. destruct codes; [congruence|discriminate].
  - apply (Forall2_get_Forall ratings _ codes vs Hf).
    intros c v Hc Hv. destruct (H c Hc) as [v' [Hv' Hi]]. congruence.
  - exists vs, q. repeat split; try assumption. now rewrite <- Hm.
Qed.

Lemma compute_chronotype_index_eq (ratings : dict pyval)
    (mvs evs : list pyval) (mo ev : Q) :
  lookup_all ratings morning_items = Ok mvs ->
  lookup_all ratings evening_items = Ok evs ->
  py_mean mvs = Ok mo -> py_mean evs = Ok ev ->
  compute_chronotype_index ratings =
    Ok {| chr_label := "Chronotyp-Profil";
          morning_tendency := py_round (rescale mo) 1;
          evening_tendency := py_round (rescale ev) 1;
          balance_score := py_round (ev - mo) 2;
          interpretation := interpret_balance (ev - mo);
          chr_num_items := 6;
          chr_item_codes := morning_items ++ evening_items |}.
Proof.
  intros Hm He Hmo Hev. unfold compute_chronotype_index.
  rewrite Hm, He. cbn [bind try_except]. now rewrite Hmo, Hev.
Qed.

Lemma compute_chronotype_index_ints (ratings : dict pyval) :
  (forall c, In c (morning_items ++ evening_items) ->
     exists v, dict_get ratings c = Some v /\ isinstance_int v = true) ->
  exists mo ev,
    (mo == mean_of (map (rating ratings) morning_items))%Q /\
    (ev == mean_of (map (rating ratings) evening_items))%Q /\
    compute_chronotype_index ratings =
      Ok {| chr_label := "Chronotyp-Profil";
            morning_tendency := py_round (rescale mo) 1;
            evening_tendency := py_round (rescale ev) 1;
            balance_score := py_round (ev - mo) 2;
            interpretation := interpret_balance (ev - mo);
            chr_num_items := 6;
            chr_item_codes := morning_items ++ evening_items |}.
Proof.
  intros H.
  destruct (lookup_mean ratings morning_items) as [mvs [mo [Hm [Hmo [_ Em]]]]];
    [discriminate|intros c Hc; apply H, in_or_app; now left|].
  destruct (lookup_mean ratings evening_items) as [evs [ev [He [Hev [_ Ee]]]]];
    [discriminate|intros c Hc; apply H, in_or_app; now right|].
  exists mo, ev. repeat split; try assumption.
  now apply (compute_chronotype_index_eq ratings mvs evs).
Qed.

Lemma balance_two_decimals (ml el : list Z) :
  length ml = 4%nat -> length el = 2%nat ->
  ((mean_of el - mean_of ml) * inject_Z (10 ^ Z.of_nat 2)
   == inject_Z (50 * sumZ el - 25 * sumZ ml))%Q.
Proof.
  intros Hm He. unfold mean_of. rewrite Hm, He.
  unfold Z.sub. rewrite inject_Z_plus, inject_Z_opp, !inject_Z_mult.
  change (inject_Z (Z.of_nat 4)) with 4%Q.
  change (inject_Z (Z.of_nat 2)) with 2%Q.
  change (inject_Z (10 ^ Z.of_nat 2)) with 100%Q.
  change (inject_Z 50) with 50%Q. change (inject_Z 25) with 25%Q.
  field.
Qed.

Lemma chronotype_items_known :
  forall c, In c (morning_items ++ evening_items) ->
            In c (keys ITEM_DEFINITIONS).
Proof.
  intros c Hc. apply mem_In.
  simpl in Hc. repeat (destruct Hc as [<-|Hc]; [vm_compute; reflexivity|]).
  destruct Hc.
Qed.

Lemma interpret_balance_buckets (b : Q) :
  ((b < - (8 # 10))%Q -> interpret_balance b = "Deutlicher Morgentyp") /\
  ((- (8 # 10) <= b)%Q -> (b < - (4 # 10))%Q ->
     interpret_balance b = "Leichter Morgentyp") /\
  ((- (4 # 10) <= b)%Q -> (b < 4 # 10)%Q ->
     interpret_balance b = "Neutraler/intermediärer Typ") /\
  ((4 # 10 <= b)%Q -> (b < 8 # 10)%Q ->
     interpret_balance b = "Leichter Abendtyp") /\
  ((8 # 10 <= b)%Q -> interpret_balance b = "Deutlicher Abendtyp").
Proof.
  unfold interpret_balance.
  repeat split; intros;
    repeat match goal with
    | |- context [Qltb ?x ?y] =>
        let E := fresh "E" in
        destruct (Qltb x y) eqn:E;
        [apply Qltb_lt in E|apply Qltb_ge in E]
    end; try reflexivity; exfalso; lra.
Qed.

(** ** Bounds *)

Lemma sumZ_bounds (l : list Z) :
  Forall (fun z => 1 <= z <= 5) l ->
  Z.of_nat (length l) <= sumZ l <= 5 * Z.of_nat (length l).
Proof.
  induction 1 as [|z l Hz _ IH]; simpl length; simpl sumZ; lia.
Qed.

Lemma mean_of_bounds (l : list Z) :
  l <> [] -> Forall (fun z => 1 <= z <= 5) l ->
  (1 <= mean_of l)%Q /\ (mean_of l <= 5)%Q.
Proof.
  intros Hne Hl. pose proof (sumZ_bounds l Hl) as [Hlo Hhi].
  assert (Hn : 0 < Z.of_nat (length l)) by (destruct l; [congruence|simpl; lia]).
  assert (Hq : (0 < inject_Z (Z.of_nat (length l)))%Q)
    by (rewrite <- (Zlt_Qlt 0); exact Hn).
  unfold mean_of. split.
  - apply Qle_shift_div_l; [exact Hq|]. rewrite Qmult_1_l.
    now rewrite <- Zle_Qle.
  - apply Qle_shift_div_r; [exact Hq|].
    change 5%Q with (inject_Z 5). rewrite <- inject_Z_mult.
    now rewrite <- Zle_Qle.
Qed.

Lemma rescale_bounds (q : Q) :
  (1 <= q)%Q -> (q <= 5)%Q -> (0 <= rescale q)%Q /\ (rescale q <= 100)%Q.
Proof.
  intros H1 H5.
  assert (E : (rescale q == (q - 1) * 25)%Q)
    by (rewrite rescale_formula; field).
  rewrite E. split; lra.
Qed.

Lemma classify_rescaled (q : Q) :
  (1 <= q)%Q -> (q <= 5)%Q ->
  exists level, classify_score (PFloat (rescale q)) = Ok level.
Proof.
  intros H1 H5. destruct (rescale_bounds q H1 H5) as [H0 H100].
  rewrite (classify_score_cases (PFloat (rescale q)) (rescale q) eq_refl H0 H100).
  eexists. reflexivity.
Qed.

Lemma ratings_in_range (ratings : dict pyval) (codes : list string) :
  (forall c, In c codes ->
     exists v, dict_get ratings c = Some v /\ likert_ok v = true) ->
  Forall (fun z => 1 <= z <= 5) (map (rating ratings) codes).
Proof.
  intros H. apply Forall_map, Forall_forall. intros c Hc.
  destruct (H c Hc) as [v [Hv Hok]]. unfold rating. rewrite Hv.
  now apply likert_ok_iff in Hok.
Qed.

(** ** Additional indices *)

Lemma rating_set_get (ratings : dict pyval) (c : string) :
  Forall (fun kv => likert_ok (snd kv) = true) ratings ->
  dict_mem c ratings = true ->
  exists v, dict_get ratings c = Some v /\ likert_ok v = true.
Proof.
  intros Hf Hc. unfold dict_mem in Hc.
  destruct (dict_get ratings c) as [v|] eqn:E; [|discriminate].
  exists v. split; [reflexivity|].
  rewrite Forall_forall in Hf. exact (Hf _ (dict_get_In _ _ _ E)).
Qed.

Lemma get_int_of_ok (ratings : dict pyval) (codes : list string) :
  (forall c, In c codes ->
     exists v, dict_get ratings c = Some v /\ likert_ok v = true) ->
  forall c, In c codes ->
     exists v, dict_get ratings c = Some v /\ isinstance_int v = true.
Proof.
  intros H c Hc. destruct (H c Hc) as [v [Hv Hok]].
  exists v. split; [exact Hv|now apply likert_ok_int].
Qed.

Lemma compute_additional_indices_rating_set (ratings : dict pyval) :
  Forall (fun kv => likert_ok (snd kv) = true) ratings ->
  forallb (fun c => dict_mem c ratings) (morning_items ++ evening_items)
    = true ->
  exists ch, compute_chronotype_index ratings = Ok ch /\
    if forallb (fun c => dict_mem c ratings) avoid_items then
      exists q level,
        (q == mean_of (map (rating ratings) avoid_items))%Q /\
        classify_score (PFloat (rescale q)) = Ok level /\
        compute_additional_indices ratings =
          Ok [("motivation_avoidance",
               Avoidance
                 {| av_label := "Vermeidungsorientierung (Motivation)";
                    av_score := py_round (rescale q) 1;
                    av_level := level;
                    av_num_items := 2;
                    av_raw_mean := py_round q 2;
                    av_item_codes := avoid_items |});
              ("chronotype", Chronotype ch)]
    else compute_additional_indices ratings = Ok [("chronotype", Chronotype ch)].
Proof.
  intros Hf Hchr. rewrite forallb_forall in Hchr.
  assert (Hget : forall c, In c (morning_items ++ evening_items) ->
            exists v, dict_get ratings c = Some v /\ likert_ok v = true).
  { intros c Hc. apply rating_set_get; [exact Hf|now apply Hchr]. }
  destruct (compute_chronotype_index_ints ratings
              (get_int_of_ok _ _ Hget)) as [mo [ev [_ [_ Hch]]]].
  eexists. split; [exact Hch|].
  unfold compute_additional_indices.
  destruct (forallb (fun c => dict_mem c ratings) avoid_items) eqn:Hav.
  - rewrite forallb_forall in Hav.
    assert (Hget' : forall c, In c avoid_items ->
              exists v, dict_get ratings c = Some v /\ likert_ok v = true).
    { intros c Hc. apply rating_set_get; [exact Hf|now apply Hav]. }
    destruct (lookup_mean ratings avoid_items) as [vs [q [Hvs [Hq [Hlen E]]]]];
      [discriminate|exact (get_int_of_ok _ _ Hget')|].
    assert (Hb : (1 <= q)%Q /\ (q <= 5)%Q).
    { rewrite E. apply mean_of_bounds; [discriminate|].
      now apply ratings_in_range. }
    destruct (classify_rescaled q (proj1 Hb) (proj2 Hb)) as [level Hl].
    exists q, level. repeat split; try assumption.
    rewrite Hvs. cbn [bind]. rewrite Hq. cbn [bind]. rewrite Hl.
    cbn [bind]. rewrite Hch. cbn [bind try_except]. rewrite Hlen.
    reflexivity.
  - cbn [bind]. rewrite Hch. reflexivity.
Qed.

Lemma validated_mem (ratings : dict pyval) (codes : list string) :
  validated ratings ->
  (forall c, In c codes -> In c (keys ITEM_DEFINITIONS)) ->
  forallb (fun c => dict_mem c ratings) codes = true.
Proof.
  intros Hv H. apply forallb_forall. intros c Hc.
  destruct (validated_get ratings c Hv (H c Hc)) as [v [Hg _]].
  unfold dict_mem. now rewrite Hg.
Qed.

(** C6. On every validated rating set the chronotype index is computed
    (and stored under "chronotype" by [compute_additional_indices]) with
    [morning_tendency] and [evening_tendency] the means of the four morning
    ratings and of the two evening ratings, each rescaled by
    [(m - 1) / (5 - 1) * 100] and rounded to one decimal (the nearest
    multiple of 0.1); [balance_score] is the evening mean minus the morning
    mean on the raw scale; and the
    interpretation is "Deutlicher Morgentyp" (strong morning type) below
    -0.8, "Leichter Morgentyp" (mild morning type) on [-0.8, -0.4),
    "Neutraler/intermediärer Typ" on [-0.4, 0.4), "Leichter Abendtyp" (mild
    evening type) on [0.4, 0.8) and "Deutlicher Abendtyp" (strong evening
    type) from 0.8 on. *)
Theorem chronotype_index_spec (ratings : dict pyval) :
  validated ratings ->
  exists ch idx,
    compute_chronotype_index ratings = Ok ch /\
    compute_additional_indices ratings = Ok idx /\
    dict_get idx "chronotype" = Some (Chronotype ch) /\
    let mo := mean_of (map (rating ratings) ["A8"; "A13"; "A14"; "A15"]) in
    let ev := mean_of (map (rating ratings) ["A9"; "A16"]) in
    let balance := (ev - mo)%Q in
    morning_tendency ch = py_round ((mo - 1) / (5 - 1) * 100) 1 /\
    evening_tendency ch = py_round ((ev - 1) / (5 - 1) * 100) 1 /\
    rounded_to 1 ((mo - 1) / (5 - 1) * 100) (morning_tendency ch) /\
    rounded_to 1 ((ev - 1) / (5 - 1) * 100) (evening_tendency ch) /\
    (balance_score ch == balance)%Q /\
    ((balance < - (8 # 10))%Q ->
       interpretation ch = "Deutlicher Morgentyp") /\
    ((- (8 # 10) <= balance)%Q -> (balance < - (4 # 10))%Q ->
       interpretation ch = "Leichter Morgentyp") /\
    ((- (4 # 10) <= balance)%Q -> (balance < 4 # 10)%Q ->
       interpretation ch = "Neutraler/intermediärer Typ") /\
    ((4 # 10 <= balance)%Q -> (balance < 8 # 10)%Q ->
       interpretation ch = "Leichter Abendtyp") /\
    ((8 # 10 <= balance)%Q -> interpretation ch = "Deutlicher Abendtyp").
Proof.
  intros Hv.
  pose proof (validated_values ratings Hv) as Hf.
  pose proof (validated_mem ratings _ Hv chronotype_items_known) as Hchr.
  destruct (compute_additional_indices_rating_set ratings Hf Hchr)
    as [ch [Hch Hidx]].
  assert (Hget : forall c, In c (morning_items ++ evening_items) ->
            exists v, dict_get ratings c = Some v /\ isinstance_int v = true).
  { intros c Hc. apply (get_int_of_ok ratings (morning_items ++ evening_items));
      [|exact Hc].
    intros c' Hc'. apply validated_get; [exact Hv|].
    now apply chronotype_items_known. }
  destruct (compute_chronotype_index_ints ratings Hget)
    as [mo [ev [Emo [Eev Hrec]]]].
  rewrite Hch in Hrec. injection Hrec as ->.
  assert (Hidx' : exists idx, compute_additional_indices ratings = Ok idx /\
            dict_get idx "chronotype" = Some (Chronotype
              {| chr_label := "Chronotyp-Profil";
                 morning_tendency := py_round (rescale mo) 1;
                 evening_tendency := py_round (rescale ev) 1;
                 balance_score := py_round (ev - mo) 2;
                 interpretation := interpret_balance (ev - mo);
                 chr_num_items := 6;
                 chr_item_codes := morning_items ++ evening_items |})).
  { destruct (forallb (fun c => dict_mem c ratings) avoid_items).
    - destruct Hidx as [q [level [_ [_ Hidx]]]].
      eexists. split; [exact Hidx|reflexivity].
    - eexists. split; [exact Hidx|reflexivity]. }
  destruct Hidx' as [idx [Hi Hg]].
  eexists. exists idx. split; [exact Hch|]. split; [exact Hi|].
  split; [exact Hg|].
  cbv zeta. cbn [morning_tendency evening_tendency balance_score interpretation].
  change ["A8"; "A13"; "A14"; "A15"] with morning_items.
  change ["A9"; "A16"] with evening_items.
  set (mo' := mean_of (map (rating ratings) morning_items)) in *.
  set (ev' := mean_of (map (rating ratings) evening_items)) in *.
  assert (Eb : (ev - mo == ev' - mo')%Q) by now rewrite Emo, Eev.
  assert (Rm : (rescale mo == (mo' - 1) / (5 - 1) * 100)%Q)
    by (rewrite <- rescale_formula; now apply rescale_compat).
  assert (Re : (rescale ev == (ev' - 1) / (5 - 1) * 100)%Q)
    by (rewrite <- rescale_formula; now apply rescale_compat).
  split; [now apply py_round_compat|].
  split; [now apply py_round_compat|].
  split; [apply (rounded_to_compat _ _ _ _ Rm), py_round_rounded|].
  split; [apply (rounded_to_compat _ _ _ _ Re), py_round_rounded|].
  split.
  { rewrite (py_round_compat _ _ 2 Eb).
    eapply py_round_exact. unfold ev', mo'.
    apply balance_two_decimals; reflexivity. }
  rewrite (interpret_balance_compat _ _ Eb).
  apply interpret_balance_buckets.
Qed.

Lemma chronotype_index_spec_witness :
  exists ch idx,
    compute_chronotype_index (ratings_all 3) = Ok ch /\
    compute_additional_indices (ratings_all 3) = Ok idx /\
    dict_get idx "chronotype" = Some (Chronotype ch) /\
    interpretation ch = "Neutraler/intermediärer Typ".
Proof.
  destruct (chronotype_index_spec (ratings_all 3))
    as [ch [idx [H1 [H2 [H3 [_ [_ [_ [_ [_ [_ [_ [H6 _]]]]]]]]]]]]].
  - split; vm_compute; reflexivity.
  - exists ch, idx. repeat split; try assumption.
    apply H6; vm_compute; [discriminate|reflexivity].
Defined.

(** ** Avoidance index *)





(** ** Response quality *)

Lemma py_eqb_ints (a b : pyval) :
  isinstance_int a = true -> isinstance_int b = true ->
  py_eqb a b = true <-> int_of a = int_of b.
Proof.
  intros Ha Hb. unfold py_eqb.
  rewrite (num_of_int a Ha), (num_of_int b Hb), Qeq_bool_iff.
  apply inject_Z_injective.
Qed.

Lemma existsb_py_eqb (v : pyval) (l : list pyval) :
  isinstance_int v = true -> Forall (fun v => isinstance_int v = true) l ->
  existsb (py_eqb v) l = true <-> In (int_of v) (map int_of l).
Proof.
  intros Hv Hl. rewrite existsb_exists, in_map_iff. split.
  - intros [x [Hx E]]. exists x. split; [|exact Hx].
    rewrite Forall_forall in Hl. symmetry.
    now apply (py_eqb_ints v x Hv (Hl x Hx)).
  - intros [x [E Hx]]. exists x. split; [exact Hx|].
    rewrite Forall_forall in Hl.
    now apply (py_eqb_ints v x Hv (Hl x Hx)).
Qed.

Lemma py_set_ints (l : list pyval) :
  Forall (fun v => isinstance_int v = true) l ->
  map int_of (py_set l) = nodup Z.eq_dec (map int_of l).
Proof.
  induction 1 as [|v l Hv Hl IH]; simpl; [reflexivity|].
  pose proof (existsb_py_eqb v l Hv Hl) as Hiff.
  destruct (existsb (py_eqb v) l);
    destruct (in_dec Z.eq_dec (int_of v) (map int_of l)) as [Hin|Hnin].
  - exact IH.
  - exfalso. apply Hnin. now apply Hiff.
  - apply Hiff in Hin. discriminate.
  - simpl. now rewrite IH.
Qed.

Lemma py_set_count (l : list pyval) :
  Forall (fun v => isinstance_int v = true) l ->
  length (py_set l) = distinct_count (map int_of l).
Proof.
  intros Hl. unfold distinct_count. rewrite <- (py_set_ints l Hl).
  now rewrite length_map.
Qed.

Lemma sum_sq_compat (m m' : Q) (zs : list Z) :
  (m == m')%Q -> (sum_sq m zs == sum_sq m' zs)%Q.
Proof.
  intros E. induction zs as [|z zs IH]; simpl; [reflexivity|].
  now rewrite IH, E.
Qed.

Lemma sum_sq_dev_ints (m : Q) (l : list pyval) :
  Forall (fun v => isinstance_int v = true) l ->
  sum_sq_dev m l = Ok (sum_sq m (map int_of l)).
Proof.
  induction 1 as [|v l Hv _ IH]; simpl; [reflexivity|].
  now rewrite (num_of_int v Hv), IH.
Qed.

Lemma div_len_nonempty {A : Type} (q : Q) (l : list A) :
  l <> [] -> div_len q l = Ok (q / inject_Z (Z.of_nat (length l)))%Q.
Proof. destruct l; [congruence|reflexivity]. Qed.



Lemma quality_get_mean (u v m f w : quality_value) :
  dict_get [("num_unique_responses", u); ("response_variance", v);
            ("mean_response", m); ("quality_flag", f); ("warnings", w)]
    "mean_response" = Some m.
Proof. reflexivity. Qed.

Lemma quality_get_flag (u v m f w : quality_value) :
  dict_get [("num_unique_responses", u); ("response_variance", v);
            ("mean_response", m); ("quality_flag", f); ("warnings", w)]
    "quality_flag" = Some f.
Proof. reflexivity. Qed.

Lemma quality_get_warnings (u v m f w : quality_value) :
  dict_get [("num_unique_responses", u); ("response_variance", v);
            ("mean_response", m); ("quality_flag", f); ("warnings", w)]
    "warnings" = Some w.
Proof. reflexivity. Qed.

Lemma check_response_quality_ints (ratings : dict pyval) :
  ratings <> [] ->
  Forall (fun kv => isinstance_int (snd kv) = true) ratings ->
  exists mean_val variance,
    (mean_val == mean_of (raw_ratings ratings))%Q /\
    (variance == population_variance (raw_ratings ratings))%Q /\
    check_response_quality ratings =
      Ok [("num_unique_responses",
           QInt (distinct_count (raw_ratings ratings)));
          ("response_variance", QFloat (py_round variance 2));
          ("mean_response", QFloat (py_round mean_val 2));
          ("quality_flag",
           QStr match applicable_warnings
                        (distinct_count (raw_ratings ratings)) variance with
                | [] => "ok"
                | _ => "check"
                end);
          ("warnings",
           match applicable_warnings
                   (distinct_count (raw_ratings ratings)) variance with
           | [] => QNone
           | w :: ws => QList (w :: ws)
           end)].
Proof.
  intros Hne Hf.
  assert (Hvals : Forall (fun v => isinstance_int v = true) (values ratings))
    by (unfold values; now apply Forall_map).
  assert (Hvne : values ratings <> [])
    by (destruct ratings; [congruence|discriminate]).
  destruct (py_mean_ints _ Hvne Hvals) as [mean_val [Hmean Em]].
  exists mean_val.
  exists (sum_sq mean_val (raw_ratings ratings)
          / inject_Z (Z.of_nat (length (values ratings))))%Q.
  split; [exact Em|]. split.
  - unfold population_variance, raw_ratings. rewrite length_map.
    now rewrite (sum_sq_compat _ _ _ Em).
  - unfold check_response_quality. rewrite Hmean. cbn [bind].
    rewrite (sum_sq_dev_ints _ _ Hvals). cbn [bind].
    rewrite (div_len_nonempty _ _ Hvne). cbn [bind].
    rewrite (py_set_count _ Hvals).
    unfold applicable_warnings, raw_ratings.
    destruct (distinct_count (map int_of (values ratings)) <=? 2)%nat;
      destruct (Qltb _ (1 # 2)); reflexivity.
Qed.

Lemma applicable_warnings_nil (unique : nat) (variance : Q) :
  applicable_warnings unique variance = [] <->
  ~ ((unique <= 2)%nat \/ (variance < 1 # 2)%Q).
Proof.
  unfold applicable_warnings.
  destruct (Nat.leb_spec unique 2) as [Hu|Hu];
    destruct (Qltb variance (1 # 2)) eqn:Ev; simpl;
    try (apply Qltb_lt in Ev); try (apply Qltb_ge in Ev);
    (split; [try discriminate; intros _ [H|H]|
             try reflexivity; intros H; exfalso; apply H]);
    try lia; try lra; try (now left); try (now right).
Qed.

Lemma applicable_warnings_In (unique : nat) (variance : Q) (w : string) :
  In w (applicable_warnings unique variance) <->
  (w = QUALITY_WARN_STRAIGHT /\ (unique <= 2)%nat) \/
  (w = QUALITY_WARN_LOW_VAR /\ (variance < 1 # 2)%Q).
Proof.
  unfold applicable_warnings. rewrite in_app_iff.
  destruct (Nat.leb_spec unique 2) as [Hu|Hu];
    destruct (Qltb variance (1 # 2)) eqn:Ev; simpl;
    try (apply Qltb_lt in Ev); try (apply Qltb_ge in Ev);
    intuition (try lia; try lra; auto).
Qed.

(** ** The first loop of [compute_dimension_scores] *)

Lemma DIMENSION_LABELS_NoDup : NoDup (keys DIMENSION_LABELS).
Proof. apply distinct_keys_NoDup. reflexivity. Qed.

Lemma dict_append_map {V : Type} (f : string -> list V) (ds : list string)
    (k : string) (x : V) :
  NoDup ds -> In k ds ->
  dict_append (map (fun d => (d, f d)) ds) k x =
    Ok (map (fun d => (d, if String.eqb k d then f d ++ [x] else f d)) ds).
Proof.
  induction ds as [|d ds IH]; intros Hnd Hin; [destruct Hin|].
  inversion Hnd as [|? ? Hnin Hnd']; subst. simpl.
  destruct (String.eqb_spec k d) as [->|Hne].
  - f_equal. f_equal. apply map_ext_in. intros d' Hd'.
    destruct (String.eqb_spec d d') as [->|_]; [contradiction|reflexivity].
  - destruct Hin as [E|Hin]; [congruence|].
    now rewrite (IH Hnd' Hin).
Qed.

Lemma dict_get_map {V : Type} (f : string -> V) (ds : list string) (k : string) :
  In k ds -> dict_get (map (fun d => (d, f d)) ds) k = Some (f k).
Proof.
  induction ds as [|d ds IH]; intros Hin; [destruct Hin|]. simpl.
  destruct (String.eqb_spec k d) as [->|Hne]; [reflexivity|].
  destruct Hin as [E|Hin]; [congruence|now apply IH].
Qed.

Lemma known_item (c : string) :
  In c (keys ITEM_DEFINITIONS) ->
  exists i, dict_get ITEM_DEFINITIONS c = Some i /\
            In (dimension_code i) (keys DIMENSION_LABELS).
Proof.
  intros Hc. destruct (dict_get ITEM_DEFINITIONS c) as [i|] eqn:E.
  - exists i. split; [reflexivity|].
    apply dict_mem_In.
    assert (H : dimensions_known ITEM_DEFINITIONS = true)
      by (vm_compute; reflexivity).
    unfold dimensions_known in H. rewrite forallb_forall in H.
    apply H. apply dict_get_In in E.
    apply (in_map snd) in E. exact E.
  - apply dict_get_None in E. contradiction.
Qed.

Lemma collected_entries_snoc (d : string) (p : dict pyval)
    (e : string * pyval) :
  collected_entries d (p ++ [e]) =
    collected_entries d p ++ (if collects d (fst e) then [e] else []).
Proof.
  unfold collected_entries. rewrite filter_app. simpl.
  now destruct (collects d (fst e)).
Qed.

Lemma collect_step_of (p : dict pyval) (c : string) (v : pyval) :
  In c (keys ITEM_DEFINITIONS) -> likert_ok v = true ->
  collect_step (collected_of p) (c, v) = Ok (collected_of (p ++ [(c, v)])).
Proof.
  intros Hc Hv. destruct (known_item c Hc) as [i [Hi Hd]].
  unfold collect_step, dict_item. rewrite Hi. cbn [bind].
  destruct (include_in_main_scale i) eqn:Einc; cbn [negb].
  - unfold collected_of at 1 2 3.
    cbn [dim_items dim_raw_values dim_values].
    rewrite (dict_append_map _ _ _ c DIMENSION_LABELS_NoDup Hd). cbn [bind].
    rewrite (dict_append_map _ _ _ v DIMENSION_LABELS_NoDup Hd). cbn [bind].
    assert (Hfin : (if reverse_scored i then reverse_likert v else Ok v)
                   = Ok (final_value (c, v))).
    { unfold final_value, is_reversed. cbn [fst snd]. rewrite Hi.
      destruct (reverse_scored i); [|reflexivity].
      apply likert_ok_iff in Hv. destruct Hv as [Hint Hr].
      now rewrite (reverse_likert_in_range v Hint Hr). }
    rewrite Hfin. cbn [bind].
    rewrite (dict_append_map _ _ _ (final_value (c, v))
               DIMENSION_LABELS_NoDup Hd). cbn [bind].
    unfold collected_of. f_equal. f_equal.
    + apply map_ext. intros d. rewrite collected_entries_snoc.
      unfold collects. cbn [fst]. rewrite Hi, Einc. cbn [andb].
      destruct (String.eqb (dimension_code i) d);
        [now rewrite map_app|now rewrite app_nil_r].
    + apply map_ext. intros d. rewrite collected_entries_snoc.
      unfold collects. cbn [fst]. rewrite Hi, Einc. cbn [andb].
      destruct (String.eqb (dimension_code i) d);
        [now rewrite map_app|now rewrite app_nil_r].
    + apply map_ext. intros d. rewrite collected_entries_snoc.
      unfold collects. cbn [fst]. rewrite Hi, Einc. cbn [andb].
      destruct (String.eqb (dimension_code i) d);
        [now rewrite map_app|now rewrite app_nil_r].
  - f_equal. unfold collected_of. f_equal;
      apply map_ext; intros d; rewrite collected_entries_snoc;
      unfold collects; cbn [fst]; rewrite Hi, Einc; cbn [andb];
      now rewrite app_nil_r.
Qed.

Lemma collect_of (ratings p : dict pyval) :
  Forall (fun kv => In (fst kv) (keys ITEM_DEFINITIONS) /\
                    likert_ok (snd kv) = true) ratings ->
  collect (collected_of p) ratings = Ok (collected_of (p ++ ratings)).
Proof.
  intros H. revert p. induction H as [|[c v] ratings [Hc Hv] _ IH]; intros p.
  - simpl. now rewrite app_nil_r.
  - cbn [collect]. cbn [fst snd] in Hc, Hv.
    rewrite (collect_step_of p c v Hc Hv). cbn [bind].
    rewrite IH. now rewrite <- app_assoc.
Qed.

Lemma compute_dimension_scores_collected (ratings : dict pyval) :
  Forall (fun kv => In (fst kv) (keys ITEM_DEFINITIONS) /\
                    likert_ok (snd kv) = true) ratings ->
  compute_dimension_scores ratings =
    build_results (collected_of ratings) (dim_values (collected_of ratings)).
Proof.
  intros H. unfold compute_dimension_scores.
  change {| dim_values := empty_lists pyval;
            dim_items := empty_lists string;
            dim_raw_values := empty_lists pyval |} with (collected_of []).
  now rewrite (collect_of ratings [] H).
Qed.

(** ** The second loop of [compute_dimension_scores] *)

Lemma count_reversed_known (codes : list string) :
  Forall (fun c => In c (keys ITEM_DEFINITIONS)) codes ->
  count_reversed codes = Ok (length (filter is_reversed codes)).
Proof.
  induction 1 as [|c codes Hc _ IH]; simpl; [reflexivity|].
  destruct (known_item c Hc) as [i [Hi _]].
  unfold dict_item, is_reversed. rewrite Hi, IH. cbn [bind].
  now destruct (reverse_scored i).
Qed.

Lemma final_value_ok (kv : string * pyval) :
  likert_ok (snd kv) = true -> likert_ok (final_value kv) = true.
Proof.
  intros H. unfold final_value. destruct (is_reversed (fst kv)); [|exact H].
  apply likert_ok_iff in H. destruct H as [_ H].
  apply likert_ok_iff. cbn [isinstance_int int_of].
  unfold LIKERT_MIN, LIKERT_MAX. split; [reflexivity|lia].
Qed.

Lemma collected_entries_ok (d : string) (ratings : dict pyval) :
  Forall (fun kv => In (fst kv) (keys ITEM_DEFINITIONS) /\
                    likert_ok (snd kv) = true) ratings ->
  Forall (fun kv => In (fst kv) (keys ITEM_DEFINITIONS) /\
                    likert_ok (snd kv) = true) (collected_entries d ratings).
Proof.
  intros H. apply Forall_forall. intros kv Hkv.
  apply filter_In in Hkv. rewrite Forall_forall in H. now apply H.
Qed.

Lemma label_of_dimension (d : string) :
  In d (keys DIMENSION_LABELS) ->
  exists label, dict_get DIMENSION_LABELS d = Some label.
Proof.
  intros Hd. destruct (dict_get DIMENSION_LABELS d) as [label|] eqn:E.
  - now exists label.
  - apply dict_get_None in E. contradiction.
Qed.

Lemma likert_mean (l : list pyval) :
  l <> [] -> Forall (fun v => likert_ok v = true) l ->
  exists q, py_mean l = Ok q /\ (q == mean_of (map int_of l))%Q /\
            (1 <= q)%Q /\ (q <= 5)%Q.
Proof.
  intros Hne Hl.
  destruct (py_mean_ints l Hne) as [q [Hq E]].
  { eapply Forall_impl; [|exact Hl]. intros v. apply likert_ok_int. }
  exists q. split; [exact Hq|]. split; [exact E|].
  rewrite E. apply mean_of_bounds.
  - intros H. apply map_eq_nil in H. contradiction.
  - apply Forall_map. eapply Forall_impl; [|exact Hl].
    intros v Hv. now apply likert_ok_iff in Hv.
Qed.

Lemma dimension_result_empty (ratings : dict pyval) (d : string) :
  In d (keys DIMENSION_LABELS) ->
  collected_entries d ratings = [] ->
  exists label,
    dict_get DIMENSION_LABELS d = Some label /\
    dimension_result (collected_of ratings) d
      (map final_value (collected_entries d ratings))
    = Raise (EmptyDimension d label).
Proof.
  intros Hd He. destruct (label_of_dimension d Hd) as [label Hl].
  exists label. split; [exact Hl|].
  unfold dimension_result, dict_item. rewrite Hl, He. reflexivity.
Qed.

Lemma dimension_result_nonempty (ratings : dict pyval) (d : string) :
  Forall (fun kv => In (fst kv) (keys ITEM_DEFINITIONS) /\
                    likert_ok (snd kv) = true) ratings ->
  In d (keys DIMENSION_LABELS) ->
  collected_entries d ratings <> [] ->
  exists label mean_val raw_mean level,
    dict_get DIMENSION_LABELS d = Some label /\
    (mean_val ==
       mean_of (map int_of (map final_value (collected_entries d ratings))))%Q
    /\
    (raw_mean == mean_of (map int_of (map snd (collected_entries d ratings))))%Q
    /\
    (1 <= mean_val)%Q /\ (mean_val <= 5)%Q /\
    classify_score (PFloat (rescale mean_val)) = Ok level /\
    dimension_result (collected_of ratings) d
      (map final_value (collected_entries d ratings))
    = Ok (dimension_record label (collected_entries d ratings)
            mean_val raw_mean level).
Proof.
  intros Hf Hd Hne.
  pose proof (collected_entries_ok d ratings Hf) as HE.
  set (E := collected_entries d ratings) in *.
  destruct (label_of_dimension d Hd) as [label Hl].
  destruct (likert_mean (map final_value E)) as [m [Hm [Em [Hm1 Hm5]]]].
  { intros H. apply map_eq_nil in H. contradiction. }
  { apply Forall_map. eapply Forall_impl; [|exact HE].
    intros kv [_ Hv]. now apply final_value_ok. }
  destruct (likert_mean (map snd E)) as [rm [Hrm [Erm _]]].
  { intros H. apply map_eq_nil in H. contradiction. }
  { apply Forall_map. eapply Forall_impl; [|exact HE]. now intros kv [_ Hv]. }
  destruct (classify_rescaled m Hm1 Hm5) as [level Hlev].
  exists label, m, rm, level. repeat split; try assumption.
  unfold dimension_result, dict_item. rewrite Hl. cbn [bind].
  destruct (map final_value E) as [|fv fvs] eqn:Efv.
  { apply map_eq_nil in Efv. contradiction. }
  rewrite Hm. cbn [bind].
  unfold collected_of. cbn [dim_raw_values dim_items].
  rewrite (dict_get_map (fun d => map snd (collected_entries d ratings))
             _ d Hd).
  cbn [bind]. fold E. rewrite Hrm. cbn [bind]. rewrite Hlev. cbn [bind].
  rewrite (dict_get_map (fun d => map fst (collected_entries d ratings))
             _ d Hd).
  cbn [bind]. fold E. rewrite count_reversed_known.
  - cbn [bind]. unfold dimension_record.
    now rewrite <- Efv, length_map.
  - apply Forall_map. eapply Forall_impl; [|exact HE]. now intros kv [Hc _].
Qed.

Lemma build_results_all (ratings : dict pyval) (ds : list string) :
  Forall (fun kv => In (fst kv) (keys ITEM_DEFINITIONS) /\
                    likert_ok (snd kv) = true) ratings ->
  (forall d, In d ds -> In d (keys DIMENSION_LABELS)) ->
  (forall d, In d ds -> collected_entries d ratings <> []) ->
  exists results,
    build_results (collected_of ratings)
      (map (fun d => (d, map final_value (collected_entries d ratings))) ds)
    = Ok results /\
    keys results = ds /\
    forall d, In d ds ->
      exists res,
        In (d, res) results /\
        dimension_result (collected_of ratings) d
          (map final_value (collected_entries d ratings)) = Ok res.
Proof.
  intros Hf. induction ds as [|d ds IH]; intros Hin Hne.
  - exists []. repeat split. intros d [].
  - destruct IH as [results [Hb [Hk Hres]]];
      [intros d' Hd'; apply Hin; now right
      |intros d' Hd'; apply Hne; now right|].
    destruct (dimension_result_nonempty ratings d Hf)
      as [label [m [rm [level [_ [_ [_ [_ [_ [_ Hd]]]]]]]]]];
      [apply Hin; now left|apply Hne; now left|].
    eexists. simpl map. cbn [build_results]. rewrite Hd. cbn [bind].
    rewrite Hb. cbn [bind]. split; [reflexivity|]. split.
    + simpl. now rewrite Hk.
    + intros d' [<-|Hd'].
      * eexists. split; [now left|exact Hd].
      * destruct (Hres d' Hd') as [res [Hi Hr]].
        exists res. split; [now right|exact Hr].
Qed.

Lemma build_results_first_empty (ratings : dict pyval) (ds : list string) :
  Forall (fun kv => In (fst kv) (keys ITEM_DEFINITIONS) /\
                    likert_ok (snd kv) = true) ratings ->
  (forall d, In d ds -> In d (keys DIMENSION_LABELS)) ->
  (exists d, In d ds /\ collected_entries d ratings = []) ->
  exists d label,
    In d ds /\ collected_entries d ratings = [] /\
    build_results (collected_of ratings)
      (map (fun d => (d, map final_value (collected_entries d ratings))) ds)
    = Raise (EmptyDimension d label).
Proof.
  intros Hf. induction ds as [|d ds IH]; intros Hin [d0 [Hd0 He0]];
    [destruct Hd0|].
  destruct (collected_entries d ratings) as [|e es] eqn:Ed.
  - destruct (dimension_result_empty ratings d) as [label [_ Hr]];
      [apply Hin; now left|exact Ed|].
    exists d, label. split; [now left|]. split; [exact Ed|].
    simpl map. cbn [build_results]. rewrite Ed in Hr |- *.
    now rewrite Hr.
  - destruct Hd0 as [->|Hd0]; [congruence|].
    destruct IH as [d1 [label [Hd1 [He1 Hb]]]];
      [intros d' Hd'; apply Hin; now right|now exists d0|].
    destruct (dimension_result_nonempty ratings d Hf)
      as [lab [m [rm [level [_ [_ [_ [_ [_ [_ Hd]]]]]]]]]];
      [apply Hin; now left|congruence|].
    exists d1, label. split; [now right|]. split; [exact He1|].
    simpl map. cbn [build_results]. rewrite Ed in Hd. rewrite Ed, Hd.
    cbn [bind]. now rewrite Hb.
Qed.

(** ** Validated rating sets and the order of the taxonomy *)

Lemma Permutation_filter_bool {A : Type} (f : A -> bool) (l l' : list A) :
  Permutation l l' -> Permutation (filter f l) (filter f l').
Proof.
  induction 1 as [|x l l' _ IH|x y l|l l' l'' _ IH1 _ IH2]; simpl.
  - constructor.
  - destruct (f x); [now constructor|exact IH].
  - destruct (f x); destruct (f y); try reflexivity. apply perm_swap.
  - now transitivity (filter f l').
Qed.

Lemma filter_map_keys {V : Type} (f : string -> bool) (g : string -> V)
    (l : list string) :
  filter (fun kv => f (fst kv)) (map (fun c => (c, g c)) l)
  = map (fun c => (c, g c)) (filter f l).
Proof.
  induction l as [|c l IH]; simpl; [reflexivity|].
  destruct (f c); simpl; now rewrite IH.
Qed.

Lemma value_of_cons_other (k c : string) (v : pyval) (d : dict pyval) :
  c <> k -> value_of ((k, v) :: d) c = value_of d c.
Proof.
  intros Hne. unfold value_of. simpl.
  destruct (String.eqb_spec c k); [contradiction|reflexivity].
Qed.

Lemma wf_dict_as_map (ratings : dict pyval) :
  wf_dict ratings ->
  ratings = map (fun c => (c, value_of ratings c)) (keys ratings).
Proof.
  induction ratings as [|[k v] d IH]; intros Hwf; [reflexivity|].
  apply wf_dict_cons in Hwf. destruct Hwf as [Hk Hwf].
  simpl. f_equal.
  - unfold value_of. simpl. now rewrite String.eqb_refl.
  - rewrite (IH Hwf) at 1. apply map_ext_in. intros c Hc.
    rewrite value_of_cons_other; [reflexivity|]. intros ->. contradiction.
Qed.

Lemma validated_perm (ratings : dict pyval) :
  validated ratings ->
  Permutation ratings
    (map (fun c => (c, value_of ratings c)) (keys ITEM_DEFINITIONS)).
Proof.
  intros Hv. rewrite (wf_dict_as_map ratings (proj1 Hv)) at 1.
  apply Permutation_map. now apply validated_keys.
Qed.

Lemma collected_entries_perm (ratings : dict pyval) (d : string) :
  validated ratings ->
  Permutation (collected_entries d ratings)
    (map (fun c => (c, value_of ratings c))
         (filter (collects d) (keys ITEM_DEFINITIONS))).
Proof.
  intros Hv. unfold collected_entries.
  rewrite <- filter_map_keys.
  apply Permutation_filter_bool. now apply validated_perm.
Qed.

Lemma dimension_items_collects (d : string) :
  In d (keys DIMENSION_LABELS) ->
  dimension_items d = filter (collects d) (keys ITEM_DEFINITIONS).
Proof.
  intros Hd. simpl in Hd.
  repeat (destruct Hd as [<-|Hd]; [vm_compute; reflexivity|]).
  destruct Hd.
Qed.

Lemma dimension_items_nonempty (d : string) :
  In d (keys DIMENSION_LABELS) -> dimension_items d <> [].
Proof.
  intros Hd. simpl in Hd.
  repeat (destruct Hd as [<-|Hd]; [vm_compute; discriminate|]).
  destruct Hd.
Qed.

Lemma validated_rating_set (ratings : dict pyval) :
  validated ratings -> rating_set ratings.
Proof.
  intros Hv. split; [exact (proj1 Hv)|].
  pose proof (validated_values ratings Hv) as Hf.
  pose proof (validated_keys ratings Hv) as Hp.
  apply Forall_forall. intros kv Hkv. split.
  - apply (Permutation_in _ Hp). apply (in_map fst) in Hkv. exact Hkv.
  - rewrite Forall_forall in Hf. now apply Hf.
Qed.

Lemma validated_collects (ratings : dict pyval) (d : string) :
  validated ratings -> In d (keys DIMENSION_LABELS) ->
  collected_entries d ratings <> [].
Proof.
  intros Hv Hd He.
  pose proof (collected_entries_perm ratings d Hv) as Hp.
  rewrite He, <- (dimension_items_collects d Hd) in Hp.
  apply Permutation_nil in Hp. apply map_eq_nil in Hp.
  now apply (dimension_items_nonempty d Hd).
Qed.

Lemma sumZ_perm (l l' : list Z) : Permutation l l' -> sumZ l = sumZ l'.
Proof.
  induction 1 as [|x l l' _ IH|x y l|l l' l'' _ IH1 _ IH2]; simpl;
    try lia.
Qed.

Lemma mean_of_perm (l l' : list Z) : Permutation l l' -> mean_of l = mean_of l'.
Proof.
  intros Hp. unfold mean_of.
  now rewrite (sumZ_perm _ _ Hp), (Permutation_length Hp).
Qed.

Lemma rating_value_of (ratings : dict pyval) (c : string) :
  rating ratings c = int_of (value_of ratings c).
Proof. unfold rating, value_of. now destruct (dict_get ratings c). Qed.

Lemma final_value_rating (ratings : dict pyval) (c : string) :
  int_of (final_value (c, value_of ratings c)) = final_rating ratings c.
Proof.
  unfold final_value, final_rating. cbn [fst snd].
  rewrite rating_value_of. now destruct (is_reversed c).
Qed.

(** The collected entries of a dimension agree, up to order, with the
    main-scale items of the taxonomy: same reverse-coded ratings, same raw
    ratings, same codes. *)
Lemma collected_entries_validated (ratings : dict pyval) (d : string) :
  validated ratings -> In d (keys DIMENSION_LABELS) ->
  Permutation (map int_of (map final_value (collected_entries d ratings)))
    (map (final_rating ratings) (dimension_items d)) /\
  Permutation (map int_of (map snd (collected_entries d ratings)))
    (map (rating ratings) (dimension_items d)) /\
  Permutation (map fst (collected_entries d ratings)) (dimension_items d).
Proof.
  intros Hv Hd.
  pose proof (collected_entries_perm ratings d Hv) as Hp.
  rewrite <- (dimension_items_collects d Hd) in Hp.
  split; [|split].
  - rewrite Hp. rewrite !map_map.
    erewrite map_ext; [reflexivity|]. intros c. apply final_value_rating.
  - rewrite Hp. rewrite !map_map.
    erewrite map_ext; [reflexivity|]. intros c. cbn [snd].
    symmetry. apply rating_value_of.
  - rewrite Hp. rewrite map_map. cbn [fst]. now rewrite map_id.
Qed.

(** ** Dimension scores of rating sets *)

Lemma dim_values_collected (ratings : dict pyval) :
  dim_values (collected_of ratings) =
    map (fun d => (d, map final_value (collected_entries d ratings)))
        (keys DIMENSION_LABELS).
Proof. reflexivity. Qed.

Lemma compute_dimension_scores_all (ratings : dict pyval) :
  rating_set ratings ->
  (forall d, In d (keys DIMENSION_LABELS) ->
     collected_entries d ratings <> []) ->
  exists results,
    compute_dimension_scores ratings = Ok results /\
    keys results = keys DIMENSION_LABELS /\
    forall d, In d (keys DIMENSION_LABELS) ->
      exists label mean_val raw_mean level,
        dict_get DIMENSION_LABELS d = Some label /\
        (mean_val == mean_of (map int_of (map final_value
                                (collected_entries d ratings))))%Q /\
        (raw_mean == mean_of (map int_of (map snd
                                (collected_entries d ratings))))%Q /\
        classify_score (PFloat (rescale mean_val)) = Ok level /\
        dict_get results d =
          Some (dimension_record label (collected_entries d ratings)
                  mean_val raw_mean level).
Proof.
  intros [_ Hf] Hne.
  destruct (build_results_all ratings (keys DIMENSION_LABELS) Hf)
    as [results [Hb [Hk Hres]]]; [auto|exact Hne|].
  exists results. split; [|split; [exact Hk|]].
  - rewrite (compute_dimension_scores_collected ratings Hf).
    now rewrite dim_values_collected.
  - intros d Hd. destruct (Hres d Hd) as [res [Hin Hr]].
    destruct (dimension_result_nonempty ratings d Hf Hd (Hne d Hd))
      as [label [m [rm [level [Hl [Em [Erm [_ [_ [Hlev Hrec]]]]]]]]]].
    exists label, m, rm, level. repeat split; try assumption.
    rewrite Hrec in Hr. injection Hr as <-.
    apply wf_dict_get; [|exact Hin].
    unfold wf_dict. now rewrite Hk.
Qed.

Lemma dimension_items_known (d c : string) :
  In d (keys DIMENSION_LABELS) -> In c (dimension_items d) ->
  In c (keys ITEM_DEFINITIONS).
Proof.
  intros Hd Hc. rewrite (dimension_items_collects d Hd) in Hc.
  now apply filter_In in Hc.
Qed.

(** C2. On every validated rating set and for each of the six dimensions,
    the result is computed from the main-scale items of the dimension:
    with [m] the mean of their ratings, reverse coded ([6 - v]) for the
    reverse-scored items and unchanged for the others, the score is
    [(m - 1) / (5 - 1) * 100] rounded to one decimal (the nearest multiple
    of 0.1); [raw_mean] is the mean of the unreversed ratings rounded to two
    decimals; [num_reversed] counts the reverse-scored items among them; and
    the item list holds exactly their codes, in ascending order. With every
    one of the 88 codes rated 3, every dimension score lies in [45, 55]. *)
Theorem dimension_scores_spec :
  (forall ratings : dict pyval,
     validated ratings ->
     exists results,
       compute_dimension_scores ratings = Ok results /\
       keys results = keys DIMENSION_LABELS /\
       forall d, In d (keys DIMENSION_LABELS) ->
         exists res,
           dict_get results d = Some res /\
           let items := dimension_items d in
           let m := mean_of (map (final_rating ratings) items) in
           rounded_to 1 ((m - 1) / (5 - 1) * 100) (dim_score res) /\
           rounded_to 2 (mean_of (map (rating ratings) items))
             (dim_raw_mean res) /\
           dim_num_reversed res = length (filter is_reversed items) /\
           dim_num_items res = length items /\
           Sorted str_le (dim_item_codes res) /\
           Permutation (dim_item_codes res) items) /\
  (forall ratings : dict pyval,
     validated ratings ->
     (forall kv, In kv ratings -> snd kv = PInt 3) ->
     exists results,
       compute_dimension_scores ratings = Ok results /\
       keys results = keys DIMENSION_LABELS /\
       forall d res, In (d, res) results ->
         (45 <= dim_score res)%Q /\ (dim_score res <= 55)%Q).
Proof.
  assert (General : forall ratings : dict pyval,
     validated ratings ->
     exists results,
       compute_dimension_scores ratings = Ok results /\
       keys results = keys DIMENSION_LABELS /\
       forall d, In d (keys DIMENSION_LABELS) ->
         exists res,
           dict_get results d = Some res /\
           dim_score res =
             py_round ((mean_of (map (final_rating ratings)
                                   (dimension_items d)) - 1)
                       / (5 - 1) * 100) 1 /\
           dim_raw_mean res
             = py_round (mean_of (map (rating ratings) (dimension_items d))) 2
           /\
           dim_num_reversed res
             = length (filter is_reversed (dimension_items d)) /\
           dim_num_items res = length (dimension_items d) /\
           dim_item_codes res = sorted (dimension_items d)).
  { intros ratings Hv.
    destruct (compute_dimension_scores_all ratings
                (validated_rating_set ratings Hv))
      as [results [Hr [Hk Hall]]];
      [intros d Hd; now apply validated_collects|].
    exists results. split; [exact Hr|]. split; [exact Hk|].
    intros d Hd.
    destruct (Hall d Hd) as [label [m [rm [level [_ [Em [Erm [_ Hg]]]]]]]].
    destruct (collected_entries_validated ratings d Hv Hd) as [P1 [P2 P3]].
    eexists. split; [exact Hg|].
    unfold dimension_record.
    cbn [dim_score dim_raw_mean dim_num_reversed dim_num_items dim_item_codes].
    split; [|split; [|split; [|split]]].
    - apply py_round_compat. rewrite <- rescale_formula.
      apply rescale_compat. now rewrite Em, (mean_of_perm _ _ P1).
    - apply py_round_compat. now rewrite Erm, (mean_of_perm _ _ P2).
    - apply Permutation_length. now apply Permutation_filter_bool.
    - rewrite <- (length_map fst). now apply Permutation_length.
    - now apply sorted_Permutation. }
  split.
  { intros ratings Hv.
    destruct (General ratings Hv) as [results [Hr [Hk Hall]]].
    exists results. split; [exact Hr|]. split; [exact Hk|].
    intros d Hd.
    destruct (Hall d Hd) as [res [Hg [Hs [Hm [Hn [Hi Hc]]]]]].
    exists res. split; [exact Hg|]. cbv zeta.
    split; [rewrite Hs; apply py_round_rounded|].
    split; [rewrite Hm; apply py_round_rounded|].
    split; [exact Hn|]. split; [exact Hi|].
    rewrite Hc. split; [apply sorted_Sorted|].
    symmetry. apply sorted_perm. }
  intros ratings Hv H3.
  destruct (General ratings Hv) as [results [Hr [Hk Hall]]].
  exists results. split; [exact Hr|]. split; [exact Hk|].
  intros d res Hin.
  assert (Hd : In d (keys DIMENSION_LABELS)).
  { rewrite <- Hk. apply (in_map fst) in Hin. exact Hin. }
  destruct (Hall d Hd) as [res' [Hg [Hs _]]].
  assert (Hwf : wf_dict results) by (unfold wf_dict; now rewrite Hk).
  rewrite (wf_dict_get results d res Hwf Hin) in Hg. injection Hg as <-.
  rewrite Hs.
  assert (E : map (final_rating ratings) (dimension_items d)
              = map (fun _ => 3) (dimension_items d)).
  { apply map_ext_in. intros c Hc.
    destruct (validated_get ratings c Hv (dimension_items_known d c Hd Hc))
      as [v [Hgv _]].
    pose proof (H3 _ (dict_get_In _ _ _ Hgv)) as Hv3. cbn [snd] in Hv3.
    unfold final_rating, rating. rewrite Hgv, Hv3. cbn [int_of].
    now destruct (is_reversed c). }
  rewrite E. simpl in Hd.
  repeat (destruct Hd as [<-|Hd]; [split; vm_compute; discriminate|]).
  destruct Hd.
Qed.

Lemma dimension_scores_spec_witness :
  exists results,
    compute_dimension_scores (ratings_all 3) = Ok results /\
    keys results = keys DIMENSION_LABELS /\
    forall d res, In (d, res) results ->
      (45 <= dim_score res)%Q /\ (dim_score res <= 55)%Q.
Proof.
  apply (proj2 dimension_scores_spec (ratings_all 3)).
  - split; vm_compute; reflexivity.
  - intros kv Hkv. apply in_map_iff in Hkv.
    destruct Hkv as [c [<- _]]. reflexivity.
Defined.

(** ** The profile of a validated rating set *)

Lemma validated_length (ratings : dict pyval) :
  validated ratings -> length ratings = 88%nat.
Proof.
  intros Hv. pose proof (validated_keys ratings Hv) as Hp.
  apply Permutation_length in Hp. unfold keys in Hp.
  rewrite !length_map in Hp. exact Hp.
Qed.

Lemma validated_quality (ratings : dict pyval) :
  validated ratings ->
  exists mean_val variance,
    (mean_val == mean_of (raw_ratings ratings))%Q /\
    (variance == population_variance (raw_ratings ratings))%Q /\
    check_response_quality ratings =
      Ok [("num_unique_responses",
           QInt (distinct_count (raw_ratings ratings)));
          ("response_variance", QFloat (py_round variance 2));
          ("mean_response", QFloat (py_round mean_val 2));
          ("quality_flag",
           QStr match applicable_warnings
                        (distinct_count (raw_ratings ratings)) variance with
                | [] => "ok"
                | _ => "check"
                end);
          ("warnings",
           match applicable_warnings
                   (distinct_count (raw_ratings ratings)) variance with
           | [] => QNone
           | w :: ws => QList (w :: ws)
           end)].
Proof.
  intros Hv. apply check_response_quality_ints.
  - intros E. pose proof (validated_length ratings Hv) as Hl.
    rewrite E in Hl. discriminate.
  - eapply Forall_impl; [|exact (validated_values ratings Hv)].
    intros kv. apply likert_ok_int.
Qed.

Lemma compute_profile_validated (ratings : dict pyval)
    (profile_id : option string) :
  validated ratings ->
  exists p dims idx q,
    compute_dimension_scores ratings = Ok dims /\
    compute_additional_indices ratings = Ok idx /\
    check_response_quality ratings = Ok q /\
    compute_profile ratings profile_id = Ok p /\
    id p = profile_id /\ dimensions p = dims /\
    additional_indices p = idx /\ response_quality p = q.
Proof.
  intros Hv.
  destruct (compute_dimension_scores_all ratings
              (validated_rating_set ratings Hv))
    as [dims [Hd _]]; [intros d Hd; now apply validated_collects|].
  destruct (compute_additional_indices_rating_set ratings
              (validated_values ratings Hv)
              (validated_mem ratings _ Hv chronotype_items_known))
    as [ch [_ Hidx]].
  assert (Hidx' : exists idx, compute_additional_indices ratings = Ok idx).
  { destruct (forallb (fun c => dict_mem c ratings) avoid_items).
    - destruct Hidx as [q [level [_ [_ Hidx]]]]. eexists. exact Hidx.
    - eexists. exact Hidx. }
  destruct Hidx' as [idx Hi].
  destruct (validated_quality ratings Hv) as [mv [var [_ [_ Hq]]]].
  eexists. exists dims, idx. eexists.
  split; [exact Hd|]. split; [exact Hi|]. split; [exact Hq|].
  unfold compute_profile. rewrite (proj2 Hv). cbn [bind].
  rewrite Hd. cbn [bind]. rewrite Hi. cbn [bind]. rewrite Hq. cbn [bind].
  split; [reflexivity|]. repeat split.
Qed.

(** C10. On a rating set (codes of the taxonomy with integer ratings of
    [1..5], complete or not) [compute_dimension_scores] raises the
    [RuntimeError] of the empty-dimension check only for a dimension that
    collected no item, raises it whenever some dimension collected no item,
    and returns normally when every dimension collected one. On a validated
    rating set every one of the six dimensions collects at least one item,
    the error is never raised, and [compute_profile] returns a profile. *)
Theorem empty_dimension_unreachable :
  (forall ratings : dict pyval,
     rating_set ratings ->
     (forall d label,
        compute_dimension_scores ratings = Raise (EmptyDimension d label) ->
        In d (keys DIMENSION_LABELS) /\ collected_entries d ratings = []) /\
     ((exists d, In d (keys DIMENSION_LABELS) /\
                 collected_entries d ratings = []) ->
        exists d label,
          collected_entries d ratings = [] /\
          compute_dimension_scores ratings = Raise (EmptyDimension d label)) /\
     ((forall d, In d (keys DIMENSION_LABELS) ->
                 collected_entries d ratings <> []) ->
        exists results, compute_dimension_scores ratings = Ok results)) /\
  (forall ratings : dict pyval,
     validated ratings ->
     (forall d, In d (keys DIMENSION_LABELS) ->
                collected_entries d ratings <> []) /\
     (forall d label,
        compute_dimension_scores ratings <> Raise (EmptyDimension d label)) /\
     (forall profile_id, exists p, compute_profile ratings profile_id = Ok p)).
Proof.
  split.
  - intros ratings Hrs.
    assert (Hsome : (exists d, In d (keys DIMENSION_LABELS) /\
                     collected_entries d ratings = []) ->
        exists d label,
          In d (keys DIMENSION_LABELS) /\
          collected_entries d ratings = [] /\
          compute_dimension_scores ratings = Raise (EmptyDimension d label)).
    { intros Hex.
      destruct (build_results_first_empty ratings (keys DIMENSION_LABELS)
                  (proj2 Hrs)) as [d [label [Hd [He Hb]]]]; [auto|exact Hex|].
      exists d, label. split; [exact Hd|]. split; [exact He|].
      rewrite (compute_dimension_scores_collected ratings (proj2 Hrs)).
      now rewrite dim_values_collected. }
    assert (Hall : (forall d, In d (keys DIMENSION_LABELS) ->
                    collected_entries d ratings <> []) ->
        exists results, compute_dimension_scores ratings = Ok results).
    { intros Hne.
      destruct (compute_dimension_scores_all ratings Hrs Hne)
        as [results [Hr _]]. now exists results. }
    split; [|split].
    + intros d label Hraise.
      destruct (existsb (fun d => match collected_entries d ratings with
                                  | [] => true | _ => false end)
                  (keys DIMENSION_LABELS)) eqn:Ex.
      * apply existsb_exists in Ex. destruct Ex as [d0 [Hd0 He0]].
        destruct Hsome as [d1 [label1 [Hd1 [He1 Hr1]]]].
        { exists d0. split; [exact Hd0|].
          now destruct (collected_entries d0 ratings). }
        rewrite Hr1 in Hraise. injection Hraise as <- <-. now split.
      * destruct Hall as [results Hr].
        { intros d0 Hd0 He0.
          assert (Hc : existsb (fun d => match collected_entries d ratings with
                                         | [] => true | _ => false end)
                         (keys DIMENSION_LABELS) = true).
          { apply existsb_exists. exists d0. split; [exact Hd0|].
            now rewrite He0. }
          congruence. }
        rewrite Hr in Hraise. discriminate.
    + intros Hex. destruct (Hsome Hex) as [d [label [_ [He Hr]]]].
      now exists d, label.
    + exact Hall.
  - intros ratings Hv.
    assert (Hne : forall d, In d (keys DIMENSION_LABELS) ->
                            collected_entries d ratings <> [])
      by (intros d Hd; now apply validated_collects).
    split; [exact Hne|]. split.
    + intros d label Hraise.
      destruct (compute_dimension_scores_all ratings
                  (validated_rating_set ratings Hv) Hne) as [results [Hr _]].
      rewrite Hr in Hraise. discriminate.
    + intros profile_id.
      destruct (compute_profile_validated ratings profile_id Hv)
        as [p [_ [_ [_ [_ [_ [_ [Hp _]]]]]]]].
      now exists p.
Qed.

Lemma empty_dimension_unreachable_witness :
  (exists d label,
     collected_entries d [("A1", PInt 3)] = [] /\
     compute_dimension_scores [("A1", PInt 3)]
       = Raise (EmptyDimension d label)) /\
  (exists p, compute_profile (ratings_all 3) None = Ok p).
Proof.
  split.
  - assert (Hrs : rating_set [("A1", PInt 3)]).
    { split; [reflexivity|].
      constructor; [|constructor].
      split; [apply mem_In; vm_compute; reflexivity|reflexivity]. }
    destruct (proj1 empty_dimension_unreachable [("A1", PInt 3)] Hrs)
      as [_ [H _]].
    apply H. exists "sensory". split; [|reflexivity].
    apply mem_In. vm_compute. reflexivity.
  - assert (Hv : validated (ratings_all 3))
      by (split; vm_compute; reflexivity).
    destruct (proj2 empty_dimension_unreachable (ratings_all 3) Hv)
      as [_ [_ H]].
    exact (H None).
Defined.

(** ** Response quality of validated rating sets *)




Lemma applicable_warnings_compat (n : nat) (x y : Q) :
  (x == y)%Q -> applicable_warnings n x = applicable_warnings n y.
Proof.
  intros E. unfold applicable_warnings.
  now rewrite (Qltb_compat x y _ _ E (Qeq_refl _)).
Qed.




Lemma applicable_warnings_NoDup (unique : nat) (variance : Q) :
  NoDup (applicable_warnings unique variance).
Proof.
  unfold applicable_warnings.
  destruct (unique <=? 2)%nat; destruct (Qltb variance (1 # 2));
    cbn [app].
  - apply NoDup_cons; [|apply NoDup_cons; [intros []|apply NoDup_nil]].
    intros [Hw|[]]. discriminate Hw.
  - apply NoDup_cons; [intros []|apply NoDup_nil].
  - apply NoDup_cons; [intros []|apply NoDup_nil].
  - apply NoDup_nil.
Qed.

(** C8, as the code has it. The dict that [check_response_quality] returns
    for a validated rating set always holds the key "warnings", last of its
    five keys. Its value is [None] exactly when the flag is "ok", and
    otherwise, with the flag "check", a non-empty list without repetition
    that holds the straight-lining warning exactly when at most two distinct
    values were used and the low-variance warning exactly when the
    population variance is below 0.5, and nothing else. *)
Theorem warnings_entry_spec (ratings : dict pyval) :
  validated ratings ->
  exists q,
    check_response_quality ratings = Ok q /\
    keys q = quality_keys /\
    dict_mem "warnings" q = true /\
    let zs := raw_ratings ratings in
    ((dict_get q "quality_flag" = Some (QStr "ok") /\
      dict_get q "warnings" = Some QNone) \/
     (dict_get q "quality_flag" = Some (QStr "check") /\
      exists l, dict_get q "warnings" = Some (QList l) /\
                l <> [] /\ NoDup l)) /\
    (forall w,
       (exists l, dict_get q "warnings" = Some (QList l) /\ In w l) <->
       (w = QUALITY_WARN_STRAIGHT /\ (distinct_count zs <= 2)%nat) \/
       (w = QUALITY_WARN_LOW_VAR /\ (population_variance zs < 1 # 2)%Q)) /\
    (dict_get q "quality_flag" = Some (QStr "ok") ->
     dict_get q "warnings" = Some QNone).
Proof.
  intros Hv.
  destruct (validated_quality ratings Hv) as [mv [var [_ [Evar Hq]]]].
  eexists. split; [exact Hq|].
  split; [reflexivity|]. split; [reflexivity|].
  cbv zeta. rewrite !quality_get_flag, !quality_get_warnings.
  rewrite (applicable_warnings_compat _ _ _ Evar).
  pose proof (applicable_warnings_In (distinct_count (raw_ratings ratings))
                (population_variance (raw_ratings ratings))) as HIn.
  pose proof (applicable_warnings_NoDup (distinct_count (raw_ratings ratings))
                (population_variance (raw_ratings ratings))) as Hnd.
  destruct (applicable_warnings (distinct_count (raw_ratings ratings))
              (population_variance (raw_ratings ratings))) as [|w0 ws].
  - split; [left; now split|]. split; [|reflexivity].
    intros w. rewrite <- HIn.
    split; [intros [l [Hl _]]; discriminate|intros []].
  - split; [right; split; [reflexivity|]|].
    + exists (w0 :: ws). split; [reflexivity|]. split; [discriminate|exact Hnd].
    + split; [|discriminate]. intros w. rewrite <- HIn. split.
      * intros [l [Hl Hin]]. now injection Hl as <-.
      * intros Hin. now exists (w0 :: ws).
Qed.

Lemma warnings_entry_spec_witness :
  exists q,
    check_response_quality ratings_cycle = Ok q /\
    keys q = quality_keys /\
    dict_get q "warnings" = Some QNone.
Proof.
  assert (Hv : validated ratings_cycle) by (split; vm_compute; reflexivity).
  destruct (warnings_entry_spec ratings_cycle Hv)
    as [q [Hq [Hk [_ [_ [_ Hok]]]]]].
  exists q. split; [exact Hq|]. split; [exact Hk|].
  apply Hok.
  assert (E : check_response_quality ratings_cycle
              = Ok [("num_unique_responses", QInt 5);
                    ("response_variance", QFloat (199 # 100));
                    ("mean_response", QFloat (297 # 100));
                    ("quality_flag", QStr "ok");
                    ("warnings", QNone)])
    by (vm_compute; reflexivity).
  rewrite E in Hq. injection Hq as <-. reflexivity.
Defined.

(** C8, as stated, fails: with the ratings 1, 2, 3, 4, 5 in turn the flag
    is "ok", and the returned dict still has the key "warnings", with the
    value [None]. *)
Lemma warnings_key_present_when_ok :
  validate_ratings ratings_cycle = Ok tt /\
  exists q,
    check_response_quality ratings_cycle = Ok q /\
    dict_get q "quality_flag" = Some (QStr "ok") /\
    In "warnings" (keys q) /\
    dict_mem "warnings" q = true /\
    dict_get q "warnings" = Some QNone.
Proof.
  split; [vm_compute; reflexivity|].
  eexists. split; [vm_compute; reflexivity|].
  split; [reflexivity|]. split; [|split; reflexivity].
  cbn [keys map fst]. do 4 right. now left.
Qed.

(* ------------------------------------------------------------------------- *)
(** * Further properties *)

(** ** Closed forms on rating sets *)

Lemma classify_score_level_of (q : Q) :
  (0 <= q)%Q -> (q <= 100)%Q -> classify_score (PFloat q) = Ok (level_of q).
Proof. intros H0 H100. now apply (classify_score_cases (PFloat q) q). Qed.

Lemma level_of_compat (x y : Q) : (x == y)%Q -> level_of x = level_of y.
Proof.
  intros E. unfold level_of.
  now rewrite !(Qltb_compat x y _ _ E (Qeq_refl _)).
Qed.

Lemma dimension_result_summary (ratings : dict pyval) (d : string) :
  Forall (fun kv => In (fst kv) (keys ITEM_DEFINITIONS) /\
                    likert_ok (snd kv) = true) ratings ->
  In d (keys DIMENSION_LABELS) ->
  collected_entries d ratings <> [] ->
  dimension_result (collected_of ratings) d
    (map final_value (collected_entries d ratings))
  = Ok (dimension_summary ratings d).
Proof.
  intros Hf Hd Hne.
  destruct (dimension_result_nonempty ratings d Hf Hd Hne)
    as [label [m [rm [level [Hl [Em [Erm [H1 [H5 [Hlev Hr]]]]]]]]]].
  rewrite Hr. f_equal. unfold dimension_summary, dimension_record.
  destruct (rescale_bounds m H1 H5) as [H0 H100].
  rewrite (classify_score_level_of _ H0 H100) in Hlev. injection Hlev as <-.
  unfold label_of. rewrite Hl.
  f_equal.
  - apply py_round_compat. now apply rescale_compat.
  - apply level_of_compat. now apply rescale_compat.
  - now apply py_round_compat.
Qed.

Lemma build_results_map (acc : collected) (f : string -> list pyval)
    (g : string -> DimensionResult) (ds : list string) :
  (forall d, In d ds -> dimension_result acc d (f d) = Ok (g d)) ->
  build_results acc (map (fun d => (d, f d)) ds)
  = Ok (map (fun d => (d, g d)) ds).
Proof.
  induction ds as [|d ds IH]; intros H; [reflexivity|].
  simpl map. cbn [build_results].
  rewrite (H d (or_introl eq_refl)). cbn [bind].
  rewrite IH; [reflexivity|]. intros d' Hd'. apply H. now right.
Qed.

Lemma compute_dimension_scores_summary (ratings : dict pyval) :
  rating_set ratings ->
  (forall d, In d (keys DIMENSION_LABELS) ->
     collected_entries d ratings <> []) ->
  compute_dimension_scores ratings =
    Ok (map (fun d => (d, dimension_summary ratings d))
            (keys DIMENSION_LABELS)).
Proof.
  intros [_ Hf] Hne.
  rewrite (compute_dimension_scores_collected ratings Hf),
    dim_values_collected.
  apply build_results_map. intros d Hd.
  apply dimension_result_summary; auto.
Qed.

Lemma check_response_quality_summary (ratings : dict pyval) :
  ratings <> [] ->
  Forall (fun kv => isinstance_int (snd kv) = true) ratings ->
  check_response_quality ratings = Ok (quality_summary (raw_ratings ratings)).
Proof.
  intros Hne Hf.
  destruct (check_response_quality_ints ratings Hne Hf)
    as [mv [var [Em [Ev Hq]]]].
  rewrite Hq. f_equal. unfold quality_summary.
  rewrite (applicable_warnings_compat _ _ _ Ev).
  now rewrite (py_round_compat _ _ 2 Ev), (py_round_compat _ _ 2 Em).
Qed.

(** ** Independence of the order of the entries *)

Lemma wf_dict_perm {V : Type} (r r' : dict V) :
  wf_dict r -> Permutation r r' -> wf_dict r'.
Proof.
  intros Hwf Hp. apply distinct_keys_NoDup.
  apply (Permutation_NoDup (l := keys r)).
  - unfold keys. now apply Permutation_map.
  - now apply distinct_keys_NoDup.
Qed.

Lemma dict_get_perm {V : Type} (r r' : dict V) (c : string) :
  wf_dict r -> Permutation r r' -> dict_get r c = dict_get r' c.
Proof.
  intros Hwf Hp. pose proof (wf_dict_perm r r' Hwf Hp) as Hwf'.
  destruct (dict_get r c) as [v|] eqn:E.
  - symmetry. apply wf_dict_get; [exact Hwf'|].
    apply (Permutation_in _ Hp). now apply dict_get_In.
  - symmetry. apply dict_get_None. apply dict_get_None in E.
    intros Hin. apply E. unfold keys in *.
    apply (Permutation_in (l := map fst r')); [|exact Hin].
    apply Permutation_map. now symmetry.
Qed.

Lemma validated_perm_closed (r r' : dict pyval) :
  validated r -> Permutation r r' -> validated r'.
Proof.
  intros Hv Hp. destruct Hv as [Hwf Hv].
  pose proof (wf_dict_perm r r' Hwf Hp) as Hwf'.
  split; [exact Hwf'|].
  apply (validate_ratings_ok r' Hwf').
  apply (validate_ratings_ok r Hwf) in Hv. destruct Hv as [Hk Hf].
  split.
  - rewrite <- Hk. unfold keys. apply Permutation_map. now symmetry.
  - now rewrite <- Hp.
Qed.

Lemma distinct_count_perm (l l' : list Z) :
  Permutation l l' -> distinct_count l = distinct_count l'.
Proof.
  intros Hp. unfold distinct_count. apply Permutation_length.
  apply NoDup_Permutation; try apply NoDup_nodup.
  intros z. rewrite !nodup_In. split; apply Permutation_in;
    [exact Hp|now symmetry].
Qed.

Lemma sum_sq_perm (m : Q) (l l' : list Z) :
  Permutation l l' -> (sum_sq m l == sum_sq m l')%Q.
Proof.
  induction 1 as [|x l l' _ IH|x y l|l l' l'' _ IH1 _ IH2]; simpl.
  - reflexivity.
  - now rewrite IH.
  - ring.
  - now rewrite IH1.
Qed.

Lemma population_variance_perm (l l' : list Z) :
  Permutation l l' ->
  (population_variance l == population_variance l')%Q.
Proof.
  intros Hp. unfold population_variance.
  rewrite (mean_of_perm _ _ Hp), (Permutation_length Hp).
  now rewrite (sum_sq_perm _ _ _ Hp).
Qed.

Lemma quality_summary_perm (l l' : list Z) :
  Permutation l l' -> quality_summary l = quality_summary l'.
Proof.
  intros Hp. unfold quality_summary.
  rewrite (distinct_count_perm _ _ Hp), (mean_of_perm _ _ Hp).
  rewrite (applicable_warnings_compat _ _ _ (population_variance_perm _ _ Hp)).
  now rewrite (py_round_compat _ _ 2 (population_variance_perm _ _ Hp)).
Qed.

Lemma dimension_summary_perm (r r' : dict pyval) (d : string) :
  Permutation r r' -> dimension_summary r d = dimension_summary r' d.
Proof.
  intros Hp.
  assert (HE : Permutation (collected_entries d r) (collected_entries d r'))
    by now apply Permutation_filter_bool.
  unfold dimension_summary, dimension_record.
  rewrite (mean_of_perm
             (map int_of (map final_value (collected_entries d r)))
             (map int_of (map final_value (collected_entries d r'))))
    by now do 2 apply Permutation_map.
  rewrite (mean_of_perm
             (map int_of (map snd (collected_entries d r)))
             (map int_of (map snd (collected_entries d r'))))
    by now do 2 apply Permutation_map.
  f_equal.
  - now apply Permutation_length.
  - apply Permutation_length, Permutation_filter_bool.
    now apply Permutation_map.
  - apply sorted_Permutation. now apply Permutation_map.
Qed.

Lemma lookup_all_ext (r r' : dict pyval) (codes : list string) :
  (forall c, dict_get r c = dict_get r' c) ->
  lookup_all r codes = lookup_all r' codes.
Proof.
  intros H. induction codes as [|c codes IH]; simpl; [reflexivity|].
  unfold dict_item. now rewrite (H c), IH.
Qed.

Lemma compute_additional_indices_ext (r r' : dict pyval) :
  (forall c, dict_get r c = dict_get r' c) ->
  compute_additional_indices r = compute_additional_indices r'.
Proof.
  intros H.
  assert (Hm : forall codes,
            forallb (fun c => dict_mem c r) codes
            = forallb (fun c => dict_mem c r') codes).
  { assert (Hmem : forall c, dict_mem c r = dict_mem c r')
      by (intros c; unfold dict_mem; now rewrite (H c)).
    intros codes. induction codes as [|c codes IH]; simpl; [reflexivity|].
    now rewrite (Hmem c), IH. }
  unfold compute_additional_indices, compute_chronotype_index.
  now rewrite (Hm avoid_items), !(lookup_all_ext r r' _ H).
Qed.

(** X1. The profile of a validated rating set does not depend on the order
    in which the ratings were entered: a mapping with the same entries in
    another order gives the same profile, field by field. *)
Theorem compute_profile_order_independent (r r' : dict pyval)
    (profile_id : option string) :
  validated r -> Permutation r r' ->
  compute_profile r profile_id = compute_profile r' profile_id.
Proof.
  intros Hv Hp. pose proof (validated_perm_closed r r' Hv Hp) as Hv'.
  assert (Hd : compute_dimension_scores r = compute_dimension_scores r').
  { rewrite (compute_dimension_scores_summary r (validated_rating_set r Hv))
      by (intros d Hd; now apply validated_collects).
    rewrite (compute_dimension_scores_summary r' (validated_rating_set r' Hv'))
      by (intros d Hd; now apply validated_collects).
    f_equal. apply map_ext. intros d.
    now rewrite (dimension_summary_perm r r' d Hp). }
  assert (Hi : compute_additional_indices r = compute_additional_indices r').
  { apply compute_additional_indices_ext. intros c.
    now apply dict_get_perm; [apply (proj1 Hv)|]. }
  assert (Hne : forall x : dict pyval, validated x -> x <> []).
  { intros x Hx E. pose proof (validated_length x Hx) as Hl.
    rewrite E in Hl. discriminate. }
  assert (Hints : forall x : dict pyval, validated x ->
            Forall (fun kv => isinstance_int (snd kv) = true) x).
  { intros x Hx. eapply Forall_impl; [|exact (validated_values x Hx)].
    intros kv. apply likert_ok_int. }
  assert (Hq : check_response_quality r = check_response_quality r').
  { rewrite (check_response_quality_summary r (Hne r Hv) (Hints r Hv)).
    rewrite (check_response_quality_summary r' (Hne r' Hv') (Hints r' Hv')).
    f_equal. apply quality_summary_perm. unfold raw_ratings, values.
    now do 2 apply Permutation_map. }
  unfold compute_profile.
  rewrite (proj2 Hv), (proj2 Hv'), Hd, Hi, Hq.
  now rewrite (Permutation_length Hp).
Qed.

Lemma compute_profile_order_independent_witness :
  compute_profile (ratings_all 3) None
  = compute_profile (rev (ratings_all 3)) None.
Proof.
  apply compute_profile_order_independent.
  - split; vm_compute; reflexivity.
  - apply Permutation_rev.
Defined.

(** ** Error propagation and metadata of [compute_profile] *)

(** X2. [compute_profile] raises exactly what [validate_ratings] raises:
    on a mapping that fails validation the validator's exception is
    propagated unchanged, and on a mapping that passes it a profile is
    returned, so no internal error of the scoring functions can escape. *)
Theorem compute_profile_raises_only_validation (ratings : dict pyval)
    (profile_id : option string) :
  wf_dict ratings ->
  (forall e, compute_profile ratings profile_id = Raise e <->
             validate_ratings ratings = Raise e) /\
  ((exists p, compute_profile ratings profile_id = Ok p) <->
   validate_ratings ratings = Ok tt).
Proof.
  intros Hwf. destruct (validate_ratings ratings) as [[]|e0] eqn:Ev.
  - destruct (compute_profile_validated ratings profile_id (conj Hwf Ev))
      as [p [_ [_ [_ [_ [_ [_ [Hp _]]]]]]]].
    split.
    + intros e. rewrite Hp. split; discriminate.
    + split; [reflexivity|]. intros _. now exists p.
  - assert (Hp : compute_profile ratings profile_id = Raise e0)
      by (unfold compute_profile; now rewrite Ev).
    split.
    + intros e. rewrite Hp. split; intros [= ->]; reflexivity.
    + split; [intros [p H]; rewrite Hp in H|]; discriminate.
Qed.

Lemma compute_profile_raises_only_validation_witness :
  (forall e, compute_profile [("A1", PStr "x")] None = Raise e <->
             validate_ratings [("A1", PStr "x")] = Raise e) /\
  ((exists p, compute_profile [("A1", PStr "x")] None = Ok p) <->
   validate_ratings [("A1", PStr "x")] = Ok tt).
Proof.
  apply compute_profile_raises_only_validation. reflexivity.
Defined.

Lemma dimension_summary_counts (ratings : dict pyval) (d : string) :
  validated ratings -> In d (keys DIMENSION_LABELS) ->
  dim_num_items (dimension_summary ratings d) = length (dimension_items d) /\
  dim_num_reversed (dimension_summary ratings d)
    = length (filter is_reversed (dimension_items d)).
Proof.
  intros Hv Hd.
  destruct (collected_entries_validated ratings d Hv Hd) as [_ [_ P3]].
  unfold dimension_summary, dimension_record.
  cbn [dim_num_items dim_num_reversed]. split.
  - rewrite <- (length_map fst). now apply Permutation_length.
  - apply Permutation_length. now apply Permutation_filter_bool.
Qed.

Lemma dimension_totals (ratings : dict pyval) (dims : dict DimensionResult) :
  validated ratings -> compute_dimension_scores ratings = Ok dims ->
  list_sum (map dim_num_items (values dims)) = 80%nat /\
  list_sum (map dim_num_reversed (values dims)) = 27%nat.
Proof.
  intros Hv Hd.
  rewrite (compute_dimension_scores_summary ratings
             (validated_rating_set ratings Hv)) in Hd
    by (intros d Hd'; now apply validated_collects).
  assert (Edims : dims = map (fun d => (d, dimension_summary ratings d))
                             (keys DIMENSION_LABELS)) by congruence.
  rewrite Edims. unfold values. rewrite !map_map. split.
  - rewrite (map_ext_in _ (fun d => length (dimension_items d))).
    + vm_compute; reflexivity.
    + intros d Hd'. cbn [snd]. now apply dimension_summary_counts.
  - rewrite (map_ext_in _
               (fun d => length (filter is_reversed (dimension_items d)))).
    + vm_compute; reflexivity.
    + intros d Hd'. cbn [snd]. now apply dimension_summary_counts.
Qed.

Lemma meta_of_profile (ratings : dict pyval) (profile_id : option string)
    (p : Profile) :
  compute_profile ratings profile_id = Ok p ->
  meta p =
    {| version := VERSION;
       num_items_instrument := length ITEM_DEFINITIONS;
       num_items_answered := length ratings;
       num_items_main_scales :=
         list_sum (map dim_num_items (values (dimensions p)));
       num_items_additional := length INDEX_ITEMS_DEFINED;
       num_reversed_total :=
         list_sum (map dim_num_reversed (values (dimensions p)));
       likert_min := LIKERT_MIN;
       likert_max := LIKERT_MAX;
       score_min := 0;
       score_max := 100 |}.
Proof.
  unfold compute_profile.
  destruct (validate_ratings ratings); [|discriminate]. cbn [bind].
  destruct (compute_dimension_scores ratings); [|discriminate]. cbn [bind].
  destruct (compute_additional_indices ratings); [|discriminate]. cbn [bind].
  destruct (check_response_quality ratings); [|discriminate]. cbn [bind].
  intros [= <-]. reflexivity.
Qed.

(** X3. The [meta] record of the profile of any validated rating set is
    constant: 88 items in the instrument, 88 answered, 80 on the main
    scales (the sum of the per-dimension item counts), 8 additional, 27
    reverse scored (the sum of the per-dimension counts), scale 1..5 and
    score range 0..100. *)
Theorem compute_profile_meta (ratings : dict pyval)
    (profile_id : option string) :
  validated ratings ->
  exists p, compute_profile ratings profile_id = Ok p /\
            id p = profile_id /\ meta p = instrument_meta.
Proof.
  intros Hv.
  destruct (compute_profile_validated ratings profile_id Hv)
    as [p [dims [idx [q [Hd [Hi [Hq [Hp [Eid [Ed _]]]]]]]]]].
  exists p. split; [exact Hp|]. split; [exact Eid|].
  rewrite (meta_of_profile ratings profile_id p Hp), Ed.
  destruct (dimension_totals ratings dims Hv Hd) as [-> ->].
  rewrite (validated_length ratings Hv). reflexivity.
Qed.

Lemma compute_profile_meta_witness :
  exists p, compute_profile (ratings_all 5) (Some "p1") = Ok p /\
            id p = Some "p1" /\ meta p = instrument_meta.
Proof.
  apply compute_profile_meta. split; vm_compute; reflexivity.
Defined.

(** ** Rounding keeps order and bounds *)

Lemma round_half_even_bounds (y : Q) :
  Qfloor y <= round_half_even y <= Qfloor y + 1.
Proof.
  unfold round_half_even.
  destruct (Qcompare (y - inject_Z (Qfloor y)) (1 # 2));
    [destruct (Z.even (Qfloor y))| |]; lia.
Qed.

Lemma round_half_even_mono (x y : Q) :
  (x <= y)%Q -> round_half_even x <= round_half_even y.
Proof.
  intros Hxy. pose proof (Qfloor_resp_le x y Hxy) as Hf.
  destruct (Z.eq_dec (Qfloor x) (Qfloor y)) as [E|Hne].
  - unfold round_half_even. rewrite E.
    destruct (Qcompare_spec (x - inject_Z (Qfloor y)) (1 # 2)) as [Ex|Lx|Gx];
      destruct (Qcompare_spec (y - inject_Z (Qfloor y)) (1 # 2)) as [Ey|Ly|Gy];
      try (destruct (Z.even (Qfloor y))); try lia; exfalso; lra.
  - pose proof (round_half_even_bounds x). pose proof (round_half_even_bounds y).
    lia.
Qed.

Lemma py_round_mono (x y : Q) (n : nat) :
  (x <= y)%Q -> (py_round x n <= py_round y n)%Q.
Proof.
  intros Hxy. unfold py_round. rewrite !Qred_correct.
  assert (Hpos : 0 < 10 ^ Z.of_nat n) by (apply Z.pow_pos_nonneg; lia).
  assert (Hm : round_half_even (x * inject_Z (10 ^ Z.of_nat n))
               <= round_half_even (y * inject_Z (10 ^ Z.of_nat n))).
  { apply round_half_even_mono. apply Qmult_le_compat_r; [exact Hxy|].
    unfold Qle. simpl. lia. }
  unfold Qle. cbn [Qnum Qden].
  apply Z.mul_le_mono_nonneg_r; [lia|exact Hm].
Qed.

Lemma py_round_bounds (x : Q) (n : nat) (a b : Z) :
  (inject_Z a <= x)%Q -> (x <= inject_Z b)%Q ->
  (inject_Z a <= py_round x n)%Q /\ (py_round x n <= inject_Z b)%Q.
Proof.
  intros Ha Hb.
  assert (Hz : forall z : Z, (py_round (inject_Z z) n == inject_Z z)%Q).
  { intros z. apply (py_round_exact _ _ (z * 10 ^ Z.of_nat n)).
    now rewrite inject_Z_mult. }
  split.
  - rewrite <- (Hz a). now apply py_round_mono.
  - rewrite <- (Hz b). now apply py_round_mono.
Qed.

(** ** Range of the dimension results *)

Lemma level_stable_dimensions (d : string) :
  In d (keys DIMENSION_LABELS) ->
  level_stable (length (dimension_items d)) = true.
Proof.
  intros Hd. simpl in Hd.
  repeat (destruct Hd as [<-|Hd]; [vm_compute; reflexivity|]).
  destruct Hd.
Qed.

Lemma level_stable_sum (n : nat) (s : Z) :
  level_stable n = true ->
  Z.of_nat n <= s <= 5 * Z.of_nat n ->
  level_of (py_round (rescale (inject_Z s / inject_Z (Z.of_nat n))) 1)
  = level_of (rescale (inject_Z s / inject_Z (Z.of_nat n))).
Proof.
  intros Hst Hs. unfold level_stable in Hst. rewrite forallb_forall in Hst.
  apply String.eqb_eq. apply (Hst s).
  apply in_map_iff. exists (Z.to_nat s). split; [lia|].
  apply in_seq. lia.
Qed.

Lemma collected_finals_ok (ratings : dict pyval) (d : string) :
  rating_set ratings ->
  Forall (fun z => 1 <= z <= 5)
    (map int_of (map final_value (collected_entries d ratings))) /\
  Forall (fun z => 1 <= z <= 5)
    (map int_of (map snd (collected_entries d ratings))).
Proof.
  intros [_ Hf]. pose proof (collected_entries_ok d ratings Hf) as HE.
  split; rewrite map_map; apply Forall_map;
    (eapply Forall_impl; [|exact HE]); intros kv [_ Hv].
  - apply final_value_ok in Hv. now apply likert_ok_iff in Hv.
  - now apply likert_ok_iff in Hv.
Qed.

Lemma In_results_summary (ratings : dict pyval) (d : string)
    (res : DimensionResult) :
  In (d, res)
     (map (fun d => (d, dimension_summary ratings d)) (keys DIMENSION_LABELS))
  -> In d (keys DIMENSION_LABELS) /\ res = dimension_summary ratings d.
Proof.
  intros H. apply in_map_iff in H. destruct H as [d' [[= <- <-] Hd]].
  now split.
Qed.

(** X4. In the dimension results of every validated rating set the score
    lies in [0, 100], the raw mean in [1, 5], at most as many items are
    reverse scored as were collected, and the level (classified from the
    unrounded score) is also the level of the rounded score that is
    reported. *)
Theorem dimension_results_in_range (ratings : dict pyval) :
  validated ratings ->
  exists results,
    compute_dimension_scores ratings = Ok results /\
    forall d res, In (d, res) results ->
      (0 <= dim_score res)%Q /\ (dim_score res <= 100)%Q /\
      (1 <= dim_raw_mean res)%Q /\ (dim_raw_mean res <= 5)%Q /\
      (dim_num_reversed res <= dim_num_items res)%nat /\
      classify_score (PFloat (dim_score res)) = Ok (dim_level res).
Proof.
  intros Hv. pose proof (validated_rating_set ratings Hv) as Hrs.
  eexists. split.
  { apply (compute_dimension_scores_summary ratings Hrs).
    intros d Hd. now apply validated_collects. }
  intros d res Hin. apply In_results_summary in Hin.
  destruct Hin as [Hd ->].
  pose proof (validated_collects ratings d Hv Hd) as Hne.
  destruct (collected_finals_ok ratings d Hrs) as [Hfin Hraw].
  set (E := collected_entries d ratings) in *.
  assert (Hm : (1 <= mean_of (map int_of (map final_value E)))%Q /\
               (mean_of (map int_of (map final_value E)) <= 5)%Q).
  { apply mean_of_bounds; [|exact Hfin].
    intros H. apply map_eq_nil in H. apply map_eq_nil in H. contradiction. }
  assert (Hrm : (1 <= mean_of (map int_of (map snd E)))%Q /\
                (mean_of (map int_of (map snd E)) <= 5)%Q).
  { apply mean_of_bounds; [|exact Hraw].
    intros H. apply map_eq_nil in H. apply map_eq_nil in H. contradiction. }
  destruct (rescale_bounds _ (proj1 Hm) (proj2 Hm)) as [H0 H100].
  unfold dimension_summary, dimension_record. fold E.
  cbn [dim_score dim_raw_mean dim_num_reversed dim_num_items dim_level].
  destruct (py_round_bounds _ 1 0 100 H0 H100) as [Hs0 Hs100].
  destruct (py_round_bounds _ 2 1 5 (proj1 Hrm) (proj2 Hrm)) as [Hr1 Hr5].
  split; [exact Hs0|]. split; [exact Hs100|].
  split; [exact Hr1|]. split; [exact Hr5|]. split.
  - rewrite <- (length_map fst E). apply filter_length_le.
  - rewrite (classify_score_level_of _ Hs0 Hs100). f_equal.
    unfold mean_of at 1 2.
    assert (Hlen : length (map int_of (map final_value E))
                   = length (dimension_items d)).
    { rewrite !length_map.
      destruct (dimension_summary_counts ratings d Hv Hd) as [Hc _].
      exact Hc. }
    rewrite Hlen. apply level_stable_sum.
    + now apply level_stable_dimensions.
    + rewrite <- Hlen. now apply sumZ_bounds.
Qed.

Lemma dimension_results_in_range_witness :
  exists results,
    compute_dimension_scores (ratings_all 4) = Ok results /\
    forall d res, In (d, res) results ->
      (0 <= dim_score res)%Q /\ (dim_score res <= 100)%Q /\
      (1 <= dim_raw_mean res)%Q /\ (dim_raw_mean res <= 5)%Q /\
      (dim_num_reversed res <= dim_num_items res)%nat /\
      classify_score (PFloat (dim_score res)) = Ok (dim_level res).
Proof.
  apply dimension_results_in_range. split; vm_compute; reflexivity.
Defined.

(** ** Direction of the ratings *)

Lemma summary_by_items (ratings : dict pyval) (d : string) :
  validated ratings -> In d (keys DIMENSION_LABELS) ->
  dim_score (dimension_summary ratings d)
    = py_round (rescale (mean_of (map (final_rating ratings)
                                      (dimension_items d)))) 1 /\
  dim_raw_mean (dimension_summary ratings d)
    = py_round (mean_of (map (rating ratings) (dimension_items d))) 2.
Proof.
  intros Hv Hd.
  destruct (collected_entries_validated ratings d Hv Hd) as [P1 [P2 _]].
  unfold dimension_summary, dimension_record. cbn [dim_score dim_raw_mean].
  now rewrite (mean_of_perm _ _ P1), (mean_of_perm _ _ P2).
Qed.

Lemma sumZ_le (A : Type) (f g : A -> Z) (l : list A) :
  (forall x, In x l -> f x <= g x) -> sumZ (map f l) <= sumZ (map g l).
Proof.
  induction l as [|x l IH]; intros H; simpl; [lia|].
  pose proof (H x (or_introl eq_refl)).
  assert (sumZ (map f l) <= sumZ (map g l))
    by (apply IH; intros y Hy; apply H; now right).
  lia.
Qed.

Lemma mean_of_le (A : Type) (f g : A -> Z) (l : list A) :
  (forall x, In x l -> f x <= g x) ->
  (mean_of (map f l) <= mean_of (map g l))%Q.
Proof.
  intros H. unfold mean_of. rewrite !length_map.
  destruct l as [|x l].
  - simpl. unfold Qdiv, Qle. simpl. lia.
  - apply Qmult_le_compat_r.
    + rewrite <- Zle_Qle. now apply sumZ_le.
    + apply Qinv_le_0_compat. rewrite <- (Zle_Qle 0). lia.
Qed.

Lemma rescale_le (x y : Q) : (x <= y)%Q -> (rescale x <= rescale y)%Q.
Proof.
  intros H.
  assert (E : forall q, (rescale q == (q - 1) * 25)%Q)
    by (intros q; rewrite rescale_formula; field).
  rewrite !E. lra.
Qed.

(** X5. The score of a dimension is monotone in the ratings, in the
    direction of each item: between two validated rating sets, if no
    ordinary item of the dimension is rated lower and no reverse-scored
    item of it is rated higher, the score of the dimension is not lower. *)
Theorem dimension_score_monotone (r r' : dict pyval) (d : string) :
  validated r -> validated r' -> In d (keys DIMENSION_LABELS) ->
  (forall c, In c (dimension_items d) ->
     if is_reversed c then rating r' c <= rating r c
     else rating r c <= rating r' c) ->
  exists results results' res res',
    compute_dimension_scores r = Ok results /\
    compute_dimension_scores r' = Ok results' /\
    dict_get results d = Some res /\
    dict_get results' d = Some res' /\
    (dim_score res <= dim_score res')%Q.
Proof.
  intros Hv Hv' Hd Hdir.
  exists (map (fun d => (d, dimension_summary r d)) (keys DIMENSION_LABELS)),
         (map (fun d => (d, dimension_summary r' d)) (keys DIMENSION_LABELS)),
         (dimension_summary r d), (dimension_summary r' d).
  split; [|split; [|split; [|split]]].
  - apply (compute_dimension_scores_summary r (validated_rating_set r Hv)).
    intros d0 Hd0. now apply validated_collects.
  - apply (compute_dimension_scores_summary r' (validated_rating_set r' Hv')).
    intros d0 Hd0. now apply validated_collects.
  - now apply (dict_get_map (fun d => dimension_summary r d)).
  - now apply (dict_get_map (fun d => dimension_summary r' d)).
  - rewrite (proj1 (summary_by_items r d Hv Hd)),
            (proj1 (summary_by_items r' d Hv' Hd)).
    apply py_round_mono, rescale_le, mean_of_le.
    intros c Hc. specialize (Hdir c Hc). unfold final_rating.
    destruct (is_reversed c); lia.
Qed.

Lemma dimension_score_monotone_witness :
  exists results results' res res',
    compute_dimension_scores (ratings_all 3) = Ok results /\
    compute_dimension_scores ratings_one_four = Ok results' /\
    dict_get results "attention" = Some res /\
    dict_get results' "attention" = Some res' /\
    (dim_score res <= dim_score res')%Q.
Proof.
  apply dimension_score_monotone.
  - split; vm_compute; reflexivity.
  - split; vm_compute; reflexivity.
  - apply mem_In. vm_compute. reflexivity.
  - assert (H : forallb (fun c =>
                  if is_reversed c
                  then rating ratings_one_four c <=? rating (ratings_all 3) c
                  else rating (ratings_all 3) c <=? rating ratings_one_four c)
                (dimension_items "attention") = true)
      by (vm_compute; reflexivity).
    rewrite forallb_forall in H. intros c Hc. specialize (H c Hc).
    destruct (is_reversed c); now apply Z.leb_le.
Defined.

(** ** Chronotype index: absent items and ranges *)

Lemma lookup_all_first_missing (ratings : dict pyval) (codes : list string) :
  lookup_all ratings codes =
    match first_missing ratings codes with
    | Some c => Raise (Exn KeyError (Key_fehlt c))
    | None => Ok (map (value_of ratings) codes)
    end.
Proof.
  unfold first_missing. induction codes as [|c codes IH]; [reflexivity|].
  cbn [lookup_all find map]. unfold dict_item.
  assert (Hm : dict_mem c ratings
               = match dict_get ratings c with
                 | Some _ => true
                 | None => false
                 end) by reflexivity.
  rewrite Hm. unfold value_of at 1.
  destruct (dict_get ratings c) as [v|]; cbn [negb bind]; [|reflexivity].
  rewrite IH.
  destruct (find (fun c0 => negb (dict_mem c0 ratings)) codes); reflexivity.
Qed.

Lemma first_missing_app (ratings : dict pyval) (a b : list string) :
  first_missing ratings (a ++ b) =
    match first_missing ratings a with
    | Some c => Some c
    | None => first_missing ratings b
    end.
Proof.
  unfold first_missing. induction a as [|c a IH]; [reflexivity|].
  simpl. destruct (negb (dict_mem c ratings)); [reflexivity|exact IH].
Qed.

Lemma compute_chronotype_index_missing (ratings : dict pyval) (c : string) :
  first_missing ratings (morning_items ++ evening_items) = Some c ->
  compute_chronotype_index ratings
    = Raise (Exn ValueError (Fehlender_Chronotyp_Wert c)).
Proof.
  rewrite first_missing_app. intros H.
  unfold compute_chronotype_index.
  rewrite !lookup_all_first_missing.
  destruct (first_missing ratings morning_items) as [c1|].
  - injection H as ->. reflexivity.
  - rewrite H. reflexivity.
Qed.

(** X6. When a chronotype item is absent, [compute_chronotype_index] raises
    [ValueError] naming the first absent code in the order A8, A13, A14,
    A15, A9, A16 (the [KeyError] of the lookup does not escape), and
    [compute_additional_indices], on a mapping whose ratings are integers
    of [1..5], raises a [RuntimeError] that wraps this message: the absence
    is reported as an internal consistency fault, not as a validation
    error. *)
Theorem chronotype_item_absent (ratings : dict pyval) (c : string) :
  first_missing ratings (morning_items ++ evening_items) = Some c ->
  In c (morning_items ++ evening_items) /\
  dict_mem c ratings = false /\
  compute_chronotype_index ratings
    = Raise (Exn ValueError (Fehlender_Chronotyp_Wert c)) /\
  (Forall (fun kv => likert_ok (snd kv) = true) ratings ->
   compute_additional_indices ratings
     = Raise (Exn RuntimeError
                (Interner_Konsistenzfehler (Fehlender_Chronotyp_Wert c)))).
Proof.
  intros H. pose proof (compute_chronotype_index_missing ratings c H) as Hc.
  unfold first_missing in H. apply find_some in H. destruct H as [Hin Hm].
  apply negb_true_iff in Hm.
  split; [exact Hin|]. split; [exact Hm|]. split; [exact Hc|].
  intros Hf. unfold compute_additional_indices.
  destruct (forallb (fun c0 => dict_mem c0 ratings) avoid_items) eqn:Hav.
  - rewrite forallb_forall in Hav.
    assert (Hget : forall c0, In c0 avoid_items ->
              exists v, dict_get ratings c0 = Some v /\ likert_ok v = true).
    { intros c0 Hc0. apply rating_set_get; [exact Hf|now apply Hav]. }
    destruct (lookup_mean ratings avoid_items) as [vs [q [Hvs [Hq [Hlen E]]]]];
      [discriminate|exact (get_int_of_ok _ _ Hget)|].
    assert (Hb : (1 <= q)%Q /\ (q <= 5)%Q).
    { rewrite E. apply mean_of_bounds; [discriminate|].
      now apply ratings_in_range. }
    destruct (classify_rescaled q (proj1 Hb) (proj2 Hb)) as [level Hl].
    rewrite Hvs. cbn [bind]. rewrite Hq. cbn [bind]. rewrite Hl.
    cbn [bind]. rewrite Hc. reflexivity.
  - cbn [bind]. rewrite Hc. reflexivity.
Qed.

Lemma chronotype_item_absent_witness :
  compute_chronotype_index (without ["A13"; "A9"] (ratings_all 3))
    = Raise (Exn ValueError (Fehlender_Chronotyp_Wert "A13")) /\
  compute_additional_indices (without ["A13"; "A9"] (ratings_all 3))
    = Raise (Exn RuntimeError
               (Interner_Konsistenzfehler (Fehlender_Chronotyp_Wert "A13"))).
Proof.
  destruct (chronotype_item_absent (without ["A13"; "A9"] (ratings_all 3))
              "A13") as [_ [_ [H1 H2]]].
  - vm_compute. reflexivity.
  - split; [exact H1|]. apply H2.
    apply Forall_forall.
    apply (proj1 (forallb_forall (fun kv => likert_ok (snd kv)) _)).
    vm_compute. reflexivity.
Defined.

(** X7. On a mapping that holds the six chronotype items with integer
    ratings of [1..5], the chronotype index always exists, both tendencies
    lie in [0, 100], the balance lies in [-4, 4], the interpretation is one
    of the five fixed texts, and six items are reported. *)
Theorem chronotype_index_in_range (ratings : dict pyval) :
  (forall c, In c (morning_items ++ evening_items) ->
     exists v, dict_get ratings c = Some v /\ likert_ok v = true) ->
  exists ch,
    compute_chronotype_index ratings = Ok ch /\
    (0 <= morning_tendency ch)%Q /\ (morning_tendency ch <= 100)%Q /\
    (0 <= evening_tendency ch)%Q /\ (evening_tendency ch <= 100)%Q /\
    (- (4) <= balance_score ch)%Q /\ (balance_score ch <= 4)%Q /\
    In (interpretation ch) interpretations /\
    chr_num_items ch = 6%nat /\
    chr_item_codes ch = ["A8"; "A13"; "A14"; "A15"; "A9"; "A16"].
Proof.
  intros Hget.
  destruct (compute_chronotype_index_ints ratings (get_int_of_ok _ _ Hget))
    as [mo [ev [Emo [Eev Hch]]]].
  eexists. split; [exact Hch|].
  cbn [morning_tendency evening_tendency balance_score interpretation
       chr_num_items chr_item_codes].
  assert (Hmo : (1 <= mo)%Q /\ (mo <= 5)%Q).
  { rewrite Emo. apply mean_of_bounds; [discriminate|].
    apply ratings_in_range. intros c Hc. apply Hget, in_or_app. now left. }
  assert (Hev : (1 <= ev)%Q /\ (ev <= 5)%Q).
  { rewrite Eev. apply mean_of_bounds; [discriminate|].
    apply ratings_in_range. intros c Hc. apply Hget, in_or_app. now right. }
  destruct (rescale_bounds mo (proj1 Hmo) (proj2 Hmo)) as [Hm0 Hm100].
  destruct (rescale_bounds ev (proj1 Hev) (proj2 Hev)) as [He0 He100].
  destruct (py_round_bounds _ 1 0 100 Hm0 Hm100) as [A1 A2].
  destruct (py_round_bounds _ 1 0 100 He0 He100) as [B1 B2].
  destruct (py_round_bounds (ev - mo) 2 (-4) 4) as [C1 C2].
  { change (inject_Z (-4)) with (- (4))%Q. lra. }
  { change (inject_Z 4) with 4%Q. lra. }
  repeat (split; [assumption|]).
  split; [|split; reflexivity].
  unfold interpret_balance, interpretations.
  repeat match goal with
         | |- context [Qltb ?x ?y] => destruct (Qltb x y)
         end; simpl; tauto.
Qed.

Lemma chronotype_index_in_range_witness :
  exists ch,
    compute_chronotype_index (ratings_all 3) = Ok ch /\
    (0 <= morning_tendency ch)%Q /\ (morning_tendency ch <= 100)%Q /\
    (0 <= evening_tendency ch)%Q /\ (evening_tendency ch <= 100)%Q /\
    (- (4) <= balance_score ch)%Q /\ (balance_score ch <= 4)%Q /\
    In (interpretation ch) interpretations /\
    chr_num_items ch = 6%nat /\
    chr_item_codes ch = ["A8"; "A13"; "A14"; "A15"; "A9"; "A16"].
Proof.
  apply chronotype_index_in_range.
  intros c Hc. apply validated_get.
  - split; vm_compute; reflexivity.
  - now apply chronotype_items_known.
Defined.

(** ** Range of the response-quality indicators *)

Lemma inject_Z_length_cons {A : Type} (x : A) (l : list A) :
  inject_Z (Z.of_nat (length (x :: l)))
  = (inject_Z (Z.of_nat (length l)) + 1)%Q.
Proof.
  cbn [length]. rewrite Nat2Z.inj_succ. unfold Z.succ.
  now rewrite inject_Z_plus.
Qed.

Lemma sum_sq_shift (a m : Q) (zs : list Z) :
  (sum_sq m zs ==
   sum_sq a zs
   - 2 * (m - a) * (inject_Z (sumZ zs) - inject_Z (Z.of_nat (length zs)) * a)
   + inject_Z (Z.of_nat (length zs)) * (m - a) * (m - a))%Q.
Proof.
  induction zs as [|z zs IH].
  - simpl. ring.
  - rewrite inject_Z_length_cons. cbn [sum_sq sumZ fold_right].
    fold (sum_sq m zs). fold (sum_sq a zs). fold (sumZ zs).
    rewrite inject_Z_plus, IH. ring.
Qed.

Lemma Qsquare_nonneg (x : Q) : (0 <= x * x)%Q.
Proof.
  destruct (Qlt_le_dec x 0) as [H|H].
  - assert (E : (x * x == (- x) * (- x))%Q) by ring. rewrite E.
    apply Qmult_le_0_compat; lra.
  - now apply Qmult_le_0_compat.
Qed.

Lemma sum_sq_nonneg (m : Q) (zs : list Z) : (0 <= sum_sq m zs)%Q.
Proof.
  induction zs as [|z zs IH]; simpl; [lra|].
  pose proof (Qsquare_nonneg (inject_Z z - m)) as H. lra.
Qed.

Lemma sum_sq_mean_le (a : Q) (zs : list Z) :
  zs <> [] -> (sum_sq (mean_of zs) zs <= sum_sq a zs)%Q.
Proof.
  intros Hne.
  assert (Hn : (0 < inject_Z (Z.of_nat (length zs)))%Q).
  { rewrite <- (Zlt_Qlt 0). destruct zs; [congruence|simpl; lia]. }
  rewrite (sum_sq_shift a (mean_of zs) zs).
  assert (E : (inject_Z (sumZ zs)
               == inject_Z (Z.of_nat (length zs)) * mean_of zs)%Q).
  { unfold mean_of. field. lra. }
  rewrite E.
  set (n := inject_Z (Z.of_nat (length zs))) in *.
  set (m := mean_of zs) in *.
  assert (Hsq : (0 <= n * ((m - a) * (m - a)))%Q).
  { apply Qmult_le_0_compat; [lra|apply Qsquare_nonneg]. }
  assert (Er : (sum_sq a zs - 2 * (m - a) * (n * m - n * a)
                + n * (m - a) * (m - a)
                == sum_sq a zs - n * ((m - a) * (m - a)))%Q) by ring.
  rewrite Er. lra.
Qed.

Lemma sum_sq_three (zs : list Z) :
  Forall (fun z => 1 <= z <= 5) zs ->
  (sum_sq 3 zs <= 4 * inject_Z (Z.of_nat (length zs)))%Q.
Proof.
  induction 1 as [|z zs Hz _ IH].
  - vm_compute. discriminate.
  - rewrite inject_Z_length_cons. cbn [sum_sq fold_right].
    fold (sum_sq 3 zs).
    assert (Hsq : ((inject_Z z - 3) * (inject_Z z - 3) <= 4)%Q).
    { change 3%Q with (inject_Z 3). change 4%Q with (inject_Z 4).
      unfold Qminus. rewrite <- inject_Z_opp, <- inject_Z_plus,
        <- inject_Z_mult, <- Zle_Qle. nia. }
    lra.
Qed.

Lemma population_variance_bounds (zs : list Z) :
  zs <> [] -> Forall (fun z => 1 <= z <= 5) zs ->
  (0 <= population_variance zs)%Q /\ (population_variance zs <= 4)%Q.
Proof.
  intros Hne Hzs.
  assert (Hn : (0 < inject_Z (Z.of_nat (length zs)))%Q).
  { rewrite <- (Zlt_Qlt 0). destruct zs; [congruence|simpl; lia]. }
  unfold population_variance. split.
  - apply Qle_shift_div_l; [exact Hn|]. rewrite Qmult_0_l.
    apply sum_sq_nonneg.
  - apply Qle_shift_div_r; [exact Hn|].
    eapply Qle_trans; [apply (sum_sq_mean_le 3 zs Hne)|].
    now apply sum_sq_three.
Qed.

Lemma distinct_count_bounds (zs : list Z) :
  zs <> [] -> Forall (fun z => 1 <= z <= 5) zs ->
  (1 <= distinct_count zs <= 5)%nat.
Proof.
  intros Hne Hzs. unfold distinct_count. split.
  - destruct zs as [|z zs]; [congruence|].
    assert (Hin : In z (nodup Z.eq_dec (z :: zs)))
      by (apply nodup_In; now left).
    destruct (nodup Z.eq_dec (z :: zs)); [destruct Hin|simpl; lia].
  - change 5%nat with (length [1; 2; 3; 4; 5]).
    apply NoDup_incl_length; [apply NoDup_nodup|].
    intros z Hz. apply nodup_In in Hz.
    rewrite Forall_forall in Hzs. specialize (Hzs z Hz).
    simpl.
    assert (z = 1 \/ z = 2 \/ z = 3 \/ z = 4 \/ z = 5) by lia.
    intuition.
Qed.

Lemma distinct_count_one (zs : list Z) :
  distinct_count zs = 1%nat -> exists a, forall z, In z zs -> z = a.
Proof.
  unfold distinct_count. intros H.
  destruct (nodup Z.eq_dec zs) as [|a [|b l]] eqn:E; try discriminate.
  exists a. intros z Hz.
  assert (Hin : In z (nodup Z.eq_dec zs)) by now apply nodup_In.
  rewrite E in Hin. destruct Hin as [->|[]]. reflexivity.
Qed.

Lemma sumZ_constant (a : Z) (zs : list Z) :
  (forall z, In z zs -> z = a) -> sumZ zs = a * Z.of_nat (length zs).
Proof.
  induction zs as [|z zs IH]; intros H; [simpl; lia|].
  cbn [sumZ fold_right length]. fold (sumZ zs).
  rewrite (H z (or_introl eq_refl)), IH by (intros y Hy; apply H; now right).
  lia.
Qed.

Lemma sum_sq_constant (a : Z) (zs : list Z) :
  (forall z, In z zs -> z = a) -> (sum_sq (inject_Z a) zs == 0)%Q.
Proof.
  induction zs as [|z zs IH]; intros H; [reflexivity|].
  cbn [sum_sq fold_right]. fold (sum_sq (inject_Z a) zs).
  rewrite (H z (or_introl eq_refl)), IH by (intros y Hy; apply H; now right).
  ring.
Qed.

Lemma population_variance_constant (a : Z) (zs : list Z) :
  zs <> [] -> (forall z, In z zs -> z = a) ->
  (population_variance zs == 0)%Q.
Proof.
  intros Hne H.
  assert (Hn : (0 < inject_Z (Z.of_nat (length zs)))%Q).
  { rewrite <- (Zlt_Qlt 0). destruct zs; [congruence|simpl; lia]. }
  assert (Em : (mean_of zs == inject_Z a)%Q).
  { unfold mean_of. rewrite (sumZ_constant a zs H), inject_Z_mult.
    field. lra. }
  unfold population_variance.
  rewrite (sum_sq_compat _ _ _ Em), (sum_sq_constant a zs H).
  field. lra.
Qed.

(** X8. [check_response_quality] divides by the number of ratings: on the
    empty mapping it raises [ZeroDivisionError]. On a validated rating set
    it returns a dict of five entries, an integer count of distinct values
    between 1 and 5, a variance in [0, 4], a mean in [1, 5] and a flag that
    is "ok" or "check"; the flag "ok" implies at least three distinct
    values; and a single distinct value (straight-lining) gives variance 0,
    the flag "check" and both warnings. *)
Theorem response_quality_in_range :
  check_response_quality []
    = Raise (Exn ZeroDivisionError Division_by_zero) /\
  forall ratings : dict pyval,
    validated ratings ->
    exists (u : nat) (v m : Q) (f : string) (w : quality_value),
      check_response_quality ratings
        = Ok [("num_unique_responses", QInt u);
              ("response_variance", QFloat v);
              ("mean_response", QFloat m);
              ("quality_flag", QStr f);
              ("warnings", w)] /\
      (1 <= u <= 5)%nat /\
      (0 <= v)%Q /\ (v <= 4)%Q /\
      (1 <= m)%Q /\ (m <= 5)%Q /\
      (f = "ok" \/ f = "check") /\
      (f = "ok" -> (3 <= u)%nat) /\
      (u = 1%nat ->
         (v == 0)%Q /\ f = "check" /\
         w = QList [QUALITY_WARN_STRAIGHT; QUALITY_WARN_LOW_VAR]).
Proof.
  split; [reflexivity|]. intros ratings Hv.
  pose proof (validated_values ratings Hv) as Hf.
  assert (Hne : ratings <> []).
  { intros E. pose proof (validated_length ratings Hv) as Hl.
    rewrite E in Hl. discriminate. }
  assert (Hints : Forall (fun kv => isinstance_int (snd kv) = true) ratings).
  { eapply Forall_impl; [|exact Hf]. intros kv. apply likert_ok_int. }
  assert (Hzs : Forall (fun z => 1 <= z <= 5) (raw_ratings ratings)).
  { unfold raw_ratings, values. rewrite map_map. apply Forall_map.
    eapply Forall_impl; [|exact Hf]. intros kv Hkv.
    now apply likert_ok_iff in Hkv. }
  assert (Hzne : raw_ratings ratings <> []).
  { unfold raw_ratings, values. intros H.
    apply map_eq_nil in H. apply map_eq_nil in H. contradiction. }
  pose proof (check_response_quality_summary ratings Hne Hints) as Hq.
  unfold quality_summary in Hq.
  do 5 eexists. split; [exact Hq|].
  set (zs := raw_ratings ratings) in *.
  destruct (population_variance_bounds zs Hzne Hzs) as [Hv0 Hv4].
  destruct (mean_of_bounds zs Hzne Hzs) as [Hm1 Hm5].
  split; [now apply distinct_count_bounds|].
  destruct (py_round_bounds _ 2 0 4 Hv0 Hv4) as [A1 A2].
  destruct (py_round_bounds _ 2 1 5 Hm1 Hm5) as [B1 B2].
  repeat (split; [assumption|]).
  split; [|split].
  - destruct (applicable_warnings (distinct_count zs)
                (population_variance zs)); [now left|now right].
  - intros Hok.
    destruct (applicable_warnings (distinct_count zs)
                (population_variance zs)) as [|w ws] eqn:Ew;
      [|discriminate].
    apply applicable_warnings_nil in Ew.
    destruct (Nat.le_gt_cases (distinct_count zs) 2) as [H|H]; [|lia].
    exfalso. apply Ew. now left.
  - intros Hone.
    destruct (distinct_count_one zs Hone) as [a Ha].
    pose proof (population_variance_constant a zs Hzne Ha) as E0.
    split.
    + rewrite (py_round_compat _ _ 2 E0). reflexivity.
    + rewrite (applicable_warnings_compat _ _ _ E0), Hone.
      split; reflexivity.
Qed.

Lemma response_quality_in_range_witness :
  exists (u : nat) (v m : Q) (f : string) (w : quality_value),
    check_response_quality ratings_one_four
      = Ok [("num_unique_responses", QInt u);
            ("response_variance", QFloat v);
            ("mean_response", QFloat m);
            ("quality_flag", QStr f);
            ("warnings", w)] /\
    (1 <= u <= 5)%nat /\ (0 <= v)%Q /\ (v <= 4)%Q.
Proof.
  destruct (proj2 response_quality_in_range ratings_one_four
              (conj eq_refl eq_refl))
    as [u [v [m [f [w [H1 [H2 [H3 [H4 _]]]]]]]]].
  exists u, v, m, f, w. split; [exact H1|]. split; [exact H2|]. now split.
Defined.

(** ** The loader *)

Lemma wf_dict_snoc {V : Type} (d : dict V) (k : string) (v : V) :
  wf_dict d -> dict_mem k d = false -> wf_dict (d ++ [(k, v)]).
Proof.
  intros Hwf Hk. apply distinct_keys_NoDup. unfold keys.
  rewrite map_app. simpl.
  apply (Permutation_NoDup (l := k :: map fst d)).
  - apply Permutation_cons_append.
  - constructor; [now apply dict_mem_not_In|now apply distinct_keys_NoDup].
Qed.

Lemma load_rows_invariant (strip : string -> string)
    (parse_int : string -> option Z) (rows : list csv_row) :
  forall (row_num : nat) (acc ratings : dict pyval),
  rating_set acc ->
  load_rows strip parse_int rows row_num acc = inr ratings ->
  rating_set ratings.
Proof.
  induction rows as [|[c t] rows IH]; intros n acc ratings Hacc H.
  - simpl in H. now injection H as <-.
  - cbn [load_rows] in H.
    destruct (String.eqb (strip c) ""); [now apply (IH _ _ _ Hacc H)|].
    destruct (dict_mem (strip c) acc) eqn:Hdup; [discriminate|].
    destruct (dict_mem (strip c) ITEM_DEFINITIONS) eqn:Hknown;
      cbn [negb] in H; [|discriminate].
    destruct (parse_int (strip t)) as [z|]; [|discriminate].
    destruct (in_likert_range z) eqn:Hr; cbn [negb] in H; [|discriminate].
    apply (IH _ _ _ ) in H; [exact H|].
    destruct Hacc as [Hwf Hf]. split; [now apply wf_dict_snoc|].
    apply Forall_app. split; [exact Hf|].
    constructor; [|constructor]. cbn [fst snd]. split.
    + now apply dict_mem_In.
    + unfold likert_ok. cbn [isinstance_int int_of]. now rewrite Hr.
Qed.

Lemma sorted_nil (l : list string) : sorted l = [] -> l = [].
Proof.
  intros H. pose proof (sorted_perm l) as Hp. rewrite H in Hp.
  now apply Permutation_sym, Permutation_nil in Hp.
Qed.

Lemma rating_set_complete_validated (ratings : dict pyval) :
  rating_set ratings ->
  missing_from (keys ITEM_DEFINITIONS) ratings = [] ->
  validated ratings.
Proof.
  intros [Hwf Hf] Hm. split; [exact Hwf|].
  apply (validate_ratings_ok ratings Hwf). split.
  - apply NoDup_Permutation.
    + now apply distinct_keys_NoDup.
    + exact ITEM_DEFINITIONS_NoDup.
    + intros c. split.
      * intros Hc. unfold keys in Hc. apply in_map_iff in Hc.
        destruct Hc as [kv [<- Hkv]].
        rewrite Forall_forall in Hf. now apply (Hf kv Hkv).
      * now apply missing_from_nil.
  - eapply Forall_impl; [|exact Hf]. now intros kv [_ H].
Qed.

Lemma load_rows_own_errors (strip : string -> string)
    (parse_int : string -> option Z) (rows : list csv_row) :
  forall (row_num : nat) (acc : dict pyval) (e : exn),
  load_rows strip parse_int rows row_num acc <> inl (Validierung e).
Proof.
  induction rows as [|[c t] rows IH]; intros n acc e; [discriminate|].
  cbn [load_rows].
  destruct (String.eqb (strip c) ""); [apply IH|].
  destruct (dict_mem (strip c) acc); [discriminate|].
  destruct (negb (dict_mem (strip c) ITEM_DEFINITIONS)); [discriminate|].
  destruct (parse_int (strip t)) as [z|]; [|discriminate].
  destruct (negb (in_likert_range z)); [discriminate|].
  apply IH.
Qed.

Lemma load_ratings_from_csv_returns_validated (strip : string -> string)
    (parse_int : string -> option Z)
    (fieldnames : option (list string)) (rows : list csv_row) :
  (forall e, load_ratings_from_csv strip parse_int fieldnames rows
             <> inl (Validierung e)) /\
  (forall ratings,
     load_ratings_from_csv strip parse_int fieldnames rows = inr ratings ->
     validated ratings).
Proof.
  assert (Hrows : forall ratings,
            load_rows strip parse_int rows 2 [] = inr ratings ->
            sorted (missing_from (keys ITEM_DEFINITIONS) ratings) = [] ->
            validated ratings).
  { intros ratings Hl Hs. apply rating_set_complete_validated.
    - apply (load_rows_invariant strip parse_int rows 2 [] ratings);
        [|exact Hl].
      split; [reflexivity|constructor].
    - now apply sorted_nil. }
  unfold load_ratings_from_csv.
  destruct (negb (has_required_fields fieldnames)).
  { split; [discriminate|]. intros ratings H. discriminate. }
  destruct (load_rows strip parse_int rows 2 []) as [e0|ratings0] eqn:Hl.
  { split; [|intros ratings H; discriminate].
    intros e H. apply (load_rows_own_errors strip parse_int rows 2 [] e).
    now rewrite Hl. }
  destruct (sorted (missing_from (keys ITEM_DEFINITIONS) ratings0)) eqn:Hs.
  - pose proof (Hrows ratings0 eq_refl Hs) as Hv.
    rewrite (proj2 Hv). split; [discriminate|].
    now intros ratings [= <-].
  - split; [discriminate|]. intros ratings H. discriminate.
Qed.

(** X9. Whatever [load_ratings_from_csv] returns is a validated rating set:
    its codes are pairwise distinct and are exactly the 88 codes of the
    taxonomy, every rating is an integer of [1..5], and [compute_profile]
    returns a profile for it. The closing call of [validate_ratings] inside
    the loader never raises: every failure of the loader is one of its own
    messages. *)
Theorem load_ratings_from_csv_validated (strip : string -> string)
    (parse_int : string -> option Z)
    (fieldnames : option (list string)) (rows : list csv_row) :
  (forall e, load_ratings_from_csv strip parse_int fieldnames rows
             <> inl (Validierung e)) /\
  (forall ratings,
     load_ratings_from_csv strip parse_int fieldnames rows = inr ratings ->
     validated ratings /\
     forall profile_id, exists p, compute_profile ratings profile_id = Ok p).
Proof.
  destruct (load_ratings_from_csv_returns_validated strip parse_int
              fieldnames rows) as [Hown Hval].
  split; [exact Hown|].
  intros ratings H. pose proof (Hval ratings H) as Hv.
  split; [exact Hv|]. intros profile_id.
  destruct (compute_profile_validated ratings profile_id Hv)
    as [p [_ [_ [_ [_ [_ [_ [Hp _]]]]]]]].
  now exists p.
Qed.

Lemma load_ratings_from_csv_validated_witness :
  validated (ratings_all 4) /\
  forall profile_id,
    exists p, compute_profile (ratings_all 4) profile_id = Ok p.
Proof.
  apply (proj2 (load_ratings_from_csv_validated no_strip one_digit
                  (Some ["item_code"; "rating"]) (rows_all "4"))
               (ratings_all 4)).
  vm_compute. reflexivity.
Defined.

Lemma load_rows_entries (strip : string -> string)
    (parse_int : string -> option Z) (rows : list csv_row) :
  forall (row_num : nat) (acc ratings : dict pyval),
  load_rows strip parse_int rows row_num acc = inr ratings ->
  exists entries,
    ratings = acc ++ entries /\
    Forall2 (row_entry strip parse_int) (nonblank_rows strip rows) entries.
Proof.
  induction rows as [|[c t] rows IH]; intros n acc ratings H.
  - simpl in H. injection H as <-. exists []. split.
    + now rewrite app_nil_r.
    + constructor.
  - cbn [load_rows] in H. unfold nonblank_rows. cbn [filter fst].
    destruct (String.eqb (strip c) "") eqn:Eb; cbn [negb].
    + exact (IH _ _ _ H).
    + destruct (dict_mem (strip c) acc); [discriminate|].
      destruct (negb (dict_mem (strip c) ITEM_DEFINITIONS)); [discriminate|].
      destruct (parse_int (strip t)) as [z|] eqn:Ep; [|discriminate].
      destruct (negb (in_likert_range z)); [discriminate|].
      destruct (IH _ _ _ H) as [entries [E Hf]].
      exists ((strip c, PInt z) :: entries). split.
      * now rewrite E, <- app_assoc.
      * constructor; [|exact Hf]. split; [reflexivity|].
        exists z. now split.
Qed.

(** X10. When [load_ratings_from_csv] returns, the mapping lists the rows
    with a non-blank code in the order of the file, one entry per row: the
    key is the stripped code and the value the integer that the stripped
    rating text denotes; so the file has exactly 88 such rows. *)
Theorem load_ratings_from_csv_entries (strip : string -> string)
    (parse_int : string -> option Z)
    (fieldnames : option (list string)) (rows : list csv_row)
    (ratings : dict pyval) :
  load_ratings_from_csv strip parse_int fieldnames rows = inr ratings ->
  Forall2 (row_entry strip parse_int) (nonblank_rows strip rows) ratings /\
  length (nonblank_rows strip rows) = 88%nat /\
  has_required_fields fieldnames = true.
Proof.
  intros H.
  pose proof (proj2 (load_ratings_from_csv_returns_validated strip parse_int
                       fieldnames rows) ratings H) as Hv.
  unfold load_ratings_from_csv in H.
  destruct (has_required_fields fieldnames); cbn [negb] in H;
    [|discriminate].
  destruct (load_rows strip parse_int rows 2 []) as [e0|ratings0] eqn:Hl;
    [discriminate|].
  destruct (sorted (missing_from (keys ITEM_DEFINITIONS) ratings0));
    [|discriminate].
  destruct (validate_ratings ratings0); [|discriminate].
  injection H as <-.
  destruct (load_rows_entries strip parse_int rows 2 [] ratings0 Hl)
    as [entries [E Hf]].
  simpl in E. subst entries.
  split; [exact Hf|]. split; [|reflexivity].
  rewrite (Forall2_length Hf). now apply validated_length.
Qed.

Lemma load_ratings_from_csv_entries_witness :
  Forall2 (row_entry no_strip one_digit)
    (nonblank_rows no_strip (("", "7") :: rows_all "4")) (ratings_all 4) /\
  length (nonblank_rows no_strip (("", "7") :: rows_all "4")) = 88%nat /\
  has_required_fields (Some ["item_code"; "rating"; "item_text"]) = true.
Proof.
  apply (load_ratings_from_csv_entries no_strip one_digit
           (Some ["item_code"; "rating"; "item_text"])
           (("", "7") :: rows_all "4") (ratings_all 4)).
  vm_compute. reflexivity.
Defined.

Lemma load_rows_error_row (strip : string -> string)
    (parse_int : string -> option Z) (rows : list csv_row) :
  forall (row_num : nat) (acc : dict pyval) (e : load_error)
         (code : string) (m : nat),
  load_rows strip parse_int rows row_num acc = inl e ->
  error_row e = Some (code, m) ->
  exists pre row post acc',
    rows = pre ++ row :: post /\
    m = (row_num + length pre)%nat /\
    load_rows strip parse_int pre row_num acc = inr acc' /\
    strip (fst row) = code /\ code <> "" /\
    load_rows strip parse_int [row] m acc' = inl e.
Proof.
  induction rows as [|[c t] rows IH]; intros n acc e code m H He;
    [discriminate|].
  assert (Hskip : forall acc1,
            load_rows strip parse_int rows (S n) acc1 = inl e ->
            load_rows strip parse_int [(c, t)] n acc = inr acc1 ->
            exists pre row post acc',
              (c, t) :: rows = pre ++ row :: post /\
              m = (n + length pre)%nat /\
              load_rows strip parse_int pre n acc = inr acc' /\
              strip (fst row) = code /\ code <> "" /\
              load_rows strip parse_int [row] m acc' = inl e).
  { intros acc1 H1 Hrow.
    destruct (IH _ _ _ _ _ H1 He)
      as [pre [row [post [acc' [E [Em [Hpre [Hc [Hne Herr]]]]]]]]].
    exists ((c, t) :: pre), row, post, acc'.
    split; [now rewrite E|].
    split; [rewrite Em; cbn [Datatypes.length];
            now rewrite Nat.add_succ_r|].
    split; [|now repeat split].
    cbn [load_rows] in Hrow |- *.
    destruct (String.eqb (strip c) ""); [now injection Hrow as <-|].
    destruct (dict_mem (strip c) acc); [discriminate|].
    destruct (negb (dict_mem (strip c) ITEM_DEFINITIONS)); [discriminate|].
    destruct (parse_int (strip t)) as [z|]; [|discriminate].
    destruct (negb (in_likert_range z)); [discriminate|].
    now injection Hrow as <-. }
  assert (Hhere : load_rows strip parse_int [(c, t)] n acc = inl e ->
            String.eqb (strip c) "" = false ->
            exists pre row post acc',
              (c, t) :: rows = pre ++ row :: post /\
              m = (n + length pre)%nat /\
              load_rows strip parse_int pre n acc = inr acc' /\
              strip (fst row) = code /\ code <> "" /\
              load_rows strip parse_int [row] m acc' = inl e).
  { intros Hrow Hnb.
    assert (Hcm : code = strip c /\ m = n).
    { cbn [load_rows] in Hrow. rewrite Hnb in Hrow.
      destruct (dict_mem (strip c) acc);
        [injection Hrow as <-; simpl in He; now injection He as <- <-|].
      destruct (negb (dict_mem (strip c) ITEM_DEFINITIONS));
        [injection Hrow as <-; simpl in He; now injection He as <- <-|].
      destruct (parse_int (strip t)) as [z|];
        [|injection Hrow as <-; simpl in He; now injection He as <- <-].
      destruct (negb (in_likert_range z));
        [injection Hrow as <-; simpl in He; now injection He as <- <-|].
      discriminate. }
    destruct Hcm as [-> ->].
    exists [], (c, t), rows, acc.
    split; [reflexivity|].
    split; [cbn [Datatypes.length]; now rewrite Nat.add_0_r|].
    split; [reflexivity|].
    split; [reflexivity|]. split; [|exact Hrow].
    intros E. rewrite E in Hnb. discriminate. }
  cbn [load_rows] in H, Hskip, Hhere.
  destruct (String.eqb (strip c) "") eqn:Eb.
  { now apply (Hskip acc). }
  destruct (dict_mem (strip c) acc); [now apply Hhere|].
  destruct (negb (dict_mem (strip c) ITEM_DEFINITIONS)); [now apply Hhere|].
  destruct (parse_int (strip t)) as [z|]; [|now apply Hhere].
  destruct (negb (in_likert_range z)); [now apply Hhere|].
  now apply (Hskip (acc ++ [(strip c, PInt z)])).
Qed.

Lemma Forall2_In_r {A B : Type} (R : A -> B -> Prop) (l : list A)
    (l' : list B) (b : B) :
  Forall2 R l l' -> In b l' -> exists a, In a l /\ R a b.
Proof.
  induction 1 as [|x y l l' Hxy _ IH]; intros Hin; [destruct Hin|].
  destruct Hin as [<-|Hin].
  - exists x. split; [now left|exact Hxy].
  - destruct (IH Hin) as [a [Ha HR]]. exists a. split; [now right|exact HR].
Qed.

(** X11. A row-level failure of [load_ratings_from_csv] (duplicate entry,
    unknown code, unreadable rating, rating out of range) names the first
    offending row: with the header as row 1, the reported number is that of
    a row whose stripped code is the reported, non-blank code, and all rows
    before it were accepted or skipped. The failure is the duplicate-entry
    one exactly when an earlier accepted row carries the same code. *)
Theorem load_ratings_from_csv_error_row (strip : string -> string)
    (parse_int : string -> option Z)
    (fieldnames : option (list string)) (rows : list csv_row)
    (e : load_error) (code : string) (m : nat) :
  load_ratings_from_csv strip parse_int fieldnames rows = inl e ->
  error_row e = Some (code, m) ->
  exists pre row post accepted,
    rows = pre ++ row :: post /\
    m = (2 + length pre)%nat /\
    strip (fst row) = code /\ code <> "" /\
    load_rows strip parse_int pre 2 [] = inr accepted /\
    (e = Doppelter_Eintrag code m <->
     exists earlier, In earlier pre /\ strip (fst earlier) = code).
Proof.
  intros H He. unfold load_ratings_from_csv in H.
  destruct (negb (has_required_fields fieldnames));
    [injection H as <-; discriminate|].
  destruct (load_rows strip parse_int rows 2 []) as [e0|ratings0] eqn:Hl.
  - injection H as ->.
    destruct (load_rows_error_row strip parse_int rows 2 [] e code m Hl He)
      as [pre [row [post [acc' [E [Em [Hpre [Hc [Hne Herr]]]]]]]]].
    exists pre, row, post, acc'.
    split; [exact E|]. split; [exact Em|]. split; [exact Hc|].
    split; [exact Hne|]. split; [exact Hpre|].
    destruct (load_rows_entries strip parse_int pre 2 [] acc' Hpre)
      as [entries [Eacc Hf]]. simpl in Eacc. subst entries.
    destruct row as [c t]. cbn [fst] in Hc. cbn [load_rows] in Herr.
    rewrite Hc in Herr.
    destruct (String.eqb code ""); [discriminate|].
    destruct (dict_mem code acc') eqn:Hdup.
    + injection Herr as <-. split; [intros _|reflexivity].
      apply dict_mem_In in Hdup. unfold keys in Hdup.
      apply in_map_iff in Hdup. destruct Hdup as [kv [Ek Hkv]].
      destruct (Forall2_In_r _ _ _ _ Hf Hkv) as [row' [Hin [Hfst _]]].
      exists row'. split.
      * unfold nonblank_rows in Hin. now apply filter_In in Hin.
      * congruence.
    + split.
      * intros ->.
        destruct (negb (dict_mem code ITEM_DEFINITIONS)); [discriminate|].
        destruct (parse_int (strip t)) as [z|]; [|discriminate].
        destruct (negb (in_likert_range z)); discriminate.
      * intros [earlier [Hin Hcode]]. exfalso.
        apply dict_mem_not_In in Hdup. apply Hdup.
        assert (Hnb : In earlier (nonblank_rows strip pre)).
        { unfold nonblank_rows. apply filter_In. split; [exact Hin|].
          rewrite Hcode. apply negb_true_iff.
          now apply String.eqb_neq. }
        clear - Hf Hnb Hcode.
        induction Hf as [|r kv l l' [Hk _] _ IH]; [destruct Hnb|].
        destruct Hnb as [->|Hnb].
        -- left. cbn [fst]. congruence.
        -- right. now apply IH.
  - destruct (sorted (missing_from (keys ITEM_DEFINITIONS) ratings0)).
    + destruct (validate_ratings ratings0);
        [discriminate|injection H as <-; discriminate].
    + injection H as <-. discriminate.
Qed.

Lemma load_ratings_from_csv_error_row_witness :
  exists pre row post accepted,
    rows_with_duplicate = pre ++ row :: post /\
    4%nat = (2 + length pre)%nat /\
    no_strip (fst row) = "A2" /\ "A2" <> "" /\
    load_rows no_strip one_digit pre 2 [] = inr accepted /\
    (Doppelter_Eintrag "A2" 4 = Doppelter_Eintrag "A2" 4 <->
     exists earlier, In earlier pre /\ no_strip (fst earlier) = "A2").
Proof.
  apply (load_ratings_from_csv_error_row no_strip one_digit
           (Some ["item_code"; "rating"]) rows_with_duplicate
           (Doppelter_Eintrag "A2" 4) "A2" 4).
  - vm_compute. reflexivity.
  - reflexivity.
Defined.

(** ** [compute_dimension_scores] called on its own *)

Lemma collect_app (a b : dict pyval) :
  forall acc,
  collect acc (a ++ b) = (acc' <- collect acc a ;; collect acc' b).
Proof.
  induction a as [|e a IH]; intros acc; [reflexivity|].
  cbn [collect app]. destruct (collect_step acc e) as [acc1|err];
    cbn [bind]; [apply IH|reflexivity].
Qed.

Lemma collect_step_auxiliary (acc : collected) (c : string) (v : pyval) :
  is_auxiliary c = true -> collect_step acc (c, v) = Ok acc.
Proof.
  unfold is_auxiliary, collect_step, dict_item. intros H.
  destruct (dict_get ITEM_DEFINITIONS c) as [i|]; [|discriminate].
  cbn [bind]. now rewrite H.
Qed.

Lemma collect_main_scale_part (ratings : dict pyval) :
  forall acc, collect acc ratings = collect acc (main_scale_part ratings).
Proof.
  induction ratings as [|[c v] ratings IH]; intros acc; [reflexivity|].
  unfold main_scale_part. cbn [filter fst].
  destruct (is_auxiliary c) eqn:Ea; cbn [negb collect].
  - rewrite (collect_step_auxiliary acc c v Ea). cbn [bind]. apply IH.
  - destruct (collect_step acc (c, v)); cbn [bind]; [apply IH|reflexivity].
Qed.

(** X12. The ratings of the eight auxiliary items (chronotype and
    avoidance) never reach the dimension scores: for every mapping,
    whatever its values, [compute_dimension_scores] gives the same result,
    or raises the same exception, as on the mapping with the auxiliary
    entries removed. *)
Theorem dimension_scores_ignore_auxiliary (ratings : dict pyval) :
  compute_dimension_scores ratings
  = compute_dimension_scores (main_scale_part ratings).
Proof.
  unfold compute_dimension_scores.
  now rewrite (collect_main_scale_part ratings).
Qed.

(** X13. Called on its own, [compute_dimension_scores] stops at the first
    entry it cannot place: after entries with known codes and integer
    ratings of [1..5], an entry with a code outside the taxonomy raises
    [KeyError] for that code, and an entry of a reverse-scored main-scale
    item raises the [TypeError] of [reverse_likert] when its value is not
    an instance of [int] and its [ValueError] when the integer is outside
    [1..5]. *)
Theorem dimension_scores_first_bad_entry (pre post : dict pyval)
    (c : string) (v : pyval) :
  Forall (fun kv => In (fst kv) (keys ITEM_DEFINITIONS) /\
                    likert_ok (snd kv) = true) pre ->
  (~ In c (keys ITEM_DEFINITIONS) ->
     compute_dimension_scores (pre ++ (c, v) :: post)
       = Raise (Exn KeyError (Key_fehlt c))) /\
  (is_reversed c = true -> is_auxiliary c = false ->
     (isinstance_int v = false ->
        compute_dimension_scores (pre ++ (c, v) :: post)
          = Raise (Exn TypeError (Likert_kein_int v))) /\
     (isinstance_int v = true -> ~ 1 <= int_of v <= 5 ->
        compute_dimension_scores (pre ++ (c, v) :: post)
          = Raise (Exn ValueError (Likert_ausserhalb v)))).
Proof.
  intros Hpre.
  assert (Hstep : forall e,
            collect_step (collected_of pre) (c, v) = Raise e ->
            compute_dimension_scores (pre ++ (c, v) :: post) = Raise e).
  { intros e He. unfold compute_dimension_scores.
    change {| dim_values := empty_lists pyval;
              dim_items := empty_lists string;
              dim_raw_values := empty_lists pyval |} with (collected_of []).
    rewrite collect_app, (collect_of pre [] Hpre). cbn [bind app collect].
    now rewrite He. }
  split.
  - intros Hc. apply Hstep. unfold collect_step, dict_item.
    apply dict_get_None in Hc. now rewrite Hc.
  - intros Hrev Haux.
    unfold is_reversed in Hrev. unfold is_auxiliary in Haux.
    destruct (dict_get ITEM_DEFINITIONS c) as [i|] eqn:Ei; [|discriminate].
    apply negb_false_iff in Haux.
    assert (Hd : In (dimension_code i) (keys DIMENSION_LABELS)).
    { destruct (known_item c) as [i' [Hi' Hd']].
      - apply dict_mem_In. unfold dict_mem. now rewrite Ei.
      - rewrite Ei in Hi'. now injection Hi' as <-. }
    assert (Hraise : forall e, reverse_likert v = Raise e ->
              compute_dimension_scores (pre ++ (c, v) :: post) = Raise e).
    { intros e He. apply Hstep. unfold collect_step, dict_item.
      rewrite Ei. cbn [bind]. rewrite Haux. cbn [negb].
      unfold collected_of. cbn [dim_items dim_raw_values dim_values].
      rewrite (dict_append_map _ _ _ c DIMENSION_LABELS_NoDup Hd).
      cbn [bind].
      rewrite (dict_append_map _ _ _ v DIMENSION_LABELS_NoDup Hd).
      cbn [bind]. rewrite Hrev, He. reflexivity. }
    split.
    + intros Hi. apply Hraise. unfold reverse_likert. now rewrite Hi.
    + intros Hi Hr. apply Hraise. unfold reverse_likert. rewrite Hi.
      cbn [negb].
      destruct (in_likert_range (int_of v)) eqn:E; [|reflexivity].
      exfalso. apply Hr.
      assert (Hok : likert_ok v = true)
        by (unfold likert_ok; now rewrite Hi, E).
      now apply likert_ok_iff in Hok.
Qed.

Lemma dimension_scores_first_bad_entry_witness :
  compute_dimension_scores [("A1", PInt 3); ("Z99", PInt 3)]
    = Raise (Exn KeyError (Key_fehlt "Z99")) /\
  compute_dimension_scores [("A1", PInt 3); ("A2", PInt 9)]
    = Raise (Exn ValueError (Likert_ausserhalb (PInt 9))).
Proof.
  assert (Hpre : Forall (fun kv => In (fst kv) (keys ITEM_DEFINITIONS) /\
                                   likert_ok (snd kv) = true)
                   [("A1", PInt 3)]).
  { constructor; [|constructor].
    split; [apply mem_In; vm_compute; reflexivity|reflexivity]. }
  split.
  - apply (proj1 (dimension_scores_first_bad_entry
                    [("A1", PInt 3)] [] "Z99" (PInt 3) Hpre)).
    apply mem_not_In. vm_compute. reflexivity.
  - apply (proj2 (dimension_scores_first_bad_entry
                    [("A1", PInt 3)] [] "A2" (PInt 9) Hpre));
      try reflexivity.
    cbn [int_of]. lia.
Defined.

(** ** Mirroring the answers *)

Lemma Qfloor_unique (x : Q) (z : Z) :
  (inject_Z z <= x)%Q -> (x < inject_Z (z + 1))%Q -> Qfloor x = z.
Proof.
  intros Hlo Hhi.
  pose proof (Qfloor_le x) as H1. pose proof (Qlt_floor x) as H2.
  assert (A : (inject_Z z < inject_Z (Qfloor x + 1))%Q) by lra.
  assert (B : (inject_Z (Qfloor x) < inject_Z (z + 1))%Q) by lra.
  rewrite <- Zlt_Qlt in A, B. lia.
Qed.

Lemma round_half_even_reflect (k : Z) (y : Q) :
  Z.even k = true ->
  round_half_even (inject_Z k - y) = k - round_half_even y.
Proof.
  intros Hk.
  pose proof (Qfloor_le y) as Hlo. pose proof (Qlt_floor y) as Hhi.
  rewrite inject_Z_plus in Hhi. change (inject_Z 1) with 1%Q in Hhi.
  set (n := Qfloor y) in *.
  destruct (Qeq_dec y (inject_Z n)) as [E|Hne].
  - assert (E' : (inject_Z k - y == inject_Z (k - n))%Q).
    { rewrite E. unfold Z.sub. rewrite inject_Z_plus, inject_Z_opp. ring. }
    rewrite (round_half_even_Z _ _ E'), (round_half_even_Z _ _ E).
    reflexivity.
  - assert (Hgt : (inject_Z n < y)%Q).
    { destruct (Qle_lt_or_eq _ _ Hlo) as [H|H]; [exact H|].
      exfalso. apply Hne. now symmetry. }
    assert (Hf : Qfloor (inject_Z k - y) = k - n - 1).
    { apply Qfloor_unique.
      - unfold Z.sub. rewrite !inject_Z_plus, !inject_Z_opp.
        change (inject_Z 1) with 1%Q. lra.
      - unfold Z.sub. rewrite !inject_Z_plus, !inject_Z_opp.
        change (inject_Z 1) with 1%Q. lra. }
    unfold round_half_even. rewrite Hf. fold n.
    assert (Ei : (inject_Z (k - n - 1) == inject_Z k - inject_Z n - 1)%Q).
    { unfold Z.sub. rewrite !inject_Z_plus, !inject_Z_opp.
      change (inject_Z 1) with 1%Q. ring. }
    assert (Hev : Z.even (k - n - 1) = negb (Z.even n)).
    { replace (k - n - 1) with (k - (n + 1)) by lia.
      rewrite Z.even_sub, Hk, Z.even_add. simpl.
      now destruct (Z.even n). }
    destruct (Qcompare_spec (inject_Z k - y - inject_Z (k - n - 1)) (1 # 2))
      as [A|A|A];
      destruct (Qcompare_spec (y - inject_Z n) (1 # 2)) as [B|B|B];
      rewrite Ei in A; try (exfalso; lra); try lia.
    rewrite Hev. destruct (Z.even n); simpl; lia.
Qed.

Lemma py_round_reflect (k : Z) (x : Q) (n : nat) :
  Z.even (k * 10 ^ Z.of_nat n) = true ->
  (py_round (inject_Z k - x) n == inject_Z k - py_round x n)%Q.
Proof.
  intros Hk. unfold py_round. rewrite !Qred_correct.
  assert (Hpos : 0 < 10 ^ Z.of_nat n) by (apply Z.pow_pos_nonneg; lia).
  set (s := 10 ^ Z.of_nat n) in *.
  assert (E : ((inject_Z k - x) * inject_Z s
               == inject_Z (k * s) - x * inject_Z s)%Q)
    by (rewrite inject_Z_mult; ring).
  rewrite (round_half_even_compat _ _ E).
  rewrite (round_half_even_reflect _ _ Hk).
  rewrite !Qmake_Qdiv, Z2Pos.id by exact Hpos.
  unfold Z.sub. rewrite inject_Z_plus, inject_Z_opp, inject_Z_mult.
  field. intros H. unfold Qeq in H. simpl in H. lia.
Qed.

Lemma dict_get_mirrored (ratings : dict pyval) (c : string) :
  dict_get (mirrored ratings) c
  = match dict_get ratings c with
    | Some v => Some (PInt (6 - int_of v))
    | None => None
    end.
Proof.
  induction ratings as [|[k v] ratings IH]; [reflexivity|].
  simpl. destruct (String.eqb c k); [reflexivity|exact IH].
Qed.

Lemma keys_mirrored (ratings : dict pyval) :
  keys (mirrored ratings) = keys ratings.
Proof.
  unfold keys, mirrored. rewrite map_map. now apply map_ext.
Qed.

Lemma validated_mirrored (ratings : dict pyval) :
  validated ratings -> validated (mirrored ratings).
Proof.
  intros [Hwf Hv].
  assert (Hwf' : wf_dict (mirrored ratings))
    by (unfold wf_dict; now rewrite keys_mirrored).
  split; [exact Hwf'|].
  apply (validate_ratings_ok _ Hwf').
  apply (validate_ratings_ok _ Hwf) in Hv. destruct Hv as [Hk Hf].
  split; [now rewrite keys_mirrored|].
  unfold mirrored. apply Forall_map.
  eapply Forall_impl; [|exact Hf]. intros kv Hkv. cbn [snd].
  apply likert_ok_iff in Hkv. destruct Hkv as [_ Hr].
  apply likert_ok_iff. cbn [isinstance_int int_of]. split; [reflexivity|lia].
Qed.

Lemma mean_of_mirror (A : Type) (f g : A -> Z) (l : list A) :
  l <> [] -> (forall x, In x l -> g x = 6 - f x) ->
  (mean_of (map g l) == 6 - mean_of (map f l))%Q.
Proof.
  intros Hne Hg.
  assert (Hs : sumZ (map g l) = 6 * Z.of_nat (length l) - sumZ (map f l)).
  { clear Hne. induction l as [|x l IH]; [reflexivity|].
    cbn [map sumZ fold_right Datatypes.length].
    fold (sumZ (map g l)). fold (sumZ (map f l)).
    rewrite (Hg x (or_introl eq_refl)), IH
      by (intros y Hy; apply Hg; now right).
    lia. }
  assert (Hn : (0 < inject_Z (Z.of_nat (length l)))%Q).
  { rewrite <- (Zlt_Qlt 0). destruct l; [congruence|simpl; lia]. }
  unfold mean_of. rewrite !length_map, Hs.
  unfold Z.sub. rewrite inject_Z_plus, inject_Z_opp, inject_Z_mult.
  change (inject_Z 6) with 6%Q. field. lra.
Qed.

(** X14. Mirroring every answer of a validated rating set (rating [v]
    becomes [6 - v]) gives a validated rating set whose dimension results
    are the mirror images: each score becomes 100 minus the score, each raw
    mean 6 minus the raw mean, and the items and the counts are the same. *)
Theorem dimension_scores_mirror (ratings : dict pyval) (d : string) :
  validated ratings -> In d (keys DIMENSION_LABELS) ->
  validated (mirrored ratings) /\
  exists results results' res res',
    compute_dimension_scores ratings = Ok results /\
    compute_dimension_scores (mirrored ratings) = Ok results' /\
    dict_get results d = Some res /\
    dict_get results' d = Some res' /\
    (dim_score res' == 100 - dim_score res)%Q /\
    (dim_raw_mean res' == 6 - dim_raw_mean res)%Q /\
    dim_num_items res' = dim_num_items res /\
    dim_num_reversed res' = dim_num_reversed res.
Proof.
  intros Hv Hd. pose proof (validated_mirrored ratings Hv) as Hv'.
  split; [exact Hv'|].
  exists (map (fun d => (d, dimension_summary ratings d))
              (keys DIMENSION_LABELS)),
         (map (fun d => (d, dimension_summary (mirrored ratings) d))
              (keys DIMENSION_LABELS)),
         (dimension_summary ratings d),
         (dimension_summary (mirrored ratings) d).
  split; [|split; [|split; [|split]]].
  - apply (compute_dimension_scores_summary _ (validated_rating_set _ Hv)).
    intros d0 Hd0. now apply validated_collects.
  - apply (compute_dimension_scores_summary _ (validated_rating_set _ Hv')).
    intros d0 Hd0. now apply validated_collects.
  - now apply (dict_get_map (fun d => dimension_summary ratings d)).
  - now apply (dict_get_map (fun d => dimension_summary (mirrored ratings) d)).
  - assert (Hrat : forall c, In c (dimension_items d) ->
              rating (mirrored ratings) c = 6 - rating ratings c).
    { intros c Hc.
      destruct (validated_get ratings c Hv (dimension_items_known d c Hd Hc))
        as [v [Hg _]].
      unfold rating. now rewrite dict_get_mirrored, Hg. }
    destruct (summary_by_items ratings d Hv Hd) as [Es Er].
    destruct (summary_by_items (mirrored ratings) d Hv' Hd) as [Es' Er'].
    destruct (dimension_summary_counts ratings d Hv Hd) as [Ec En].
    destruct (dimension_summary_counts (mirrored ratings) d Hv' Hd)
      as [Ec' En'].
    pose proof (dimension_items_nonempty d Hd) as Hne.
    split; [|split; [|split]].
    + rewrite Es, Es'.
      assert (Em : (mean_of (map (final_rating (mirrored ratings))
                                 (dimension_items d))
                    == 6 - mean_of (map (final_rating ratings)
                                        (dimension_items d)))%Q).
      { apply mean_of_mirror; [exact Hne|]. intros c Hc.
        unfold final_rating. rewrite (Hrat c Hc).
        destruct (is_reversed c); lia. }
      assert (E100 : (rescale (mean_of (map (final_rating (mirrored ratings))
                                            (dimension_items d)))
                      == inject_Z 100
                         - rescale (mean_of (map (final_rating ratings)
                                                 (dimension_items d))))%Q).
      { rewrite (rescale_compat _ _ Em), !rescale_formula.
        change (inject_Z 100) with 100%Q. field. }
      rewrite (py_round_compat _ _ 1 E100).
      now rewrite py_round_reflect.
    + rewrite Er, Er'.
      assert (Em : (mean_of (map (rating (mirrored ratings))
                                 (dimension_items d))
                    == inject_Z 6 - mean_of (map (rating ratings)
                                                 (dimension_items d)))%Q).
      { change (inject_Z 6) with 6%Q. now apply mean_of_mirror. }
      rewrite (py_round_compat _ _ 2 Em).
      now rewrite py_round_reflect.
    + now rewrite Ec, Ec'.
    + now rewrite En, En'.
Qed.

Lemma dimension_scores_mirror_witness :
  validated (mirrored ratings_one_four) /\
  exists results results' res res',
    compute_dimension_scores ratings_one_four = Ok results /\
    compute_dimension_scores (mirrored ratings_one_four) = Ok results' /\
    dict_get results "attention" = Some res /\
    dict_get results' "attention" = Some res' /\
    (dim_score res' == 100 - dim_score res)%Q /\
    (dim_raw_mean res' == 6 - dim_raw_mean res)%Q /\
    dim_num_items res' = dim_num_items res /\
    dim_num_reversed res' = dim_num_reversed res.
Proof.
  apply dimension_scores_mirror.
  - split; vm_compute; reflexivity.
  - apply mem_In. vm_compute. reflexivity.
Defined.

(** ** Booleans as ratings *)

Lemma same_number_with_true (v : pyval) :
  same_number v (one_as_true v).
Proof.
  destruct v as [z| | | |]; try (left; reflexivity).
  destruct z as [|p|p]; try (left; reflexivity).
  destruct p; try (left; reflexivity).
  right. repeat split.
Qed.

Lemma same_number_int (v v' : pyval) :
  same_number v v' ->
  isinstance_int v = isinstance_int v' /\ int_of v = int_of v'.
Proof.
  intros [->|[H1 [H2 H3]]]; [now split|]. split; congruence.
Qed.

Lemma same_number_num_of (v v' : pyval) :
  same_number v v' -> num_of v = num_of v'.
Proof.
  intros [->|[H1 [H2 H3]]]; [reflexivity|].
  now rewrite (num_of_int v H1), (num_of_int v' H2), H3.
Qed.

Lemma py_sum_same (l l' : list pyval) :
  Forall2 same_number l l' -> py_sum l = py_sum l'.
Proof.
  induction 1 as [|v v' l l' Hs _ IH]; [reflexivity|].
  simpl. rewrite IH. destruct Hs as [->|[H1 [H2 H3]]]; [reflexivity|].
  now rewrite (num_of_int v H1), (num_of_int v' H2), H3.
Qed.

Lemma dict_get_with_true (ratings : dict pyval) (c : string) :
  dict_get (with_true ratings) c
  = match dict_get ratings c with
    | Some v => Some (one_as_true v)
    | None => None
    end.
Proof.
  induction ratings as [|[k v] ratings IH]; [reflexivity|].
  simpl. destruct (String.eqb c k); [reflexivity|exact IH].
Qed.

Lemma lookup_all_with_true (ratings : dict pyval) (codes : list string) :
  match lookup_all ratings codes, lookup_all (with_true ratings) codes with
  | Ok vs, Ok vs' => Forall2 same_number vs vs'
  | Raise e, Raise e' => e = e'
  | _, _ => False
  end.
Proof.
  induction codes as [|c codes IH]; [constructor|].
  cbn [lookup_all]. unfold dict_item. rewrite dict_get_with_true.
  destruct (dict_get ratings c) as [v|]; cbn [bind]; [|reflexivity].
  destruct (lookup_all ratings codes) as [vs|e];
    destruct (lookup_all (with_true ratings) codes) as [vs'|e'];
    cbn [bind]; try contradiction.
  - constructor; [apply same_number_with_true|exact IH].
  - exact IH.
Qed.

Lemma py_mean_same_lists (l l' : list pyval) :
  Forall2 same_number l l' -> py_mean l = py_mean l' /\ length l = length l'.
Proof.
  intros H. split; [|exact (Forall2_length H)].
  unfold py_mean. rewrite (py_sum_same l l' H).
  destruct (py_sum l'); cbn [bind]; [|reflexivity].
  unfold div_len. rewrite (Forall2_length H).
  destruct H; reflexivity.
Qed.

Lemma compute_chronotype_index_with_true (ratings : dict pyval) :
  compute_chronotype_index (with_true ratings)
  = compute_chronotype_index ratings.
Proof.
  unfold compute_chronotype_index.
  pose proof (lookup_all_with_true ratings morning_items) as Hm.
  pose proof (lookup_all_with_true ratings evening_items) as He.
  destruct (lookup_all ratings morning_items) as [mv|e1];
    destruct (lookup_all (with_true ratings) morning_items) as [mv'|e1'];
    try contradiction; cbn [bind]; [|now subst].
  destruct (lookup_all ratings evening_items) as [ev|e2];
    destruct (lookup_all (with_true ratings) evening_items) as [ev'|e2'];
    try contradiction; cbn [bind try_except]; [|now subst].
  destruct (py_mean_same_lists mv mv' Hm) as [-> _].
  destruct (py_mean_same_lists ev ev' He) as [-> _].
  reflexivity.
Qed.

Lemma compute_additional_indices_with_true (ratings : dict pyval) :
  compute_additional_indices (with_true ratings)
  = compute_additional_indices ratings.
Proof.
  unfold compute_additional_indices.
  rewrite compute_chronotype_index_with_true.
  assert (Hmem : forallb (fun c => dict_mem c (with_true ratings)) avoid_items
                 = forallb (fun c => dict_mem c ratings) avoid_items).
  { cbn [forallb avoid_items]. unfold dict_mem.
    rewrite !dict_get_with_true.
    destruct (dict_get ratings "M2"); destruct (dict_get ratings "M9");
      reflexivity. }
  rewrite Hmem.
  destruct (forallb (fun c => dict_mem c ratings) avoid_items);
    [|reflexivity].
  pose proof (lookup_all_with_true ratings avoid_items) as Ha.
  destruct (lookup_all ratings avoid_items) as [vs|e];
    destruct (lookup_all (with_true ratings) avoid_items) as [vs'|e'];
    try contradiction; cbn [bind]; [|now subst].
  destruct (py_mean_same_lists vs vs' Ha) as [-> ->].
  reflexivity.
Qed.

Lemma keys_with_true (ratings : dict pyval) :
  keys (with_true ratings) = keys ratings.
Proof.
  unfold keys, with_true. rewrite map_map. now apply map_ext.
Qed.

Lemma validated_with_true (ratings : dict pyval) :
  validated ratings -> validated (with_true ratings).
Proof.
  intros [Hwf Hv].
  assert (Hwf' : wf_dict (with_true ratings))
    by (unfold wf_dict; now rewrite keys_with_true).
  split; [exact Hwf'|].
  apply (validate_ratings_ok _ Hwf').
  apply (validate_ratings_ok _ Hwf) in Hv. destruct Hv as [Hk Hf].
  split; [now rewrite keys_with_true|].
  unfold with_true. apply Forall_map.
  eapply Forall_impl; [|exact Hf]. intros kv Hkv. cbn [snd].
  destruct (same_number_int _ _ (same_number_with_true (snd kv)))
    as [Hi Hz].
  unfold likert_ok in *. now rewrite <- Hi, <- Hz.
Qed.

Lemma collected_entries_with_true (ratings : dict pyval) (d : string) :
  collected_entries d (with_true ratings)
  = with_true (collected_entries d ratings).
Proof.
  unfold collected_entries, with_true.
  induction ratings as [|[c v] ratings IH]; [reflexivity|].
  cbn [map filter fst]. destruct (collects d c); cbn [map];
    now rewrite IH.
Qed.

Lemma dimension_summary_with_true (ratings : dict pyval) (d : string) :
  dimension_summary (with_true ratings) d = dimension_summary ratings d.
Proof.
  unfold dimension_summary. rewrite collected_entries_with_true.
  set (E := collected_entries d ratings).
  assert (Hfin : map int_of (map final_value (with_true E))
                 = map int_of (map final_value E)).
  { unfold with_true. rewrite !map_map. apply map_ext. intros [c v].
    unfold final_value. cbn [fst snd].
    destruct (same_number_int _ _ (same_number_with_true v)) as [_ Hz].
    destruct (is_reversed c); cbn [int_of]; now rewrite <- Hz. }
  assert (Hraw : map int_of (map snd (with_true E))
                 = map int_of (map snd E)).
  { unfold with_true. rewrite !map_map. apply map_ext. intros [c v].
    cbn [snd].
    destruct (same_number_int _ _ (same_number_with_true v)) as [_ Hz].
    now rewrite <- Hz. }
  assert (Hfst : map fst (with_true E) = map fst E).
  { unfold with_true. rewrite map_map. now apply map_ext. }
  unfold dimension_record. rewrite Hfin, Hraw, Hfst.
  unfold with_true. now rewrite length_map.
Qed.

(** X15. [validate_ratings] accepts the boolean [True] as a rating, since
    it is an instance of [int], and the scoring treats it as the rating 1:
    writing every rating 1 of a validated rating set as [True] gives a
    mapping that is validated too and has the same profile. [False] is
    rejected as out of range, not as a type mismatch. *)
Theorem booleans_as_ratings :
  (forall (ratings : dict pyval) (profile_id : option string),
     validated ratings ->
     validated (with_true ratings) /\
     compute_profile (with_true ratings) profile_id
     = compute_profile ratings profile_id) /\
  (forall (c : string) (rest : dict pyval),
     check_values ((c, PBool false) :: rest)
     = Raise (OutOfRange c (PBool false))).
Proof.
  split; [|reflexivity].
  intros ratings profile_id Hv.
  pose proof (validated_with_true ratings Hv) as Hv'.
  split; [exact Hv'|].
  assert (Hd : compute_dimension_scores (with_true ratings)
               = compute_dimension_scores ratings).
  { rewrite (compute_dimension_scores_summary _ (validated_rating_set _ Hv))
      by (intros d Hd; now apply validated_collects).
    rewrite (compute_dimension_scores_summary _ (validated_rating_set _ Hv'))
      by (intros d Hd; now apply validated_collects).
    f_equal. apply map_ext. intros d.
    now rewrite dimension_summary_with_true. }
  assert (Hne : forall x : dict pyval, validated x -> x <> []).
  { intros x Hx E. pose proof (validated_length x Hx) as Hl.
    rewrite E in Hl. discriminate. }
  assert (Hints : forall x : dict pyval, validated x ->
            Forall (fun kv => isinstance_int (snd kv) = true) x).
  { intros x Hx. eapply Forall_impl; [|exact (validated_values x Hx)].
    intros kv. apply likert_ok_int. }
  assert (Hq : check_response_quality (with_true ratings)
               = check_response_quality ratings).
  { rewrite (check_response_quality_summary _ (Hne _ Hv) (Hints _ Hv)).
    rewrite (check_response_quality_summary _ (Hne _ Hv') (Hints _ Hv')).
    f_equal. f_equal. unfold raw_ratings, values, with_true.
    rewrite !map_map. apply map_ext. intros [c v]. cbn [snd].
    destruct (same_number_int _ _ (same_number_with_true v)) as [_ Hz].
    now rewrite <- Hz. }
  unfold compute_profile.
  rewrite (proj2 Hv), (proj2 Hv'), Hd, Hq,
    compute_additional_indices_with_true.
  unfold with_true at 1. now rewrite length_map.
Qed.

Lemma booleans_as_ratings_witness :
  validated (with_true (ratings_all 1)) /\
  compute_profile (with_true (ratings_all 1)) None
  = compute_profile (ratings_all 1) None.
Proof.
  apply (proj1 booleans_as_ratings).
  split; vm_compute; reflexivity.
Defined.

(** ** Validation and the order of the entries *)

Lemma dict_mem_perm {V : Type} (r r' : dict V) (c : string) :
  Permutation r r' -> dict_mem c r = dict_mem c r'.
Proof.
  intros Hp.
  assert (Hk : Permutation (keys r) (keys r'))
    by (unfold keys; now apply Permutation_map).
  destruct (dict_mem c r) eqn:E; symmetry.
  - apply dict_mem_In. apply (Permutation_in _ Hk). now apply dict_mem_In.
  - apply dict_mem_not_In. apply dict_mem_not_In in E. intros H. apply E.
    apply (Permutation_in (l := keys r')); [now symmetry|exact H].
Qed.

Lemma missing_from_perm_dict {V : Type} (a : list string) (r r' : dict V) :
  Permutation r r' -> missing_from a r = missing_from a r'.
Proof.
  intros Hp. unfold missing_from. apply filter_ext. intros c.
  now rewrite (dict_mem_perm r r' c Hp).
Qed.

Lemma check_values_perm (r r' : dict pyval) :
  Permutation r r' ->
  check_values r = Ok tt <-> check_values r' = Ok tt.
Proof.
  intros Hp. rewrite !check_values_ok. split; intros H.
  - now rewrite <- Hp.
  - now rewrite Hp.
Qed.

(** X16. Whether [validate_ratings] accepts a mapping, and which codes it
    reports as missing or as unknown, does not depend on the order of the
    entries: two mappings with the same entries both pass, or fail with the
    same list of missing codes, or with the same list of unknown codes, or
    both fail on some entry's value. *)
Theorem validate_ratings_order (r r' : dict pyval) :
  Permutation r r' ->
  (validate_ratings r = Ok tt <-> validate_ratings r' = Ok tt) /\
  (forall l, validate_ratings r = Raise (IncompleteInput l) <->
             validate_ratings r' = Raise (IncompleteInput l)) /\
  (forall l, validate_ratings r = Raise (UnknownItemsPresent l) <->
             validate_ratings r' = Raise (UnknownItemsPresent l)).
Proof.
  intros Hp.
  assert (Hmiss : missing_from (keys ITEM_DEFINITIONS) r
                  = missing_from (keys ITEM_DEFINITIONS) r')
    by now apply missing_from_perm_dict.
  assert (Hext : Permutation (missing_from (keys r) ITEM_DEFINITIONS)
                             (missing_from (keys r') ITEM_DEFINITIONS)).
  { unfold missing_from. apply Permutation_filter_bool.
    unfold keys. now apply Permutation_map. }
  pose proof (check_values_perm r r' Hp) as Hcv.
  unfold validate_ratings. rewrite <- Hmiss.
  destruct (missing_from (keys ITEM_DEFINITIONS) r) as [|m ms].
  - destruct (missing_from (keys r) ITEM_DEFINITIONS) as [|x xs] eqn:Ex;
      destruct (missing_from (keys r') ITEM_DEFINITIONS) as [|x' xs'] eqn:Ex'.
    + split; [exact Hcv|].
      assert (Hown : forall items l,
                check_values items <> Raise (IncompleteInput l) /\
                check_values items <> Raise (UnknownItemsPresent l)).
      { intros items l. induction items as [|[c v] items IH];
          [split; discriminate|].
        cbn [check_values].
        destruct (negb (isinstance_int v)); [split; discriminate|].
        destruct (negb (in_likert_range (int_of v)));
          [split; discriminate|exact IH]. }
      split; intros l; split; intros H; exfalso.
      * exact (proj1 (Hown r l) H).
      * exact (proj1 (Hown r' l) H).
      * exact (proj2 (Hown r l) H).
      * exact (proj2 (Hown r' l) H).
    + apply Permutation_nil in Hext. discriminate.
    + apply Permutation_sym, Permutation_nil in Hext. discriminate.
    + rewrite (sorted_Permutation _ _ Hext).
      split; [split; discriminate|]. split; intros l; reflexivity.
  - split; [split; discriminate|]. split; intros l; reflexivity.
Qed.

Lemma validate_ratings_order_witness :
  validate_ratings (without ["R12"; "A1"] (ratings_all 3))
    = Raise (IncompleteInput ["A1"; "R12"]) <->
  validate_ratings (rev (without ["R12"; "A1"] (ratings_all 3)))
    = Raise (IncompleteInput ["A1"; "R12"]).
Proof.
  apply (proj1 (proj2 (validate_ratings_order
                         (without ["R12"; "A1"] (ratings_all 3))
                         (rev (without ["R12"; "A1"] (ratings_all 3)))
                         (Permutation_rev _)))).
Defined.

(** ** Avoidance index *)

(** X17. On a mapping of integer ratings of [1..5] that holds the six
    chronotype items and both avoidance items, the avoidance index exists
    with two items, a score in [0, 100] that is a multiple of 12.5 (so the
    rounding to one decimal is exact), a raw mean in [1, 5], and the level
    of that score. *)
Theorem avoidance_index_in_range (ratings : dict pyval) :
  Forall (fun kv => likert_ok (snd kv) = true) ratings ->
  forallb (fun c => dict_mem c ratings)
    (morning_items ++ evening_items ++ avoid_items) = true ->
  exists idx a,
    compute_additional_indices ratings = Ok idx /\
    dict_get idx "motivation_avoidance" = Some (Avoidance a) /\
    (av_score a
     == inject_Z (rating ratings "M2" + rating ratings "M9" - 2)
        * (125 # 10))%Q /\
    (0 <= av_score a)%Q /\ (av_score a <= 100)%Q /\
    (1 <= av_raw_mean a)%Q /\ (av_raw_mean a <= 5)%Q /\
    classify_score (PFloat (av_score a)) = Ok (av_level a) /\
    av_num_items a = 2%nat /\ av_item_codes a = ["M2"; "M9"].
Proof.
  intros Hf Hall.
  rewrite forallb_forall in Hall.
  assert (Hchr : forallb (fun c => dict_mem c ratings)
                   (morning_items ++ evening_items) = true).
  { apply forallb_forall. intros c Hc. apply Hall.
    rewrite app_assoc. apply in_or_app. now left. }
  assert (Hav : forallb (fun c => dict_mem c ratings) avoid_items = true).
  { apply forallb_forall. intros c Hc. apply Hall.
    rewrite app_assoc. apply in_or_app. now right. }
  destruct (compute_additional_indices_rating_set ratings Hf Hchr)
    as [ch [_ Hidx]].
  rewrite Hav in Hidx. destruct Hidx as [q [level [Eq [Hl Hidx]]]].
  eexists. eexists. split; [exact Hidx|]. split; [reflexivity|].
  cbn [av_score av_raw_mean av_level av_num_items av_item_codes].
  rewrite forallb_forall in Hav.
  assert (Hb : (1 <= q)%Q /\ (q <= 5)%Q).
  { rewrite Eq. apply mean_of_bounds; [discriminate|].
    apply ratings_in_range. intros c Hc.
    apply rating_set_get; [exact Hf|now apply Hav]. }
  destruct (rescale_bounds q (proj1 Hb) (proj2 Hb)) as [H0 H100].
  assert (Es : (rescale q
                == inject_Z (rating ratings "M2" + rating ratings "M9" - 2)
                   * (125 # 10))%Q).
  { rewrite (rescale_compat _ _ Eq), rescale_formula.
    unfold mean_of. cbn [map avoid_items sumZ fold_right Datatypes.length].
    rewrite Z.add_0_r. unfold Z.sub.
    rewrite !inject_Z_plus.
    change (inject_Z (Z.of_nat 2)) with 2%Q.
    change (inject_Z (- (2))) with (- (2))%Q. field. }
  assert (Ex : (py_round (rescale q) 1 == rescale q)%Q).
  { apply (py_round_exact _ _
             (125 * (rating ratings "M2" + rating ratings "M9" - 2))).
    rewrite Es, inject_Z_mult.
    change (inject_Z (10 ^ Z.of_nat 1)) with 10%Q.
    change (inject_Z 125) with 125%Q. field. }
  split; [now rewrite Ex|].
  split; [now rewrite Ex|]. split; [now rewrite Ex|].
  destruct (py_round_bounds q 2 1 5 (proj1 Hb) (proj2 Hb)) as [R1 R5].
  split; [exact R1|]. split; [exact R5|].
  split; [|split; reflexivity].
  rewrite <- Hl. symmetry. apply classify_score_compat; [|exact H0|exact H100].
  now symmetry.
Qed.

Lemma avoidance_index_in_range_witness :
  exists idx a,
    compute_additional_indices (ratings_all 2) = Ok idx /\
    dict_get idx "motivation_avoidance" = Some (Avoidance a) /\
    (av_score a == 25)%Q.
Proof.
  destruct (avoidance_index_in_range (ratings_all 2))
    as [idx [a [H1 [H2 [H3 _]]]]].
  - apply Forall_forall.
    apply (proj1 (forallb_forall (fun kv => likert_ok (snd kv)) _)).
    vm_compute. reflexivity.
  - vm_compute. reflexivity.
  - exists idx, a. split; [exact H1|]. split; [exact H2|].
    rewrite H3. vm_compute. reflexivity.
Defined.
